(** * endee-go-client: the vector submission and result-assembly pipeline

    A shallow embedding of [index.go], [compression.go], [errors.go] and the
    limits of [constants.go], with the properties of the specification
    proved over it; then the client of [endee.go] and the functions of
    [index.go] that delete and fetch a vector, with properties of their own.

    Conventions of the embedding.
    - Go's [int] is a [Z], with its wrap-around at 64 bits where a sum or a
      product could reach it; [len] gives a [Z].
    - [float32] and [float64] are IEEE 754 binary32 and binary64 values,
      written with the executable [spec_float] operations (round to nearest,
      ties to even).  Every arithmetic operation rounds on its own.
    - A function that returns [(T, error)] returns a [res T].
    - [context.Context] is never cancelled, as in [Upsert] and [Query],
      which pass [context.Background()].
    - The Go standard library ([encoding/json], [compress/zlib]), msgpack
      and the HTTP server are not code of this repository: they are
      parameters of the sections that use them. *)

From Stdlib Require Import ZArith List String Ascii Bool Lia Permutation.
From Stdlib Require Import DecimalString.
From Stdlib Require Import Floats.SpecFloat.
From stdpp Require Import base list.
Import ListNotations.

Local Open Scope string_scope.
Local Open Scope Z_scope.

(** ** Integers and lengths *)

(** [len] of a slice, a map or a string. *)
Definition len {A : Type} (l : list A) : Z := Z.of_nat (length l).

(** Go's [int] is 64 bits wide: sums and products wrap around. *)
Definition wrapInt (z : Z) : Z := (z + 2 ^ 63) mod 2 ^ 64 - 2 ^ 63.

(** ** Floating point *)

Module F32.
Definition prec : Z := 24.
Definition emax : Z := 128.
Definition t : Type := spec_float.

Definition zero : t := S754_zero false.
(** The constant [1.0]. *)
Definition one : t := S754_finite false 8388608 (-23).

Definition add : t -> t -> t := SFadd prec emax.
Definition sub : t -> t -> t := SFsub prec emax.
Definition mul : t -> t -> t := SFmul prec emax.
Definition div : t -> t -> t := SFdiv prec emax.
(** Go's [==] on floats: false on NaN, [+0 == -0]. *)
Definition eqb : t -> t -> bool := SFeqb.

(** [float32(n)] for an integer [n]. *)
Definition of_Z (n : Z) : t := binary_normalize prec emax n 0 false.

(** Neither NaN nor an infinity. *)
Definition is_finite (x : t) : bool :=
  match x with
  | S754_zero _ | S754_finite _ _ _ => true
  | S754_infinity _ | S754_nan => false
  end.
End F32.

Module F64.
Definition prec : Z := 53.
Definition emax : Z := 1024.
Definition t : Type := spec_float.

Definition sqrt : t -> t := SFsqrt prec emax.

(** [float64(x)] for a [float32] [x]: exact, the mantissa is realigned. *)
Definition of_f32 (x : F32.t) : t :=
  match x with
  | S754_finite s m e => binary_round prec emax s m e
  | _ => x
  end.

(** [float32(x)] for a [float64] [x]: rounds to binary32. *)
Definition to_f32 (x : t) : F32.t :=
  match x with
  | S754_finite s m e => binary_round F32.prec F32.emax s m e
  | _ => x
  end.

Definition is_finite (x : t) : bool := F32.is_finite x.
End F64.

(** ** constants.go *)

Definition MaxVectorsPerBatch : Z := 1000.
Definition MaxTopKAllowed : Z := 512.
Definition MaxEfSearchAllowed : Z := 1024.

(** ** Errors

    One constructor per error the code builds, in the order of the source;
    [Error] gives the message of [err.Error()].  An error that a library
    returns is a [LibError] with the library's message. *)

Inductive error : Type :=
  | LibError (msg : string)
  (* encoding/json: UnsupportedTypeError, UnsupportedValueError *)
  | ErrJSONUnsupported
  (* index.go *)
  | ErrCreateRequest (cause : error)
  | ErrExecuteRequest (cause : error)
  | ErrDimensionMismatch (expected got : Z)
  | ErrBatchTooLarge
  | ErrEmptyID (index : nat)
  | ErrSparseTogether (id : string)
  | ErrSparseSameLength (id : string)
  | ErrCompressMetadata (cause : error)
  | ErrSerializeFilter (cause : error)
  | ErrUpsertFailed (cause : error)
  | ErrTopK
  | ErrEf
  | ErrNoQueryInput
  | ErrQuerySparseTogether
  | ErrQuerySparseSameLength
  | ErrMarshalRequest (cause : error)
  | ErrReadResponseBody (cause : error)
  | ErrUnmarshalResponse (cause : error)
  | ErrInvalidResultFormat (got : nat)
  (* errors.go *)
  | ErrReadErrorResponse (cause : error)
  | APIError (StatusCode : Z) (Message : string)
  | AuthenticationError (Message : string)
  | NotFoundError (Message : string)
  | ForbiddenError (Message : string)
  | ConflictError (Message : string)
  | SubscriptionError (Message : string)
  | ServerError (Message : string).

(** [%d] *)
Definition itoa (n : Z) : string := NilZero.string_of_int (Z.to_int n).

Fixpoint Error (e : error) : string :=
  match e with
  | LibError msg => msg
  | ErrJSONUnsupported => "json: unsupported value"
  | ErrCreateRequest cause => "failed to create request: " ++ Error cause
  | ErrExecuteRequest cause => "failed to execute request: " ++ Error cause
  | ErrDimensionMismatch expected got =>
      "vector dimension mismatch: expected " ++ itoa expected
      ++ ", got " ++ itoa got
  | ErrBatchTooLarge =>
      "cannot insert more than " ++ itoa MaxVectorsPerBatch
      ++ " vectors at a time"
  | ErrEmptyID index =>
      "id must not be empty (item index " ++ itoa (Z.of_nat index) ++ ")"
  | ErrSparseTogether id =>
      "sparse_indices and sparse_values must both be provided together (item id: "
      ++ id ++ ")"
  | ErrSparseSameLength id =>
      "sparse_indices and sparse_values must have the same length (item id: "
      ++ id ++ ")"
  | ErrCompressMetadata cause => "failed to compress metadata: " ++ Error cause
  | ErrSerializeFilter cause => "failed to serialize filter: " ++ Error cause
  | ErrUpsertFailed cause => "upsert failed: " ++ Error cause
  | ErrTopK => "top_k must be between 1 and " ++ itoa MaxTopKAllowed
  | ErrEf => "ef must be between 0 and " ++ itoa MaxEfSearchAllowed
  | ErrNoQueryInput =>
      "at least one of vector (dense) or sparse_indices/sparse_values must be provided"
  | ErrQuerySparseTogether =>
      "sparse_indices and sparse_values must both be provided together"
  | ErrQuerySparseSameLength =>
      "sparse_indices and sparse_values must have the same length"
  | ErrMarshalRequest cause => "failed to marshal request data: " ++ Error cause
  | ErrReadResponseBody cause => "failed to read response body: " ++ Error cause
  | ErrUnmarshalResponse cause => "failed to unmarshal response: " ++ Error cause
  | ErrInvalidResultFormat got =>
      "invalid result format: expected at least 5 elements, got "
      ++ itoa (Z.of_nat got)
  | ErrReadErrorResponse cause => "failed to read error response: " ++ Error cause
  | APIError StatusCode Message =>
      "Endee API Error " ++ itoa StatusCode ++ ": " ++ Message
  | AuthenticationError Message => "Authentication Error: " ++ Message
  | NotFoundError Message => "Resource Not Found: " ++ Message
  | ForbiddenError Message => "Forbidden: " ++ Message
  | ConflictError Message => "Conflict: " ++ Message
  | SubscriptionError Message => "Subscription Error: " ++ Message
  | ServerError Message => "Server Busy: " ++ Message
  end.

Inductive res (A : Type) : Type :=
  | Ok (a : A)
  | Err (e : error).
Arguments Ok {A} a.
Arguments Err {A} e.

(** ** index.go: the index and vector normalisation *)

Record Index : Type := {
  Name : string;
  Token : string;
  URL : string;
  SpaceType : string;
  Dimension : Z;
  SparseDim : Z
}.

(** The accumulation loop of [normalizeVector]: [sum += v * v] from 0. *)
Definition sumSquares (vector : list F32.t) : F32.t :=
  fold_left (fun sum v => F32.add sum (F32.mul v v)) vector F32.zero.

(** [float32(math.Sqrt(float64(sum)))]. *)
Definition euclideanNorm (vector : list F32.t) : F32.t :=
  F64.to_f32 (F64.sqrt (F64.of_f32 (sumSquares vector))).

Definition normalizeVector (idx : Index) (vector : list F32.t)
  : res (list F32.t * F32.t) :=
  if negb (len vector =? Dimension idx) then
    Err (ErrDimensionMismatch (Dimension idx) (len vector))
  else if negb (String.eqb (SpaceType idx) "cosine") then
    Ok (vector, F32.one)
  else
    let norm := euclideanNorm vector in
    if F32.eqb norm F32.zero then
      Ok (vector, F32.one)
    else
      Ok (map (fun x => F32.div x norm) vector, norm).


(** ** Decoded wire values

    What an [interface{}] can hold once msgpack or JSON has decoded it, and
    what a caller can put into a metadata or filter mapping.  [VChan] stands
    for the values JSON cannot encode (channels, functions, complex
    numbers). *)

Set Warnings "-register-all".

Inductive value : Type :=
  | VNil
  | VBool (b : bool)
  | VInt (n : Z)
  | VInt8 (n : Z)
  | VInt16 (n : Z)
  | VInt32 (n : Z)
  | VInt64 (n : Z)
  | VUint (n : Z)
  | VUint8 (n : Z)
  | VUint16 (n : Z)
  | VUint32 (n : Z)
  | VUint64 (n : Z)
  | VFloat32 (x : F32.t)
  | VFloat64 (x : F64.t)
  | VString (s : string)
  | VBytes (b : list Byte.byte)
  | VSlice (l : list value)
  | VMap (m : list (string * value))
  | VChan.

(** [map[string]interface{}]: the code takes its length, looks keys up and
    serialises it; a nil map is the empty one. *)
Definition gomap : Type := list (string * value).

Fixpoint mapIndex (key : string) (m : gomap) : option value :=
  match m with
  | [] => None
  | (k, v) :: rest => if String.eqb k key then Some v else mapIndex key rest
  end.

(** [string(b)] and [[]byte(s)]. *)
Definition string_of_bytes (b : list Byte.byte) : string := string_of_list_byte b.
Definition bytes_of_string (s : string) : list Byte.byte := list_byte_of_string s.

(** ** Requests and responses *)

Record QueryRequest : Type := {
  qVector : list F32.t;
  qSparseIndices : list Z;
  qSparseValues : list F32.t;
  qTopK : Z;
  qEf : Z;
  qIncludeVectors : bool;
  qFilter : string
}.

(** The array [upsertSequential] builds for one item:
    [id, meta, filter, norm, vector] and, when present, the sparse pair. *)
Record WireTuple : Type := {
  wID : string;
  wMeta : list Byte.byte;
  wFilter : string;
  wNorm : F32.t;
  wVector : list F32.t;
  wSparse : option (list Z * list F32.t)
}.

(** A request body before [json.Marshal] or [msgpack.Marshal] writes it. *)
Inductive body : Type :=
  | JSONBody (q : QueryRequest)
  | MsgpackBody (batch : list WireTuple).

Record request : Type := {
  rqIndex : Index;
  rqMethod : string;
  rqPath : string;
  rqBody : body;
  rqContentType : string
}.

(** [http.Response]: the status and what reading the body to its end gives. *)
Record response : Type := {
  StatusCode : Z;
  Body : res (list Byte.byte)
}.

(** ** The collaborators outside the repository *)

Class Platform : Type := {
  (** [runtime.NumCPU()] *)
  NumCPU : Z;
  (** [fmt.Sprintf("%v", v)] *)
  fmtSprintV : value -> string;
  (** what [json.Marshal] writes for a value it can encode *)
  jsonText : value -> list Byte.byte;
  (** [json.Unmarshal] into a [map[string]interface{}] *)
  jsonUnmarshalObject : list Byte.byte -> res gomap;
  (** [json.Decoder.Decode] into a [map[string]interface{}] *)
  jsonDecodeObject : list Byte.byte -> res gomap;
  (** a [zlib.Writer] over a buffer, written once and closed *)
  zlibCompress : list Byte.byte -> list Byte.byte;
  (** [zlib.NewReader] followed by [io.ReadAll] *)
  zlibDecompress : list Byte.byte -> res (list Byte.byte);
  (** [msgpack.Unmarshal] into a [[][]interface{}] *)
  msgpackUnmarshal : list Byte.byte -> res (list (list value));
  (** [http.NewRequest]: the error it finds in the method or the URL *)
  newRequest : request -> option error;
  (** [http.Client.Do] *)
  clientDo : request -> res response
}.

(** ** encoding/json: which values [json.Marshal] accepts

    It returns an [UnsupportedTypeError] for channels, functions and complex
    numbers and an [UnsupportedValueError] for NaN and the infinities. *)

Fixpoint jsonEncodable (v : value) : bool :=
  match v with
  | VChan => false
  | VFloat32 x => F32.is_finite x
  | VFloat64 x => F64.is_finite x
  | VSlice l => forallb jsonEncodable l
  | VMap m => forallb (fun kv => jsonEncodable (snd kv)) m
  | _ => true
  end.

Definition jsonMarshal `{Platform} (v : value) : res (list Byte.byte) :=
  if jsonEncodable v then Ok (jsonText v) else Err ErrJSONUnsupported.

(** ** compression.go *)

Definition JsonZip `{Platform} (data : gomap) : res (list Byte.byte) :=
  if len data =? 0 then Ok []
  else
    match jsonMarshal (VMap data) with
    | Err err => Err err
    | Ok jsonData => Ok (zlibCompress jsonData)
    end.

Definition JsonUnzip `{Platform} (data : list Byte.byte) : res gomap :=
  if len data =? 0 then Ok []
  else
    match zlibDecompress data with
    | Err err => Err err
    | Ok decompressed =>
        match jsonUnmarshalObject decompressed with
        | Err err => Err err
        | Ok result => Ok result
        end
    end.

(** ** errors.go *)

Definition errorMessage `{Platform} (bodyBytes : list Byte.byte) : string :=
  match jsonUnmarshalObject bodyBytes with
  | Ok errorResp =>
      match mapIndex "error" errorResp with
      | Some (VString val) => val
      | _ => string_of_bytes bodyBytes
      end
  | Err _ =>
      let msg := string_of_bytes bodyBytes in
      if String.eqb msg "" then "Unknown error" else msg
  end.

Definition checkError `{Platform} (resp : response) : option error :=
  if StatusCode resp =? 200 then None
  else
    match Body resp with
    | Err err => Some (ErrReadErrorResponse err)
    | Ok bodyBytes =>
        let msg := errorMessage bodyBytes in
        Some
          (if StatusCode resp =? 400 then APIError 400 msg
           else if StatusCode resp =? 401 then AuthenticationError msg
           else if StatusCode resp =? 402 then SubscriptionError msg
           else if StatusCode resp =? 403 then ForbiddenError msg
           else if StatusCode resp =? 404 then NotFoundError msg
           else if StatusCode resp =? 409 then ConflictError msg
           else if (StatusCode resp =? 500) || (StatusCode resp =? 502)
                   || (StatusCode resp =? 503) || (StatusCode resp =? 504)
                then ServerError "Server is busy. Please try again in sometime"
           else APIError (StatusCode resp) msg)
    end.

(** ** strings.TrimSpace

    Removes the leading and trailing white space of a UTF-8 string, as
    [unicode.IsSpace] defines it: U+0009 to U+000D, U+0020, U+0085, U+00A0,
    U+1680, U+2000 to U+200A, U+2028, U+2029, U+202F, U+205F and U+3000. *)

Definition byteIs (c : ascii) (n : N) : bool := N.eqb (N_of_ascii c) n.

Definition asciiSpace (c : ascii) : bool :=
  let n := N_of_ascii c in
  (N.leb 9 n && N.leb n 13) || N.eqb n 32.

(** U+0085 and U+00A0, encoded on two bytes. *)
Definition space2 (c1 c2 : ascii) : bool :=
  byteIs c1 194 && (byteIs c2 133 || byteIs c2 160).

(** The white space encoded on three bytes. *)
Definition space3 (c1 c2 c3 : ascii) : bool :=
  let n3 := N_of_ascii c3 in
  (byteIs c1 225 && byteIs c2 154 && byteIs c3 128)
  || (byteIs c1 226 && byteIs c2 128
      && ((N.leb 128 n3 && N.leb n3 138)
          || N.eqb n3 168 || N.eqb n3 169 || N.eqb n3 175))
  || (byteIs c1 226 && byteIs c2 129 && byteIs c3 159)
  || (byteIs c1 227 && byteIs c2 128 && byteIs c3 128).

(** Drops the white space at the head of [l]; with [mirror], [l] is a
    reversed string and the encodings are read backwards. *)
Fixpoint dropSpaces (mirror : bool) (l : list ascii) : list ascii :=
  match l with
  | [] => []
  | c1 :: rest1 =>
      if asciiSpace c1 then dropSpaces mirror rest1
      else
        match rest1 with
        | [] => l
        | c2 :: rest2 =>
            if (if mirror then space2 c2 c1 else space2 c1 c2)
            then dropSpaces mirror rest2
            else
              match rest2 with
              | [] => l
              | c3 :: rest3 =>
                  if (if mirror then space3 c3 c2 c1 else space3 c1 c2 c3)
                  then dropSpaces mirror rest3
                  else l
              end
        end
  end.

Definition TrimSpace (s : string) : string :=
  string_of_list_ascii
    (rev (dropSpaces true (rev (dropSpaces false (list_ascii_of_string s))))).

(** ** index.go: upsert *)

Record VectorItem : Type := {
  ID : string;
  Vector : list F32.t;
  SparseIndices : list Z;
  SparseValues : list F32.t;
  Meta : gomap;
  Filter : gomap
}.

(** The validation loop of [UpsertWithContext], from item [i] on. *)
Fixpoint validateItems (i : nat) (items : list VectorItem) : option error :=
  match items with
  | [] => None
  | item :: rest =>
      if String.eqb (TrimSpace (ID item)) "" then Some (ErrEmptyID i)
      else
        let hasIndices := len (SparseIndices item) >? 0 in
        let hasValues := len (SparseValues item) >? 0 in
        if negb (Bool.eqb hasIndices hasValues) then
          Some (ErrSparseTogether (ID item))
        else if hasIndices
                && negb (len (SparseIndices item) =? len (SparseValues item))
        then Some (ErrSparseSameLength (ID item))
        else validateItems (S i) rest
  end.

(** The body of the loop of [upsertSequential]. *)
Definition encodeItem `{Platform} (idx : Index) (item : VectorItem)
  : res WireTuple :=
  match normalizeVector idx (Vector item) with
  | Err err => Err err
  | Ok (normalizedVector, norm) =>
      match JsonZip (Meta item) with
      | Err err => Err (ErrCompressMetadata err)
      | Ok metaBytes =>
          match jsonMarshal (VMap (Filter item)) with
          | Err err => Err (ErrSerializeFilter err)
          | Ok filterBytes =>
              Ok {| wID := ID item;
                    wMeta := metaBytes;
                    wFilter := string_of_bytes filterBytes;
                    wNorm := norm;
                    wVector := normalizedVector;
                    wSparse :=
                      if (len (SparseIndices item) >? 0)
                         && (len (SparseValues item) >? 0)
                      then Some (SparseIndices item, SparseValues item)
                      else None |}
          end
      end
  end.

Fixpoint encodeBatch `{Platform} (idx : Index) (items : list VectorItem)
  : res (list WireTuple) :=
  match items with
  | [] => Ok []
  | item :: rest =>
      match encodeItem idx item with
      | Err err => Err err
      | Ok vectorObj =>
          match encodeBatch idx rest with
          | Err err => Err err
          | Ok vectorBatch => Ok (vectorObj :: vectorBatch)
          end
      end
  end.

Definition executeRequestWithContext `{Platform} (idx : Index)
    (method path : string) (b : body) (contentType : string)
  : res response * list request :=
  let req := {| rqIndex := idx; rqMethod := method; rqPath := path;
                rqBody := b; rqContentType := contentType |} in
  match newRequest req with
  | Some err => (Err (ErrCreateRequest err), [])
  | None =>
      match clientDo req with
      | Err err => (Err (ErrExecuteRequest err), [req])
      | Ok resp => (Ok resp, [req])
      end
  end.

(** Every function that may reach the network returns, next to its result,
    the requests it handed to the HTTP client, in order. *)
Definition upsertSequential `{Platform} (idx : Index)
    (inputArray : list VectorItem) : option error * list request :=
  match encodeBatch idx inputArray with
  | Err err => (Some err, [])
  | Ok vectorBatch =>
      match executeRequestWithContext idx "POST" "index/%s/vector/insert"
              (MsgpackBody vectorBatch) "application/msgpack" with
      | (Err err, sent) => (Some err, sent)
      | (Ok resp, sent) => (checkError resp, sent)
      end
  end.

(** [numWorkers] of [upsertConcurrent] for a batch of [n] items. *)
Definition upsertWorkers `{Platform} (n : Z) : Z :=
  let numWorkers := NumCPU in
  if n <? wrapInt (numWorkers * 2) then Z.quot (wrapInt (n + 1)) 2
  else numWorkers.

(** [batchSize] of [upsertConcurrent]. *)
Definition upsertBatchSize (n numWorkers : Z) : Z :=
  let batchSize := Z.quot (wrapInt (wrapInt (n + numWorkers) - 1)) numWorkers in
  if batchSize >? 100 then 100 else batchSize.

(** The slices [inputArray[i:end]] the dispatcher sends, [batchSize] items
    at a time; [fuel] bounds the number of rounds. *)
Fixpoint subBatches {A : Type} (fuel : nat) (batchSize : nat) (l : list A)
  : list (list A) :=
  match fuel with
  | O => []
  | S fuel' =>
      match l with
      | [] => []
      | _ => take batchSize l :: subBatches fuel' batchSize (drop batchSize l)
      end
  end.

(** [sched] is the order in which the workers report: [sched = [2; 0; 1]]
    when the third sub-batch finishes first.  The first error received is
    the one returned. *)
Definition upsertConcurrent `{Platform} (idx : Index) (sched : list nat)
    (inputArray : list VectorItem) : option error * list request :=
  let numWorkers := upsertWorkers (len inputArray) in
  let batchSize := upsertBatchSize (len inputArray) numWorkers in
  let batches := subBatches (length inputArray) (Z.to_nat batchSize) inputArray in
  let reports :=
    omap (fun j => option_map (upsertSequential idx) (batches !! j)) sched in
  let errors := omap fst reports in
  (match errors with
   | [] => None
   | err :: _ => Some (ErrUpsertFailed err)
   end,
   concat (map snd reports)).

Definition UpsertWithContext `{Platform} (idx : Index) (sched : list nat)
    (inputArray : list VectorItem) : option error * list request :=
  if len inputArray >? MaxVectorsPerBatch then (Some ErrBatchTooLarge, [])
  else if len inputArray =? 0 then (None, [])
  else
    match validateItems 0 inputArray with
    | Some err => (Some err, [])
    | None =>
        if len inputArray <=? 10 then upsertSequential idx inputArray
        else upsertConcurrent idx sched inputArray
    end.

(** ** index.go: decoding wire values *)

Definition safeStringConvert `{Platform} (val : value) : string :=
  match val with
  | VNil => ""
  | VString v => v
  | VBytes v => string_of_bytes v
  | v => fmtSprintV v
  end.

Definition toFloat32 (val : value) : F32.t :=
  match val with
  | VNil => F32.zero
  | VFloat32 v => v
  | VFloat64 v => F64.to_f32 v
  | VInt v => F32.of_Z v
  | VInt8 v => F32.of_Z v
  | VInt16 v => F32.of_Z v
  | VInt32 v => F32.of_Z v
  | VInt64 v => F32.of_Z v
  | VUint8 v => F32.of_Z v
  | VUint16 v => F32.of_Z v
  | VUint32 v => F32.of_Z v
  | VUint64 v => F32.of_Z v
  | _ => F32.zero
  end.

(** ** index.go: query *)

Record QueryResult : Type := {
  rID : string;
  rSimilarity : F32.t;
  rDistance : F32.t;
  rMeta : option gomap;
  rFilter : option gomap;
  rNorm : F32.t;
  rVector : list F32.t
}.

(** The zero value [QueryResult{}]. *)
Definition emptyQueryResult : QueryResult :=
  {| rID := ""; rSimilarity := F32.zero; rDistance := F32.zero;
     rMeta := None; rFilter := None; rNorm := F32.zero; rVector := [] |}.

(** A computation either returns or panics (a failed type assertion). *)
Inductive run (A : Type) : Type :=
  | Returns (a : A)
  | Panics.
Arguments Returns {A} a.
Arguments Panics {A}.

(** [result[i]], for an [i] the caller has checked to be in range. *)
Definition at_ (result : list value) (i : nat) : value := nth i result VNil.

(** The bytes of [result[2]]: a string, a byte slice, or nothing. *)
Definition metaDataBytesOf (v : value) : list Byte.byte :=
  match v with
  | VString s => bytes_of_string s
  | VBytes b => b
  | _ => []
  end.

Definition unzipMeta `{Platform} (metaDataBytes : list Byte.byte) : option gomap :=
  if len metaDataBytes >? 0 then
    match JsonUnzip metaDataBytes with
    | Ok meta => Some meta
    | Err _ => None
    end
  else None.

(** [result[5].([]interface{})] converted element by element. *)
Definition vectorOf (v : value) : run (list F32.t) :=
  match v with
  | VSlice vectorInterface => Returns (map toFloat32 vectorInterface)
  | _ => Panics
  end.

(** One round of the sequential loop of [QueryWithContext], for a tuple of
    at least five elements. *)
Definition decodeInline `{Platform} (result : list value) (includeVectors : bool)
  : run QueryResult :=
  let similarity := toFloat32 (at_ result 0) in
  let vectorID := safeStringConvert (at_ result 1) in
  let metaDataBytes := metaDataBytesOf (at_ result 2) in
  let filterStr := safeStringConvert (at_ result 3) in
  let normValue := toFloat32 (at_ result 4) in
  match (if (len result >? 5)
            && negb (match at_ result 5 with VNil => true | _ => false end)
         then vectorOf (at_ result 5) else Returns []) with
  | Panics => Panics
  | Returns vectorData =>
      Returns
        {| rID := vectorID;
           rSimilarity := similarity;
           rDistance := F32.sub F32.one similarity;
           rMeta := unzipMeta metaDataBytes;
           rFilter :=
             if negb (String.eqb filterStr "") then
               match jsonUnmarshalObject (bytes_of_string filterStr) with
               | Ok filterMap => Some filterMap
               | Err _ => None
               end
             else None;
           rNorm := normValue;
           rVector :=
             if includeVectors && (len vectorData >? 0) then vectorData else [] |}
  end.

Definition clearVector (r : QueryResult) : QueryResult :=
  {| rID := rID r; rSimilarity := rSimilarity r; rDistance := rDistance r;
     rMeta := rMeta r; rFilter := rFilter r; rNorm := rNorm r; rVector := [] |}.

(** The sequential loop: tuples of fewer than five elements are skipped. *)
Fixpoint decodeLoop `{Platform} (results : list (list value))
    (includeVectors : bool) : run (list QueryResult) :=
  match results with
  | [] => Returns []
  | result :: rest =>
      if len result <? 5 then decodeLoop rest includeVectors
      else
        match decodeInline result includeVectors with
        | Panics => Panics
        | Returns processed =>
            match decodeLoop rest includeVectors with
            | Panics => Panics
            | Returns processedResults => Returns (processed :: processedResults)
            end
        end
  end.

Definition processResultsSequential `{Platform} (results : list (list value))
    (includeVectors : bool) : run (list QueryResult) :=
  match decodeLoop results includeVectors with
  | Panics => Panics
  | Returns processedResults =>
      Returns (if negb includeVectors then map clearVector processedResults
               else processedResults)
  end.

Definition processResult `{Platform} (result : list value) (includeVectors : bool)
  : run (res QueryResult) :=
  if len result <? 5 then
    Returns (Err (ErrInvalidResultFormat (length result)))
  else
    let similarity := toFloat32 (at_ result 0) in
    let vectorID := safeStringConvert (at_ result 1) in
    let metaDataBytes := metaDataBytesOf (at_ result 2) in
    let filterStr := safeStringConvert (at_ result 3) in
    let normValue := toFloat32 (at_ result 4) in
    match (if includeVectors && (len result >? 5)
              && negb (match at_ result 5 with VNil => true | _ => false end)
           then vectorOf (at_ result 5) else Returns []) with
    | Panics => Panics
    | Returns vectorData =>
        Returns (Ok
          {| rID := vectorID;
             rSimilarity := similarity;
             rDistance := F32.sub F32.one similarity;
             rMeta := unzipMeta metaDataBytes;
             rFilter :=
               if negb (String.eqb filterStr "") then
                 match jsonDecodeObject (bytes_of_string filterStr) with
                 | Ok filter => Some filter
                 | Err _ => None
                 end
               else None;
             rNorm := normValue;
             rVector := vectorData |})
    end.

(** What a worker puts on the result channel for work item [index]. *)
Definition workerReport `{Platform} (results : list (list value))
    (includeVectors : bool) (index : nat)
  : option (nat * run (res QueryResult)) :=
  option_map (fun result => (index, processResult result includeVectors))
             (results !! index).

(** The collecting loop: each report is stored at its index; the first
    error received ends the call. *)
Fixpoint collect (reports : list (nat * run (res QueryResult)))
    (processedResults : list QueryResult) : run (res (list QueryResult)) :=
  match reports with
  | [] => Returns (Ok processedResults)
  | (_, Panics) :: _ => Panics
  | (_, Returns (Err err)) :: _ => Returns (Err err)
  | (index, Returns (Ok data)) :: rest =>
      collect rest (<[index := data]> processedResults)
  end.

(** [sched] is the order in which the work items are reported. *)
Definition processResultsConcurrent `{Platform} (sched : list nat)
    (results : list (list value)) (includeVectors : bool)
  : run (res (list QueryResult)) :=
  collect (omap (workerReport results includeVectors) sched)
          (replicate (length results) emptyQueryResult).

(** [json.Marshal] of a [QueryRequest] fails on a NaN or an infinity. *)
Definition queryRequestEncodable (q : QueryRequest) : bool :=
  forallb F32.is_finite (qVector q) && forallb F32.is_finite (qSparseValues q).

(** The parameter checks at the head of [QueryWithContext]. *)
Definition checkQueryParams (k ef : Z) : option error :=
  if (k <=? 0) || (k >? MaxTopKAllowed) then Some ErrTopK
  else if (ef <? 0) || (ef >? MaxEfSearchAllowed) then Some ErrEf
  else None.

(** The checks on the dense and sparse inputs that follow. *)
Definition checkQueryInputs (vector : list F32.t) (sparseIndices : list Z)
    (sparseValues : list F32.t) : option error :=
  let hasDense := len vector >? 0 in
  let hasSparseIndices := len sparseIndices >? 0 in
  let hasSparseValues := len sparseValues >? 0 in
  if negb hasDense && negb hasSparseIndices then Some ErrNoQueryInput
  else if negb (Bool.eqb hasSparseIndices hasSparseValues) then
    Some ErrQuerySparseTogether
  else if hasSparseIndices && negb (len sparseIndices =? len sparseValues) then
    Some ErrQuerySparseSameLength
  else None.

(** From the response on: status, body, msgpack, assembly. *)
Definition assembleResponse `{Platform} (sched : list nat) (resp : response)
    (includeVectors : bool) : run (res (list QueryResult)) :=
  match checkError resp with
  | Some err => Returns (Err err)
  | None =>
      match Body resp with
      | Err err => Returns (Err (ErrReadResponseBody err))
      | Ok buf =>
          match msgpackUnmarshal buf with
          | Err err => Returns (Err (ErrUnmarshalResponse err))
          | Ok results =>
              if len results >? 50 then
                processResultsConcurrent sched results includeVectors
              else
                match processResultsSequential results includeVectors with
                | Panics => Panics
                | Returns processedResults => Returns (Ok processedResults)
                end
          end
      end
  end.

Definition QueryWithContext `{Platform} (idx : Index) (sched : list nat)
    (vector : list F32.t) (sparseIndices : list Z) (sparseValues : list F32.t)
    (k : Z) (filter : option gomap) (ef : Z) (includeVectors : bool)
  : run (res (list QueryResult)) * list request :=
  match checkQueryParams k ef with
  | Some err => (Returns (Err err), [])
  | None =>
  match checkQueryInputs vector sparseIndices sparseValues with
  | Some err => (Returns (Err err), [])
  | None =>
  match normalizeVector idx vector with
  | Err err => (Returns (Err err), [])
  | Ok (normalizedVector, norm) =>
  match (match filter with
         | None => Ok ""
         | Some f =>
             match jsonMarshal (VSlice [VMap f]) with
             | Err err => Err (ErrSerializeFilter err)
             | Ok filterBytes => Ok (string_of_bytes filterBytes)
             end
         end) with
  | Err err => (Returns (Err err), [])
  | Ok filterString =>
      let requestData :=
        {| qVector := normalizedVector; qSparseIndices := sparseIndices;
           qSparseValues := sparseValues; qTopK := k; qEf := ef;
           qIncludeVectors := includeVectors; qFilter := filterString |} in
      if negb (queryRequestEncodable requestData) then
        (Returns (Err (ErrMarshalRequest ErrJSONUnsupported)), [])
      else
        match executeRequestWithContext idx "POST" "index/%s/search"
                (JSONBody requestData) "application/json" with
        | (Err err, sent) => (Returns (Err err), sent)
        | (Ok resp, sent) => (assembleResponse sched resp includeVectors, sent)
        end
  end end end end.

(** ** Vocabulary of the specification *)

(** [ceil(a / b)] *)
Definition ceilDiv (a b : Z) : Z := - ((- a) / b).

(** The sparse indices and values of a record differ in length: one of them
    is missing, or both are given with different lengths. *)
Definition sparseMismatch (item : VectorItem) : Prop :=
  len (SparseIndices item) <> len (SparseValues item).

(** The sixth element of a tuple, when there is one, is nil or an array: the
    type assertion on it cannot fail. *)
Definition vectorSlotOK (result : list value) : Prop :=
  match at_ result 5 with
  | VNil | VSlice _ => True
  | _ => False
  end.

(** [m1 * 2^e1 = m2 * 2^e2], over the integers. *)
Definition dyadicEq (m1 e1 m2 e2 : Z) : Prop :=
  m1 * 2 ^ (e1 - Z.min e1 e2) = m2 * 2 ^ (e2 - Z.min e1 e2).

(** The float [x] is a number, and that number is [m * 2^e]. *)
Definition hasValue (x : spec_float) (m e : Z) : Prop :=
  match x with
  | S754_zero _ => m = 0
  | S754_finite s mx ex => dyadicEq (cond_Zopp s (Zpos mx)) ex m e
  | S754_infinity _ | S754_nan => False
  end.

(** [x] and [y] are the same number, the same infinity, or both NaN. *)
Definition sameValue (x y : spec_float) : Prop :=
  match y with
  | S754_zero _ => hasValue x 0 0
  | S754_finite s m e => hasValue x (cond_Zopp s (Zpos m)) e
  | S754_infinity _ | S754_nan => x = y
  end.

(** [x] is a value of the binary32 format. *)
Definition binary32 (x : spec_float) : Prop :=
  valid_binary F32.prec F32.emax x = true.

(** The integer a value of one of the integer types of [toFloat32] holds. *)
Definition wireInteger (v : value) : option Z :=
  match v with
  | VInt n | VInt8 n | VInt16 n | VInt32 n | VInt64 n
  | VUint8 n | VUint16 n | VUint32 n | VUint64 n => Some n
  | _ => None
  end.

(** The types [toFloat32] has a case for. *)
Definition wireNumber (v : value) : bool :=
  match v with
  | VFloat32 _ | VFloat64 _ => true
  | _ => match wireInteger v with Some _ => true | None => false end
  end.

(** ** A platform to run the definitions on

    Eight processors; zlib is a two-byte header before the data; JSON and
    msgpack know the few documents of the examples; the server answers 200
    with an empty body. *)

Definition quoted (s : string) : string :=
  String "034"%char (s ++ String "034"%char "").

Fixpoint sampleJSON (v : value) : string :=
  match v with
  | VBool true => "true"
  | VBool false => "false"
  | VInt n | VInt8 n | VInt16 n | VInt32 n | VInt64 n
  | VUint n | VUint8 n | VUint16 n | VUint32 n | VUint64 n => itoa n
  | VString s => quoted s
  | VSlice l =>
      "[" ++ (fix items (l : list value) : string :=
                match l with
                | [] => ""
                | [x] => sampleJSON x
                | x :: rest => sampleJSON x ++ "," ++ items rest
                end) l ++ "]"
  | VMap m =>
      "{" ++ (fix fields (m : list (string * value)) : string :=
                match m with
                | [] => ""
                | [(k, x)] => quoted k ++ ":" ++ sampleJSON x
                | (k, x) :: rest => quoted k ++ ":" ++ sampleJSON x ++ "," ++ fields rest
                end) m ++ "}"
  | _ => "null"
  end.

(** The documents the sample decoder knows, with what they decode to:
    numbers come back as [float64]. *)
Definition sampleDocuments : list (gomap * gomap) :=
  [ ([("a", VInt 1)], [("a", VFloat64 (S754_finite false 4503599627370496 (-52)))]);
    ([("title", VString "Doc 1")], [("title", VString "Doc 1")]);
    ([("category", VString "tech")], [("category", VString "tech")]) ].

Definition sampleParse (text : list Byte.byte) : res gomap :=
  match
    find (fun d => String.eqb (sampleJSON (VMap (fst d))) (string_of_bytes text))
         sampleDocuments
  with
  | Some d => Ok (snd d)
  | None => Err (LibError "invalid character")
  end.

Definition sampleDeflate (data : list Byte.byte) : list Byte.byte :=
  Byte.x78 :: Byte.x9c :: data.

Definition sampleInflate (data : list Byte.byte) : res (list Byte.byte) :=
  match data with
  | Byte.x78 :: Byte.x9c :: rest => Ok rest
  | _ => Err (LibError "zlib: invalid header")
  end.

(** The sample msgpack body holds one byte per tuple: a zero byte is an
    empty tuple, any other byte a tuple of five elements whose id is the
    number of the byte. *)
Definition sampleTuple (b : Byte.byte) : list value :=
  match Byte.to_N b with
  | N0 => []
  | n => [VFloat32 F32.one; VString (itoa (Z.of_N n)); VNil; VString "";
          VFloat32 F32.one]
  end.

Definition samplePlatform : Platform :=
  {| NumCPU := 8;
     fmtSprintV := fun _ => "<value>";
     jsonText := fun v => bytes_of_string (sampleJSON v);
     jsonUnmarshalObject := sampleParse;
     jsonDecodeObject := sampleParse;
     zlibCompress := sampleDeflate;
     zlibDecompress := sampleInflate;
     msgpackUnmarshal := fun buf => Ok (map sampleTuple buf);
     newRequest := fun _ => None;
     clientDo := fun _ => Ok {| StatusCode := 200; Body := Ok [] |} |}.

Definition cosineIndex (d : Z) : Index :=
  {| Name := "idx"; Token := ""; URL := "http://127.0.0.1:8080/api/v1";
     SpaceType := "cosine"; Dimension := d; SparseDim := 0 |}.

Definition l2Index (d : Z) : Index :=
  {| Name := "idx"; Token := ""; URL := "http://127.0.0.1:8080/api/v1";
     SpaceType := "l2"; Dimension := d; SparseDim := 0 |}.

(** A record with a dense vector only. *)
Definition denseItem (id : string) (v : list F32.t) : VectorItem :=
  {| ID := id; Vector := v; SparseIndices := []; SparseValues := [];
     Meta := []; Filter := [] |}.

(** The record of the specification's scenario: two sparse indices, one
    sparse value. *)
Definition mismatchedItem : VectorItem :=
  {| ID := "doc-7"; Vector := [F32.one; F32.zero];
     SparseIndices := [1; 2];
     SparseValues := [S754_finite false 13421773 (-27)];
     Meta := []; Filter := [] |}.

Definition byteOf (n : nat) : Byte.byte :=
  match Byte.of_N (N.of_nat n) with
  | Some b => b
  | None => Byte.x00
  end.

(** A response of three tuples whose second one is empty, and a response of
    52 tuples whose first one is empty. *)
Definition sampleResponse3 : response :=
  {| StatusCode := 200; Body := Ok [Byte.x01; Byte.x00; Byte.x03] |}.

Definition sampleResponse52 : response :=
  {| StatusCode := 200; Body := Ok (Byte.x00 :: map byteOf (seq 1 51)) |}.

(** A response of 51 sample tuples (ids 1 to 51), the schedule that reports
    them from the last to the first. *)
Definition sampleResults51 : list (list value) :=
  map (fun n => sampleTuple (byteOf n)) (seq 1 51).

Definition reverseSched51 : list nat := rev (seq 0 51).

(** ** constants.go, continued *)

Definition PrecisionFloat16 : string := "float16".
Definition PrecisionInt8D : string := "int8d".
Definition Checksum : Z := -1.
Definition LocalBaseURL : string := "http://127.0.0.1:8080/api/v1".
Definition MaxDimensionAllowed : Z := 10000.
Definition MaxIndexNameLenAllowed : Z := 48.

(** [fmt.Sprintf(CloudURLTemplate, region)], the template being
    ["https://%s.endee.io/api/v1"]. *)
Definition cloudURL (region : string) : string :=
  "https://" ++ region ++ ".endee.io/api/v1".

(** ** index.go: the whole index and its constructor

    [Index] above has the six fields the pipeline reads; [IndexObject] adds
    the others. *)

Record IndexParams : Type := {
  pLibToken : string;
  pTotalElements : Z;
  pSpaceType : string;
  pDimension : Z;
  pSparseDim : Z;
  pPrecision : string;
  pM : Z
}.

Record IndexObject : Type := {
  ixIndex : Index;
  ixVersion : Z;
  ixChecksum : Z;
  ixLibToken : string;
  ixCount : Z;
  ixPrecision : string;
  ixM : Z
}.

Definition NewIndex (name token url : string) (version : Z)
    (params : option IndexParams) : IndexObject :=
  let version := if version =? 0 then 1 else version in
  let precision :=
    match params with
    | Some p =>
        if negb (String.eqb (pPrecision p) "") then pPrecision p
        else PrecisionInt8D
    | None => PrecisionInt8D
    end in
  match params with
  | None =>
      {| ixIndex := {| Name := name; Token := token; URL := url;
                       SpaceType := ""; Dimension := 0; SparseDim := 0 |};
         ixVersion := version; ixChecksum := Checksum; ixLibToken := "";
         ixCount := 0; ixPrecision := ""; ixM := 0 |}
  | Some p =>
      {| ixIndex := {| Name := name; Token := token; URL := url;
                       SpaceType := pSpaceType p; Dimension := pDimension p;
                       SparseDim := pSparseDim p |};
         ixVersion := version; ixChecksum := Checksum;
         ixLibToken := pLibToken p; ixCount := pTotalElements p;
         ixPrecision := precision; ixM := pM p |}
  end.

(** ** endee.go: the client *)

(** The [Endee] struct without its [*http.Client], whose settings play no
    part in what follows. *)
Record Endee : Type := {
  BaseUrl : string;
  clientToken : string
}.

(** [strings.Split(s, sep)] for a separator of one byte: [cur] holds, in
    reverse, the bytes read since the last separator. *)
Fixpoint splitFrom (sep : ascii) (cur : list ascii) (s : string) : list string :=
  match s with
  | EmptyString => [string_of_list_ascii (rev cur)]
  | String c rest =>
      if Ascii.eqb c sep then
        string_of_list_ascii (rev cur) :: splitFrom sep [] rest
      else splitFrom sep (c :: cur) rest
  end.

Definition stringsSplit (s : string) (sep : ascii) : list string :=
  splitFrom sep [] s.

(** [EndeeClient(token...)]: the arguments after the first are not read. *)
Definition EndeeClient (token : list string) : Endee :=
  match token with
  | t :: _ =>
      if negb (String.eqb t "") then
        let tokenParts := stringsSplit t ":"%char in
        if len tokenParts >? 2 then
          {| BaseUrl := cloudURL (nth 2 tokenParts "");
             clientToken := nth 0 tokenParts "" ++ ":" ++ nth 1 tokenParts "" |}
        else {| BaseUrl := LocalBaseURL; clientToken := t |}
      else {| BaseUrl := LocalBaseURL; clientToken := "" |}
  | [] => {| BaseUrl := LocalBaseURL; clientToken := "" |}
  end.

(** [strings.HasPrefix(s, "/")] and [strings.HasSuffix(s, "/")]. *)
Definition hasPrefixSlash (s : string) : bool :=
  match s with
  | String c _ => Ascii.eqb c "/"%char
  | EmptyString => false
  end.

Fixpoint hasSuffixSlash (s : string) : bool :=
  match s with
  | EmptyString => false
  | String c EmptyString => Ascii.eqb c "/"%char
  | String _ rest => hasSuffixSlash rest
  end.

(** [(nd *Endee) buildURL]. *)
Definition clientBuildURL (nd : Endee) (path : string) : string :=
  BaseUrl nd
  ++ (if negb (hasSuffixSlash (BaseUrl nd)) && negb (hasPrefixSlash path)
      then "/" else "")
  ++ path.

(** [NameRegex.MatchString] for [^[a-zA-Z0-9_]+$]: one byte or more, each a
    letter, a digit or an underscore. *)
Definition nameByte (c : ascii) : bool :=
  let n := N_of_ascii c in
  (N.leb 97 n && N.leb n 122) || (N.leb 65 n && N.leb n 90)
  || (N.leb 48 n && N.leb n 57) || N.eqb n 95.

Definition nameRegexMatch (name : string) : bool :=
  match list_ascii_of_string name with
  | [] => false
  | bytes => forallb nameByte bytes
  end.

Definition isValidIndexName (name : string) : bool :=
  if (len (list_ascii_of_string name) =? 0)
     || (len (list_ascii_of_string name) >=? MaxIndexNameLenAllowed)
  then false
  else nameRegexMatch name.

(** The [validSpaceTypes] table. *)
Definition validSpaceTypes (spaceType : string) : bool :=
  String.eqb spaceType "cosine" || String.eqb spaceType "l2"
  || String.eqb spaceType "ip".

Record CreateIndexRequest : Type := {
  crIndexName : string;
  crDim : Z;
  crSpaceType : string;
  crM : Z;
  crEfCon : Z;
  crSparseDim : Z;
  crChecksum : Z;
  crUseInt8d : bool;
  crVersion : option Z
}.

Record GetIndexResponse : Type := {
  giLibToken : string;
  giTotalElements : Z;
  giSpaceType : string;
  giDimension : Z;
  giUseFp16 : bool;
  giM : Z;
  giChecksum : Z;
  giCreatedAt : Z;
  giName : string
}.

(** ** The other requests

    A request of the client goes to a URL; a request of an index goes to
    what [(idx *Index) buildURL] makes of a path, which is left to the
    server side of the model as it is for [request]. *)

Inductive target : Type :=
  | ClientURL (url : string)
  | IndexPath (idx : Index) (path : string).

(** The body before it is marshalled; [fastJSONMarshal] cannot fail on a
    [CreateIndexRequest] or on a map of strings. *)
Inductive callBody : Type :=
  | NoBody
  | CreateIndexBody (requestData : CreateIndexRequest)
  | JSONValueBody (v : value).

Record call : Type := {
  cMethod : string;
  cTarget : target;
  cBody : callBody;
  cContentType : string;
  cAuthorization : string
}.

Class Server : Type := {
  (** [strings.ToLower] *)
  stringsToLower : string -> string;
  (** [http.NewRequest]: the error it finds in the method or the URL *)
  newCall : string -> target -> option error;
  (** [http.Client.Do] *)
  doCall : call -> res response;
  (** what [buf.ReadFrom] has read of a body when the reading fails *)
  partialBody : response -> list Byte.byte;
  (** [json.Decoder.Decode] into a [GetIndexResponse] *)
  decodeIndexInfo : list Byte.byte -> res GetIndexResponse;
  (** [msgpack.Unmarshal] into a [[]interface{}] *)
  msgpackUnmarshalTuple : list Byte.byte -> res (list value)
}.

(** The errors of the functions below: those above, and the ones these
    functions build themselves. *)
Inductive clientError : Type :=
  | Base (err : error)
  | ErrInvalidIndexName
  | ErrDimensionTooLarge
  | ErrInvalidSpaceType (spaceType : string)
  | ErrDecodeResponse (cause : error)
  | ErrFilterNil
  | ErrInvalidResponseFormat (got : nat).

Definition clientErrorMessage (e : clientError) : string :=
  match e with
  | Base err => Error err
  | ErrInvalidIndexName =>
      "invalid index name. Index name must be alphanumeric and can contain underscores and less than 48 characters"
  | ErrDimensionTooLarge =>
      "dimension cannot be greater than " ++ itoa MaxDimensionAllowed
  | ErrInvalidSpaceType spaceType => "invalid space type: " ++ spaceType
  | ErrDecodeResponse cause => "failed to decode response: " ++ Error cause
  | ErrFilterNil => "filter cannot be nil"
  | ErrInvalidResponseFormat got =>
      "invalid response format: expected 5 elements, got " ++ itoa (Z.of_nat got)
  end.

Inductive outcome (A : Type) : Type :=
  | Done (a : A)
  | Failed (e : clientError).
Arguments Done {A} a.
Arguments Failed {A} e.

(** [http.NewRequest] and [(nd *Endee) executeRequestWithContext]. *)
Definition clientExecute `{Server} (nd : Endee) (method path : string)
    (b : callBody) (contentType : string)
  : outcome response * list call :=
  let req := {| cMethod := method; cTarget := ClientURL (clientBuildURL nd path);
                cBody := b; cContentType := contentType;
                cAuthorization := clientToken nd |} in
  match newCall method (cTarget req) with
  | Some err => (Failed (Base (ErrCreateRequest err)), [])
  | None =>
      match doCall req with
      | Err err => (Failed (Base (ErrExecuteRequest err)), [req])
      | Ok resp => (Done resp, [req])
      end
  end.

(** [readResponseBody]: the error of [buf.ReadFrom] is not looked at. *)
Definition readResponseBody `{Platform} `{Server} (resp : response)
  : outcome (list Byte.byte) :=
  match checkError resp with
  | Some err => Failed (Base err)
  | None =>
      Done (match Body resp with
            | Ok result => result
            | Err _ => partialBody resp
            end)
  end.

Definition CreateIndexWithContext `{Platform} `{Server} (nd : Endee)
    (name : string) (dimension : Z) (spaceType : string) (M efCon : Z)
    (useFp16 : bool) (version : option Z) (sparseDim : Z)
  : option clientError * list call :=
  if negb (isValidIndexName name) then (Some ErrInvalidIndexName, [])
  else if dimension >? MaxDimensionAllowed then (Some ErrDimensionTooLarge, [])
  else
    let spaceType := stringsToLower spaceType in
    if negb (validSpaceTypes spaceType) then
      (Some (ErrInvalidSpaceType spaceType), [])
    else
      let requestData :=
        {| crIndexName := name; crDim := dimension; crSpaceType := spaceType;
           crM := M; crEfCon := efCon; crSparseDim := sparseDim;
           crChecksum := Checksum; crUseInt8d := negb useFp16;
           crVersion := version |} in
      match clientExecute nd "POST" "/index/create"
              (CreateIndexBody requestData) "application/json" with
      | (Failed err, sent) => (Some err, sent)
      | (Done resp, sent) =>
          match readResponseBody resp with
          | Failed err => (Some err, sent)
          | Done _ => (None, sent)
          end
      end.

Definition DeleteIndexWithContext `{Platform} `{Server} (nd : Endee)
    (name : string) : option clientError * list call :=
  match clientExecute nd "DELETE" ("/index/" ++ name ++ "/delete") NoBody "" with
  | (Failed err, sent) => (Some err, sent)
  | (Done resp, sent) =>
      match readResponseBody resp with
      | Failed err => (Some err, sent)
      | Done _ => (None, sent)
      end
  end.

Definition GetIndexWithContext `{Platform} `{Server} (nd : Endee)
    (name : string) : outcome IndexObject * list call :=
  match clientExecute nd "GET" ("/index/" ++ name ++ "/info") NoBody
          "application/json" with
  | (Failed err, sent) => (Failed err, sent)
  | (Done resp, sent) =>
      match readResponseBody resp with
      | Failed err => (Failed err, sent)
      | Done body =>
          match decodeIndexInfo body with
          | Err err => (Failed (ErrDecodeResponse err), sent)
          | Ok data =>
              let params :=
                {| pLibToken := giLibToken data;
                   pTotalElements := giTotalElements data;
                   pSpaceType := giSpaceType data;
                   pDimension := giDimension data;
                   pSparseDim := 0;
                   pPrecision :=
                     if giUseFp16 data then PrecisionFloat16 else PrecisionInt8D;
                   pM := giM data |} in
              (Done (NewIndex name (clientToken nd) (BaseUrl nd) 1 (Some params)),
               sent)
          end
      end
  end.

(** ** index.go: deleting and fetching one vector *)

(** [(idx *Index) executeRequestWithContext] for the bodies of this part;
    an empty [contentType] sets no header. *)
Definition indexExecute `{Server} (idx : Index) (method path : string)
    (b : callBody) (contentType : string)
  : outcome response * list call :=
  let req := {| cMethod := method; cTarget := IndexPath idx path;
                cBody := b; cContentType := contentType;
                cAuthorization := Token idx |} in
  match newCall method (cTarget req) with
  | Some err => (Failed (Base (ErrCreateRequest err)), [])
  | None =>
      match doCall req with
      | Err err => (Failed (Base (ErrExecuteRequest err)), [req])
      | Ok resp => (Done resp, [req])
      end
  end.

(** A response whose body has been read to its end: [io.ReadAll] then
    finds no byte and no error. *)
Definition drained (resp : response) : response :=
  {| StatusCode := StatusCode resp; Body := Ok [] |}.

(** What both delete functions do with the response: the body is read
    first, [checkError] is called afterwards. *)
Definition readThenCheck `{Platform} (resp : response) : outcome string :=
  match Body resp with
  | Err err => Failed (Base (ErrReadResponseBody err))
  | Ok content =>
      match checkError (drained resp) with
      | Some err => Failed (Base err)
      | None => Done (string_of_bytes content)
      end
  end.

Definition DeleteVectorByIdWithContext `{Platform} `{Server} (idx : Index)
    (id : string) : outcome string * list call :=
  match indexExecute idx "DELETE"
          ("index/" ++ Name idx ++ "/vector/" ++ id ++ "/delete") NoBody "" with
  | (Failed err, sent) => (Failed err, sent)
  | (Done resp, sent) => (readThenCheck resp, sent)
  end.

(** [filter] is [None] for a nil map. *)
Definition DeleteVectorByFilterWithContext `{Platform} `{Server} (idx : Index)
    (filter : option gomap) : outcome string * list call :=
  match filter with
  | None => (Failed ErrFilterNil, [])
  | Some filter =>
      let requestData := VMap [("filter", VSlice [VMap filter])] in
      match jsonMarshal requestData with
      | Err err => (Failed (Base (ErrMarshalRequest err)), [])
      | Ok _ =>
          match indexExecute idx "DELETE"
                  ("index/" ++ Name idx ++ "/vectors/delete")
                  (JSONValueBody requestData) "application/json" with
          | (Failed err, sent) => (Failed err, sent)
          | (Done resp, sent) => (readThenCheck resp, sent)
          end
      end
  end.

(** The loop over [vectorObj[5]]: an element that is neither an [int64]
    nor a [uint64] leaves the zero of [make]. *)
Definition sparseIndexOf (v : value) : Z :=
  match v with
  | VInt64 idx => idx
  | VUint64 idx => wrapInt idx
  | _ => 0
  end.

Definition sparseIndicesOf (v : value) : list Z :=
  match v with
  | VSlice indicesInterface => map sparseIndexOf indicesInterface
  | _ => []
  end.

Definition sparseValuesOf (v : value) : list F32.t :=
  match v with
  | VSlice valuesInterface => map toFloat32 valuesInterface
  | _ => []
  end.

(** [GetVectorWithContext] from the decoded array on, for an array of at
    least five elements. *)
Definition decodeVector `{Platform} (vectorObj : list value) : run VectorItem :=
  let vectorID := safeStringConvert (at_ vectorObj 0) in
  let metaDataBytes := metaDataBytesOf (at_ vectorObj 1) in
  let filterData := safeStringConvert (at_ vectorObj 2) in
  match at_ vectorObj 4 with
  | VSlice vectorInterface =>
      let sparseIndices :=
        if len vectorObj >=? 7 then sparseIndicesOf (at_ vectorObj 5) else [] in
      let sparseValues :=
        if len vectorObj >=? 7 then sparseValuesOf (at_ vectorObj 6) else [] in
      let vector := map toFloat32 vectorInterface in
      let meta :=
        if len metaDataBytes >? 0 then
          match JsonUnzip metaDataBytes with
          | Ok m => m
          | Err _ => []
          end
        else [] in
      let filter :=
        if negb (String.eqb filterData "") then
          match jsonDecodeObject (bytes_of_string filterData) with
          | Ok filter => filter
          | Err _ => []
          end
        else [] in
      Returns {| ID := vectorID; Vector := vector;
                 SparseIndices := sparseIndices; SparseValues := sparseValues;
                 Meta := meta; Filter := filter |}
  | _ => Panics
  end.

Definition GetVectorWithContext `{Platform} `{Server} (idx : Index)
    (id : string) : run (outcome VectorItem) * list call :=
  match indexExecute idx "POST" "index/%s/vector/get"
          (JSONValueBody (VMap [("id", VString id)])) "application/json" with
  | (Failed err, sent) => (Returns (Failed err), sent)
  | (Done resp, sent) =>
      match checkError resp with
      | Some err => (Returns (Failed (Base err)), sent)
      | None =>
          match Body resp with
          | Err err => (Returns (Failed (Base (ErrReadResponseBody err))), sent)
          | Ok content =>
              match msgpackUnmarshalTuple content with
              | Err err =>
                  (Returns (Failed (Base (ErrUnmarshalResponse err))), sent)
              | Ok vectorObj =>
                  if len vectorObj <? 5 then
                    (Returns (Failed (ErrInvalidResponseFormat (length vectorObj))),
                     sent)
                  else
                    match decodeVector vectorObj with
                    | Panics => (Panics, sent)
                    | Returns item => (Returns (Done item), sent)
                    end
              end
          end
      end
  end.

(** ** Further vocabulary *)

(** A record the validation loop of upsert lets through. *)
Definition validItem (item : VectorItem) : Prop :=
  TrimSpace (ID item) <> "" /\ len (SparseIndices item) = len (SparseValues item).

(** [+0] or [-0]. *)
Definition isZero (x : spec_float) : Prop :=
  match x with
  | S754_zero _ => True
  | _ => False
  end.

(** The sub-batches [upsertConcurrent] dispatches for a batch. *)
Definition upsertBatches `{Platform} (inputArray : list VectorItem)
  : list (list VectorItem) :=
  subBatches (length inputArray)
    (Z.to_nat (upsertBatchSize (len inputArray) (upsertWorkers (len inputArray))))
    inputArray.

(** On the filter text of a tuple, [json.Unmarshal] and
    [json.Decoder.Decode] read the same mapping. *)
Definition filterDecodersAgree `{Platform} (result : list value) : Prop :=
  jsonDecodeObject (bytes_of_string (safeStringConvert (at_ result 3)))
  = jsonUnmarshalObject (bytes_of_string (safeStringConvert (at_ result 3))).

(** The sixth element of a tuple is there and is neither nil nor an array. *)
Definition vectorSlotIllTyped (result : list value) : Prop :=
  5 < len result
  /\ match at_ result 5 with
     | VNil | VSlice _ => False
     | _ => True
     end.

(** [strings.Join(parts, ":")]. *)
Fixpoint joinColon (parts : list string) : string :=
  match parts with
  | [] => ""
  | [part] => part
  | part :: rest => part ++ ":" ++ joinColon rest
  end.

Definition noColon (s : string) : Prop :=
  ~ In ":"%char (list_ascii_of_string s).

(** The error [checkError] builds from a status other than 200 and a
    message. *)
Definition statusError (code : Z) (msg : string) : error :=
  if code =? 400 then APIError 400 msg
  else if code =? 401 then AuthenticationError msg
  else if code =? 402 then SubscriptionError msg
  else if code =? 403 then ForbiddenError msg
  else if code =? 404 then NotFoundError msg
  else if code =? 409 then ConflictError msg
  else if (code =? 500) || (code =? 502) || (code =? 503) || (code =? 504)
  then ServerError "Server is busy. Please try again in sometime"
  else APIError code msg.

(** The array a server holds for a record without a sparse pair, as
    msgpack decodes it. *)
Definition storedTuple (t : WireTuple) : list value :=
  [VString (wID t); VBytes (wMeta t); VString (wFilter t); VFloat32 (wNorm t);
   VSlice (map VFloat32 (wVector t))].

(** An integer that msgpack has decoded to a type narrower than 64 bits. *)
Definition narrowInteger (v : value) : Prop :=
  match v with
  | VInt8 _ | VInt16 _ | VInt32 _ | VUint8 _ | VUint16 _ | VUint32 _ => True
  | _ => False
  end.

(** The transport lets the request of an index through and answers it with
    [resp]. *)
Definition indexAnswers `{Server} (idx : Index) (method path : string)
    (b : callBody) (contentType : string) (resp : response) : Prop :=
  newCall method (IndexPath idx path) = None
  /\ doCall {| cMethod := method; cTarget := IndexPath idx path; cBody := b;
               cContentType := contentType; cAuthorization := Token idx |}
     = Ok resp.

(** The same for a request of the client. *)
Definition clientAnswers `{Server} (nd : Endee) (method path : string)
    (b : callBody) (contentType : string) (resp : response) : Prop :=
  newCall method (ClientURL (clientBuildURL nd path)) = None
  /\ doCall {| cMethod := method; cTarget := ClientURL (clientBuildURL nd path);
               cBody := b; cContentType := contentType;
               cAuthorization := clientToken nd |}
     = Ok resp.

(** The request of [GetVectorWithContext] for [id] is answered with status
    200 and a body that msgpack decodes to [vectorObj]. *)
Definition vectorArrives `{Platform} `{Server} (idx : Index) (id : string)
    (vectorObj : list value) : Prop :=
  exists (resp : response) (content : list Byte.byte),
    indexAnswers idx "POST" "index/%s/vector/get"
      (JSONValueBody (VMap [("id", VString id)])) "application/json" resp
    /\ StatusCode resp = 200
    /\ Body resp = Ok content
    /\ msgpackUnmarshalTuple content = Ok vectorObj.

(** ** A sample server *)

Definition sampleLower (c : ascii) : ascii :=
  let n := N_of_ascii c in
  if N.leb 65 n && N.leb n 90 then ascii_of_N (n + 32) else c.

Definition sampleIndexInfo : GetIndexResponse :=
  {| giLibToken := "lib"; giTotalElements := 42; giSpaceType := "cosine";
     giDimension := 3; giUseFp16 := true; giM := 16; giChecksum := 7;
     giCreatedAt := 0; giName := "other_name" |}.

(** A server that answers every request with [resp] and whose msgpack body
    always decodes to [tuple]. *)
Definition sampleServer (resp : response) (tuple : list value) : Server :=
  {| stringsToLower :=
       fun s => string_of_list_ascii (map sampleLower (list_ascii_of_string s));
     newCall := fun _ _ => None;
     doCall := fun _ => Ok resp;
     partialBody := fun _ => [];
     decodeIndexInfo := fun _ => Ok sampleIndexInfo;
     msgpackUnmarshalTuple := fun _ => Ok tuple |}.

Definition sampleClient : Endee :=
  {| BaseUrl := LocalBaseURL; clientToken := "key:secret" |}.

(** A record with metadata and a filter, and the array the sample platform
    sends for it to an index of two dimensions with the cosine metric. *)
Definition sampleDocument : VectorItem :=
  {| ID := "doc-1";
     Vector := [S754_finite false 12582912 (-22); S754_finite false 8388608 (-21)];
     SparseIndices := []; SparseValues := [];
     Meta := [("title", VString "Doc 1")];
     Filter := [("category", VString "tech")] |}.

Definition sampleStored : WireTuple :=
  Eval vm_compute in
    match encodeItem (H := samplePlatform) (cosineIndex 2) sampleDocument with
    | Ok vectorObj => vectorObj
    | Err _ =>
        {| wID := ""; wMeta := []; wFilter := ""; wNorm := F32.zero;
           wVector := []; wSparse := None |}
    end.

(** * Properties *)

(** Closes a goal about closed terms by evaluation. *)
Ltac concrete :=
  vm_compute; repeat split; solve [reflexivity | discriminate].

(** ** Vector normalisation *)

Example normalize_3_4 :
  normalizeVector (cosineIndex 2) [F32.of_Z 3; F32.of_Z 4] =
  Ok ([S754_finite false 10066330 (-24); S754_finite false 13421773 (-24)],
      F32.of_Z 5).
Proof. vm_compute. reflexivity. Qed.

Example normalize_unit :
  normalizeVector (cosineIndex 4) [F32.one; F32.zero; F32.zero; F32.zero] =
  Ok ([F32.one; F32.zero; F32.zero; F32.zero], F32.one).
Proof. vm_compute. reflexivity. Qed.

Lemma len_nonneg {A : Type} (l : list A) : 0 <= len l.
Proof. unfold len. lia. Qed.

Lemma len_cons {A : Type} (x : A) (l : list A) : len (x :: l) = len l + 1.
Proof. unfold len. cbn [length]. lia. Qed.

Lemma len_0 {A : Type} (l : list A) : len l = 0 <-> l = [].
Proof.
  unfold len. split.
  - destruct l; [reflexivity | cbn [length]; lia].
  - intros ->. reflexivity.
Qed.

Lemma normalizeVector_dimension (idx : Index) (v : list F32.t) :
  len v <> Dimension idx ->
  normalizeVector idx v = Err (ErrDimensionMismatch (Dimension idx) (len v)).
Proof.
  intros Hlen. unfold normalizeVector, len in *.
  apply Z.eqb_neq in Hlen. rewrite Hlen. reflexivity.
Qed.

(** C1. [normalizeVector] rejects a vector of the wrong length with a
    dimension-mismatch error; in a space other than cosine it returns the
    vector as it is with norm 1.0; in the cosine space it computes the
    Euclidean norm (the square root of the sum of the squares) and returns
    the vector as it is with norm 1.0 when that norm is zero, and otherwise
    every component divided by the norm, together with the norm. *)
Theorem normalizeVector_spec (idx : Index) (v : list F32.t) :
  (len v <> Dimension idx ->
     normalizeVector idx v =
     Err (ErrDimensionMismatch (Dimension idx) (len v)))
  /\ (len v = Dimension idx -> SpaceType idx <> "cosine" ->
        normalizeVector idx v = Ok (v, F32.one))
  /\ (len v = Dimension idx -> SpaceType idx = "cosine" ->
        F32.eqb (euclideanNorm v) F32.zero = true ->
        normalizeVector idx v = Ok (v, F32.one))
  /\ (len v = Dimension idx -> SpaceType idx = "cosine" ->
        F32.eqb (euclideanNorm v) F32.zero = false ->
        normalizeVector idx v =
        Ok (map (fun x => F32.div x (euclideanNorm v)) v, euclideanNorm v))
  /\ euclideanNorm v =
     F64.to_f32 (F64.sqrt (F64.of_f32
       (fold_left (fun sum x => F32.add sum (F32.mul x x)) v F32.zero))).
Proof.
  unfold normalizeVector, len.
  repeat split.
  - intros Hlen. apply Z.eqb_neq in Hlen. rewrite Hlen. reflexivity.
  - intros Hlen Hspace. apply Z.eqb_eq in Hlen. rewrite Hlen.
    apply String.eqb_neq in Hspace. rewrite Hspace. reflexivity.
  - intros Hlen Hspace Hzero. apply Z.eqb_eq in Hlen. rewrite Hlen.
    apply String.eqb_eq in Hspace. rewrite Hspace. cbn [negb].
    rewrite Hzero. reflexivity.
  - intros Hlen Hspace Hzero. apply Z.eqb_eq in Hlen. rewrite Hlen.
    apply String.eqb_eq in Hspace. rewrite Hspace. cbn [negb].
    rewrite Hzero. reflexivity.
Qed.

Lemma normalizeVector_spec_witness :
  normalizeVector (cosineIndex 2) [F32.of_Z 3; F32.of_Z 4] =
    Ok (map (fun x => F32.div x (F32.of_Z 5)) [F32.of_Z 3; F32.of_Z 4],
        F32.of_Z 5)
  /\ normalizeVector (cosineIndex 2) [F32.zero; F32.zero] =
       Ok ([F32.zero; F32.zero], F32.one)
  /\ normalizeVector (l2Index 2) [F32.of_Z 3; F32.of_Z 4] =
       Ok ([F32.of_Z 3; F32.of_Z 4], F32.one)
  /\ normalizeVector (cosineIndex 3) [F32.of_Z 3; F32.of_Z 4] =
       Err (ErrDimensionMismatch 3 2).
Proof.
  split; [| split; [| split]].
  - destruct (normalizeVector_spec (cosineIndex 2) [F32.of_Z 3; F32.of_Z 4])
      as (_ & _ & _ & H & _).
    apply H; vm_compute; reflexivity.
  - destruct (normalizeVector_spec (cosineIndex 2) [F32.zero; F32.zero])
      as (_ & _ & H & _).
    apply H; vm_compute; reflexivity.
  - destruct (normalizeVector_spec (l2Index 2) [F32.of_Z 3; F32.of_Z 4])
      as (_ & H & _).
    apply H; [vm_compute; reflexivity | vm_compute; discriminate].
  - destruct (normalizeVector_spec (cosineIndex 3) [F32.of_Z 3; F32.of_Z 4])
      as (H & _).
    apply H. vm_compute. discriminate.
Defined.

(** ** Upsert: validation and planning *)

Lemma wrapInt_small (z : Z) : - 2 ^ 63 <= z < 2 ^ 63 -> wrapInt z = z.
Proof.
  intros Hz. unfold wrapInt. rewrite Z.mod_small; lia.
Qed.

Lemma ceilDiv_bounds (a b : Z) :
  0 < b -> b * (ceilDiv a b - 1) < a <= b * ceilDiv a b.
Proof.
  intros Hb. unfold ceilDiv.
  pose proof (Z.div_mod (- a) b ltac:(lia)) as Hdm.
  pose proof (Z.mod_pos_bound (- a) b Hb) as Hmod.
  nia.
Qed.

Lemma ceilDiv_add (a b : Z) : 0 < b -> ceilDiv a b = (a + b - 1) / b.
Proof.
  intros Hb.
  pose proof (ceilDiv_bounds a b Hb) as Hc.
  apply Z.div_unique with (r := a + b - 1 - b * ceilDiv a b); lia.
Qed.

Lemma TrimSpace_empty : TrimSpace "" = "".
Proof. reflexivity. Qed.

Example TrimSpace_blank :
  TrimSpace (String "009"%char (String "194"%char (String "160"%char " "))) = "".
Proof. vm_compute. reflexivity. Qed.

Example TrimSpace_inner : TrimSpace "  doc 1 " = "doc 1".
Proof. vm_compute. reflexivity. Qed.

Lemma validateItems_app (i : nat) (before rest : list VectorItem) :
  validateItems i (before ++ rest) =
  match validateItems i before with
  | Some err => Some err
  | None => validateItems (i + length before) rest
  end.
Proof.
  revert i. induction before as [| item before IH]; intros i; cbn [app length].
  - cbn. f_equal. lia.
  - cbn [validateItems].
    destruct (String.eqb (TrimSpace (ID item)) ""); [reflexivity |].
    destruct (negb _); [reflexivity |].
    destruct (_ && _); [reflexivity |].
    rewrite IH. replace (S i + length before)%nat with (i + S (length before))%nat by lia.
    reflexivity.
Qed.

(** What the loop answers at a record whose sparse arrays differ in
    length. *)
Lemma validateItems_mismatch (i : nat) (item : VectorItem) (rest : list VectorItem) :
  sparseMismatch item ->
  validateItems i (item :: rest) = Some (ErrEmptyID i)
  \/ validateItems i (item :: rest) = Some (ErrSparseTogether (ID item))
  \/ validateItems i (item :: rest) = Some (ErrSparseSameLength (ID item)).
Proof.
  unfold sparseMismatch. intros Hmis. cbn [validateItems].
  destruct (String.eqb (TrimSpace (ID item)) ""); [left; reflexivity | right].
  pose proof (len_nonneg (SparseIndices item)) as Hi.
  pose proof (len_nonneg (SparseValues item)) as Hv.
  destruct (len (SparseIndices item) >? 0) eqn:Ei;
    destruct (len (SparseValues item) >? 0) eqn:Ev; cbn [Bool.eqb negb andb];
    try (left; reflexivity).
  - apply Z.eqb_neq in Hmis. rewrite Hmis. right. reflexivity.
  - exfalso. lia.
Qed.

Lemma validateItems_rejects (i : nat) (items : list VectorItem) (item : VectorItem) :
  In item items ->
  TrimSpace (ID item) = "" \/ sparseMismatch item ->
  exists err, validateItems i items = Some err.
Proof.
  intros Hin Hbad. apply in_split in Hin as (before & after & ->).
  rewrite validateItems_app.
  destruct (validateItems i before) as [err |]; [eauto |].
  destruct Hbad as [Hblank | Hmis].
  - cbn [validateItems]. rewrite Hblank. cbn. eauto.
  - destruct (validateItems_mismatch (i + length before) item after Hmis)
      as [-> | [-> | ->]]; eauto.
Qed.

Lemma UpsertWithContext_invalid `{Platform} (idx : Index) (sched : list nat)
    (inputArray : list VectorItem) (err : error) :
  validateItems 0 inputArray = Some err ->
  exists err', UpsertWithContext idx sched inputArray = (Some err', []).
Proof.
  intros Hval. unfold UpsertWithContext.
  destruct (len inputArray >? MaxVectorsPerBatch); [eauto |].
  destruct (len inputArray =? 0) eqn:E0.
  - apply Z.eqb_eq, len_0 in E0. subst. discriminate.
  - rewrite Hval. eauto.
Qed.

(** C3. Upsert validates before it sends anything: more than 1000 records
    are refused with the batch-too-large error whatever the records are; a
    batch with a record whose id is empty, or whose sparse indices and
    values differ in length (one of them missing, or both given with
    different lengths), is refused with an error and no request; and when
    such a sparse record is the first invalid one of the batch and has an
    id, the error names that id. *)
Theorem upsert_validation `{Platform} (idx : Index) (sched : list nat)
    (inputArray : list VectorItem) :
  (MaxVectorsPerBatch < len inputArray ->
     UpsertWithContext idx sched inputArray = (Some ErrBatchTooLarge, []))
  /\ (forall item, In item inputArray -> ID item = "" ->
        exists err, UpsertWithContext idx sched inputArray = (Some err, []))
  /\ (forall item, In item inputArray -> sparseMismatch item ->
        exists err, UpsertWithContext idx sched inputArray = (Some err, []))
  /\ (forall before item after,
        inputArray = (before ++ item :: after)%list ->
        len inputArray <= MaxVectorsPerBatch ->
        validateItems 0 before = None ->
        TrimSpace (ID item) <> "" ->
        sparseMismatch item ->
        exists err,
          UpsertWithContext idx sched inputArray = (Some err, [])
          /\ (err = ErrSparseTogether (ID item)
              \/ err = ErrSparseSameLength (ID item))
          /\ exists text, Error err = text ++ "(item id: " ++ ID item ++ ")").
Proof.
  split; [| split; [| split]].
  - intros Hbig. unfold UpsertWithContext.
    apply Z.gtb_lt in Hbig. rewrite Hbig. reflexivity.
  - intros item Hin Hid.
    destruct (validateItems_rejects 0 inputArray item Hin) as [err Herr].
    { left. rewrite Hid. reflexivity. }
    eapply UpsertWithContext_invalid; eassumption.
  - intros item Hin Hmis.
    destruct (validateItems_rejects 0 inputArray item Hin) as [err Herr].
    { right. assumption. }
    eapply UpsertWithContext_invalid; eassumption.
  - intros before item after -> Hsize Hbefore Hid Hmis.
    assert (Hval : validateItems 0 (before ++ item :: after)%list
                   = Some (ErrSparseTogether (ID item))
                   \/ validateItems 0 (before ++ item :: after)%list
                      = Some (ErrSparseSameLength (ID item))).
    { rewrite validateItems_app, Hbefore.
      destruct (validateItems_mismatch (0 + length before) item after Hmis)
        as [Hempty | Hsparse]; [| exact Hsparse].
      exfalso. cbn [validateItems] in Hempty.
      apply String.eqb_neq in Hid. rewrite Hid in Hempty.
      destruct (negb _); [discriminate |].
      destruct (_ && _); [discriminate |].
      clear - Hempty. revert Hempty. generalize (0 + length before)%nat.
      intros n Hn.
      assert (Hgen : forall l i j, validateItems i l = Some (ErrEmptyID j)
                                   -> (i <= j)%nat).
      { clear. induction l as [| x l IH]; intros i j Hl; cbn [validateItems] in Hl.
        - discriminate.
        - destruct (String.eqb (TrimSpace (ID x)) "").
          + injection Hl as <-. lia.
          + destruct (negb _); [discriminate |].
            destruct (_ && _); [discriminate |].
            apply IH in Hl. lia. }
      apply Hgen in Hn. lia. }
    unfold UpsertWithContext.
    assert (Hgt : (len (before ++ item :: after)%list >? MaxVectorsPerBatch) = false).
    { rewrite Z.gtb_ltb. apply Z.ltb_ge. exact Hsize. }
    rewrite Hgt.
    assert (H0 : (len (before ++ item :: after)%list =? 0) = false).
    { apply Z.eqb_neq. intros H0. apply len_0 in H0.
      destruct before; discriminate. }
    rewrite H0.
    destruct Hval as [-> | ->].
    + eexists. split; [reflexivity |]. split; [left; reflexivity |].
      exists "sparse_indices and sparse_values must both be provided together ".
      reflexivity.
    + eexists. split; [reflexivity |]. split; [right; reflexivity |].
      exists "sparse_indices and sparse_values must have the same length ".
      reflexivity.
Qed.

Lemma upsert_validation_witness :
  UpsertWithContext (H := samplePlatform) (cosineIndex 2) []
    (repeat (denseItem "a" [F32.one; F32.zero]) 1001)
  = (Some ErrBatchTooLarge, [])
  /\ exists err,
       UpsertWithContext (H := samplePlatform) (cosineIndex 2) []
         [denseItem "a" [F32.one; F32.zero]; mismatchedItem]
       = (Some err, [])
       /\ (err = ErrSparseTogether "doc-7" \/ err = ErrSparseSameLength "doc-7")
       /\ exists text, Error err = text ++ "(item id: " ++ "doc-7" ++ ")".
Proof.
  split.
  - apply (upsert_validation (H := samplePlatform)). vm_compute. reflexivity.
  - destruct (upsert_validation (H := samplePlatform) (cosineIndex 2) []
                [denseItem "a" [F32.one; F32.zero]; mismatchedItem])
      as (_ & _ & _ & Hfirst).
    apply (Hfirst [denseItem "a" [F32.one; F32.zero]] mismatchedItem []).
    + reflexivity.
    + vm_compute. discriminate.
    + vm_compute. reflexivity.
    + vm_compute. discriminate.
    + vm_compute. discriminate.
Defined.



Lemma upsertWorkers_min `{Platform} (n : Z) :
  1 <= NumCPU < 2 ^ 62 -> 0 <= n < 2 ^ 62 ->
  upsertWorkers n = Z.min NumCPU (ceilDiv n 2).
Proof.
  intros Hcpu Hn. unfold upsertWorkers.
  rewrite (wrapInt_small (NumCPU * 2)) by lia.
  rewrite (wrapInt_small (n + 1)) by lia.
  rewrite Z.quot_div_nonneg by lia.
  rewrite (ceilDiv_add n 2) by lia.
  replace (n + 2 - 1) with (n + 1) by lia.
  pose proof (Z.div_mod (n + 1) 2 ltac:(lia)) as Hdm.
  pose proof (Z.mod_pos_bound (n + 1) 2 ltac:(lia)) as Hmod.
  destruct (n <? NumCPU * 2) eqn:E.
  - apply Z.ltb_lt in E. lia.
  - apply Z.ltb_ge in E. lia.
Qed.

Lemma upsertBatchSize_min (n numWorkers : Z) :
  0 <= n < 2 ^ 62 -> 1 <= numWorkers < 2 ^ 62 ->
  upsertBatchSize n numWorkers = Z.min 100 (ceilDiv n numWorkers).
Proof.
  intros Hn Hw. unfold upsertBatchSize.
  rewrite (wrapInt_small (n + numWorkers)) by lia.
  rewrite (wrapInt_small (n + numWorkers - 1)) by lia.
  rewrite Z.quot_div_nonneg by lia.
  rewrite (ceilDiv_add n numWorkers) by lia.
  destruct ((n + numWorkers - 1) / numWorkers >? 100) eqn:E.
  - apply Z.gtb_lt in E. lia.
  - rewrite Z.gtb_ltb in E. apply Z.ltb_ge in E. lia.
Qed.

(** The dispatcher hands out the whole batch, in order, in slices of at most
    [batchSize] items, none of them empty. *)
Lemma subBatches_cover {A : Type} (batchSize : nat) (l : list A) :
  (1 <= batchSize)%nat ->
  concat (subBatches (length l) batchSize l) = l
  /\ Forall (fun b => (1 <= length b <= batchSize)%nat)
            (subBatches (length l) batchSize l).
Proof.
  intros Hsize.
  assert (Hgen : forall fuel (l : list A), (length l <= fuel)%nat ->
            concat (subBatches fuel batchSize l) = l
            /\ Forall (fun b => (1 <= length b <= batchSize)%nat)
                      (subBatches fuel batchSize l)).
  { induction fuel as [| fuel IH]; intros l' Hfuel.
    - destruct l'; [split; [reflexivity | constructor] | cbn in Hfuel; lia].
    - destruct l' as [| x l']; [split; [reflexivity | constructor] |].
      cbn [subBatches].
      destruct (IH (drop batchSize (x :: l'))) as [Hcat Hall].
      { rewrite length_drop. cbn [length] in *. lia. }
      split.
      + cbn [concat]. rewrite Hcat. apply take_drop.
      + constructor; [| exact Hall].
        rewrite length_take. cbn [length]. lia. }
  apply Hgen. lia.
Qed.



(** Thirteen valid records on eight processors: seven workers, sub-batches
    of two records, seven requests, whatever the order of the reports. *)
Example upsert_13_records :
  let out :=
    UpsertWithContext (H := samplePlatform) (cosineIndex 2)
      [6; 0; 3; 1; 5; 2; 4]%nat
      (repeat (denseItem "a" [F32.one; F32.zero]) 13) in
  fst out = None
  /\ map (fun req => match rqBody req with
                     | MsgpackBody batch => length batch
                     | JSONBody _ => 0%nat
                     end) (snd out)
     = [1; 2; 2; 2; 2; 2; 2]%nat.
Proof. vm_compute. split; reflexivity. Qed.

Example upsert_wrong_dimension :
  UpsertWithContext (H := samplePlatform) (cosineIndex 3) []
    [denseItem "a" [F32.one; F32.zero]]
  = (Some (ErrDimensionMismatch 3 2), []).
Proof. vm_compute. reflexivity. Qed.

(** ** Query: validation *)

Lemma checkQueryParams_ok (k ef : Z) :
  checkQueryParams k ef = None <->
  1 <= k <= MaxTopKAllowed /\ 0 <= ef <= MaxEfSearchAllowed.
Proof.
  unfold checkQueryParams, MaxTopKAllowed, MaxEfSearchAllowed.
  rewrite !Z.gtb_ltb.
  destruct (k <=? 0) eqn:E1; destruct (512 <? k) eqn:E2;
    destruct (ef <? 0) eqn:E3; destruct (1024 <? ef) eqn:E4; cbn [orb];
    repeat match goal with
      | E : (_ <=? _) = true |- _ => apply Z.leb_le in E
      | E : (_ <=? _) = false |- _ => apply Z.leb_gt in E
      | E : (_ <? _) = true |- _ => apply Z.ltb_lt in E
      | E : (_ <? _) = false |- _ => apply Z.ltb_ge in E
      end;
    split; intros Hq; try discriminate; try reflexivity; lia.
Qed.

Lemma QueryWithContext_bad_params `{Platform} (idx : Index) (sched : list nat)
    (vector : list F32.t) (sparseIndices : list Z) (sparseValues : list F32.t)
    (k : Z) (filter : option gomap) (ef : Z) (includeVectors : bool)
    (err : error) :
  checkQueryParams k ef = Some err ->
  QueryWithContext idx sched vector sparseIndices sparseValues k filter ef
    includeVectors = (Returns (Err err), []).
Proof.
  intros Hq. unfold QueryWithContext. rewrite Hq. reflexivity.
Qed.

(** C4. A query is checked for [1 <= k <= 512] and [0 <= ef <= 1024] before
    anything else: with [k = 0], [k = 513] or [ef = 1025] it fails with a
    validation error and no request, whatever the other arguments are, and
    [k = 512] with [ef = 0] or [ef = 1024] passes the check. *)
Theorem query_parameter_validation `{Platform} (idx : Index) (sched : list nat)
    (vector : list F32.t) (sparseIndices : list Z) (sparseValues : list F32.t)
    (filter : option gomap) (includeVectors : bool) :
  (forall ef,
     QueryWithContext idx sched vector sparseIndices sparseValues 0 filter ef
       includeVectors = (Returns (Err ErrTopK), []))
  /\ (forall ef,
        QueryWithContext idx sched vector sparseIndices sparseValues 513 filter
          ef includeVectors = (Returns (Err ErrTopK), []))
  /\ (forall k,
        QueryWithContext idx sched vector sparseIndices sparseValues k filter
          1025 includeVectors =
        (Returns (Err (if (k <=? 0) || (k >? 512) then ErrTopK else ErrEf)), []))
  /\ checkQueryParams 512 0 = None
  /\ checkQueryParams 512 1024 = None
  /\ (forall k ef,
        checkQueryParams k ef = None <-> 1 <= k <= 512 /\ 0 <= ef <= 1024).
Proof.
  split; [| split; [| split; [| split; [| split]]]].
  - intros ef. apply QueryWithContext_bad_params. reflexivity.
  - intros ef. apply QueryWithContext_bad_params. reflexivity.
  - intros k. apply QueryWithContext_bad_params.
    unfold checkQueryParams, MaxTopKAllowed.
    destruct ((k <=? 0) || (k >? 512)); reflexivity.
  - reflexivity.
  - reflexivity.
  - intros k ef. apply checkQueryParams_ok.
Qed.

Lemma query_parameter_validation_witness :
  QueryWithContext (H := samplePlatform) (cosineIndex 2) []
    [F32.one; F32.zero] [] [] 513 None 128 false
  = (Returns (Err ErrTopK), [])
  /\ checkQueryParams 512 1024 = None.
Proof.
  destruct (query_parameter_validation (H := samplePlatform) (cosineIndex 2) []
              [F32.one; F32.zero] [] [] None false)
    as (_ & H513 & _ & _ & _ & Hok).
  split.
  - apply H513.
  - apply Hok. concrete.
Defined.

(** C5. On an index whose dimension is not 0, a query with no dense vector
    and with sparse indices and values of the same non-zero length passes
    the check of its inputs, sends no request and fails; the failure is the
    dimension mismatch of [normalizeVector] on the empty vector as soon as
    [k] and [ef] are in range. *)
Theorem sparse_only_query_fails `{Platform} (idx : Index) (sched : list nat)
    (sparseIndices : list Z) (sparseValues : list F32.t)
    (k : Z) (filter : option gomap) (ef : Z) (includeVectors : bool) :
  Dimension idx <> 0 ->
  sparseIndices <> [] ->
  length sparseIndices = length sparseValues ->
  checkQueryInputs [] sparseIndices sparseValues = None
  /\ (exists err,
        QueryWithContext idx sched [] sparseIndices sparseValues k filter ef
          includeVectors = (Returns (Err err), []))
  /\ (checkQueryParams k ef = None ->
        QueryWithContext idx sched [] sparseIndices sparseValues k filter ef
          includeVectors =
        (Returns (Err (ErrDimensionMismatch (Dimension idx) 0)), [])).
Proof.
  intros Hdim Hsparse Hsame.
  assert (Hinputs : checkQueryInputs [] sparseIndices sparseValues = None).
  { unfold checkQueryInputs, len. rewrite <- Hsame.
    destruct sparseIndices as [| i rest]; [contradiction |].
    cbn [length]. rewrite Z.eqb_refl.
    replace (Z.of_nat (S (length rest)) >? 0) with true
      by (symmetry; apply Z.gtb_lt; lia).
    reflexivity. }
  assert (Hnorm : normalizeVector idx [] =
                  Err (ErrDimensionMismatch (Dimension idx) 0)).
  { apply (normalizeVector_dimension idx []). unfold len. cbn [length]. lia. }
  assert (Hrun : checkQueryParams k ef = None ->
            QueryWithContext idx sched [] sparseIndices sparseValues k filter ef
              includeVectors =
            (Returns (Err (ErrDimensionMismatch (Dimension idx) 0)), [])).
  { intros Hq. unfold QueryWithContext. rewrite Hq, Hinputs, Hnorm.
    reflexivity. }
  split; [exact Hinputs | split; [| exact Hrun]].
  destruct (checkQueryParams k ef) as [err |] eqn:Hq.
  - exists err. apply QueryWithContext_bad_params. exact Hq.
  - eexists. apply Hrun. reflexivity.
Qed.

Lemma sparse_only_query_fails_witness :
  QueryWithContext (H := samplePlatform) (cosineIndex 16) [] []
    [0; 10] [F32.one; F32.one] 3 None 128 false
  = (Returns (Err (ErrDimensionMismatch 16 0)), []).
Proof.
  apply (sparse_only_query_fails (H := samplePlatform) (cosineIndex 16) []
           [0; 10] [F32.one; F32.one] 3 None 128 false); concrete.
Defined.

Example query_sample :
  QueryWithContext (H := samplePlatform) (cosineIndex 2) []
    [F32.of_Z 3; F32.of_Z 4] [] [] 10 None 128 false
  = (Returns (Ok []),
     [ {| rqIndex := cosineIndex 2; rqMethod := "POST";
          rqPath := "index/%s/search";
          rqBody :=
            JSONBody
              {| qVector := [S754_finite false 10066330 (-24);
                             S754_finite false 13421773 (-24)];
                 qSparseIndices := []; qSparseValues := [];
                 qTopK := 10; qEf := 128; qIncludeVectors := false;
                 qFilter := "" |};
          rqContentType := "application/json" |} ]).
Proof. vm_compute. reflexivity. Qed.

(** ** Decoding the results of a query *)

Lemma processResult_malformed `{Platform} (result : list value)
    (includeVectors : bool) :
  len result < 5 ->
  processResult result includeVectors =
  Returns (Err (ErrInvalidResultFormat (length result))).
Proof.
  intros Hlen. unfold processResult.
  apply Z.ltb_lt in Hlen. rewrite Hlen. reflexivity.
Qed.

Lemma processResult_well_formed `{Platform} (result : list value)
    (includeVectors : bool) :
  5 <= len result -> vectorSlotOK result ->
  exists data,
    processResult result includeVectors = Returns (Ok data)
    /\ rID data = safeStringConvert (at_ result 1).
Proof.
  intros Hlen Hslot. unfold processResult.
  apply Z.ltb_ge in Hlen. rewrite Hlen.
  unfold vectorSlotOK in Hslot.
  destruct (includeVectors && (len result >? 5)); cbn [andb];
    destruct (at_ result 5); try contradiction; cbn [negb vectorOf];
    eexists; (split; [reflexivity | reflexivity]).
Qed.

(** What [processResult] reports is an error only for a tuple of fewer than
    five elements. *)
Lemma processResult_error `{Platform} (result : list value)
    (includeVectors : bool) (err : error) :
  processResult result includeVectors = Returns (Err err) ->
  len result < 5 /\ err = ErrInvalidResultFormat (length result).
Proof.
  unfold processResult. destruct (len result <? 5) eqn:E.
  - intros [= <-]. apply Z.ltb_lt in E. split; [exact E | reflexivity].
  - match goal with
    | |- context [if ?c then vectorOf _ else _] => destruct c
    end; [destruct (vectorOf _) |]; discriminate.
Qed.

Lemma decodeInline_well_formed `{Platform} (result : list value)
    (includeVectors : bool) :
  vectorSlotOK result ->
  exists data,
    decodeInline result includeVectors = Returns data
    /\ rID data = safeStringConvert (at_ result 1).
Proof.
  intros Hslot. unfold decodeInline, vectorSlotOK in *.
  destruct (len result >? 5); cbn [andb];
    destruct (at_ result 5); try contradiction; cbn [negb vectorOf];
    eexists; (split; [reflexivity | reflexivity]).
Qed.

(** A tuple of fewer than five elements leaves no trace in the sequential
    loop. *)
Lemma decodeLoop_skip `{Platform} (before after : list (list value))
    (bad : list value) (includeVectors : bool) :
  len bad < 5 ->
  decodeLoop (before ++ bad :: after)%list includeVectors =
  decodeLoop (before ++ after)%list includeVectors.
Proof.
  intros Hbad. induction before as [| result before IH]; cbn [app decodeLoop].
  - apply Z.ltb_lt in Hbad. rewrite Hbad. reflexivity.
  - rewrite IH. reflexivity.
Qed.

Lemma decodeLoop_well_formed `{Platform} (results : list (list value))
    (includeVectors : bool) :
  Forall vectorSlotOK results ->
  exists processedResults,
    decodeLoop results includeVectors = Returns processedResults
    /\ Forall2 (fun result data => rID data = safeStringConvert (at_ result 1))
               (filter (fun result => 5 <= len result) results)
               processedResults.
Proof.
  induction 1 as [| result results Hslot _ IH]; cbn [decodeLoop].
  - exists []. split; [reflexivity | constructor].
  - destruct IH as (rest & Hrest & Hids).
    rewrite filter_cons.
    destruct (len result <? 5) eqn:E.
    + apply Z.ltb_lt in E. rewrite decide_False by lia.
      exists rest. split; assumption.
    + apply Z.ltb_ge in E. rewrite decide_True by lia.
      destruct (decodeInline_well_formed result includeVectors Hslot)
        as (data & -> & Hid).
      rewrite Hrest. exists (data :: rest).
      split; [reflexivity | constructor; assumption].
Qed.

Lemma processResultsSequential_well_formed `{Platform}
    (results : list (list value)) (includeVectors : bool) :
  Forall vectorSlotOK results ->
  exists processedResults,
    processResultsSequential results includeVectors = Returns processedResults
    /\ Forall2 (fun result data => rID data = safeStringConvert (at_ result 1))
               (filter (fun result => 5 <= len result) results)
               processedResults.
Proof.
  intros Hslots. unfold processResultsSequential.
  destruct (decodeLoop_well_formed results includeVectors Hslots)
    as (processedResults & -> & Hids).
  eexists. split; [reflexivity |].
  destruct includeVectors; cbn [negb]; [exact Hids |].
  clear - Hids. induction Hids; cbn [map]; constructor; assumption.
Qed.

Lemma assembleResponse_dispatch `{Platform} (sched : list nat) (resp : response)
    (buf : list Byte.byte) (results : list (list value)) (includeVectors : bool) :
  StatusCode resp = 200 -> Body resp = Ok buf ->
  msgpackUnmarshal buf = Ok results ->
  assembleResponse sched resp includeVectors =
  if len results >? 50 then
    processResultsConcurrent sched results includeVectors
  else
    match processResultsSequential results includeVectors with
    | Panics => Panics
    | Returns processedResults => Returns (Ok processedResults)
    end.
Proof.
  intros Hstatus Hbody Hunpack. unfold assembleResponse, checkError.
  rewrite Hstatus, Hbody, Hunpack. reflexivity.
Qed.

(** The collector, when every report is the success [f index]. *)
Lemma collect_all_ok (f : nat -> QueryResult)
    (reports : list (nat * run (res QueryResult)))
    (processedResults : list QueryResult) :
  Forall (fun report => snd report = Returns (Ok (f (fst report)))) reports ->
  exists final,
    collect reports processedResults = Returns (Ok final)
    /\ length final = length processedResults
    /\ (forall j, j ∈ map fst reports -> (j < length processedResults)%nat ->
                  final !! j = Some (f j))
    /\ (forall j, j ∉ map fst reports -> final !! j = processedResults !! j).
Proof.
  intros Hall. revert processedResults.
  induction Hall as [| [index report] reports Hreport _ IH];
    intros processedResults.
  - exists processedResults. cbn. repeat split; try reflexivity.
    intros j Hj. apply elem_of_nil in Hj. contradiction.
  - cbn [fst snd] in Hreport. subst report. cbn [collect].
    destruct (IH (<[index := f index]> processedResults))
      as (final & Hrun & Hlength & Hin & Hout).
    rewrite length_insert in Hlength, Hin.
    exists final. split; [exact Hrun | split; [exact Hlength | split]].
    + intros j Hj Hlt. cbn [map fst] in Hj.
      destruct (decide (j ∈ map fst reports)) as [Hrest | Hrest].
      * apply Hin; assumption.
      * apply elem_of_cons in Hj as [-> | Hj]; [| contradiction].
        rewrite Hout by assumption.
        apply list_lookup_insert_eq. exact Hlt.
    + intros j Hj. cbn [map fst] in Hj.
      apply not_elem_of_cons in Hj as [Hne Hrest].
      rewrite Hout by assumption.
      apply list_lookup_insert_ne. congruence.
Qed.

(** The collector, when no report is a panic and one of them is an error:
    it returns an error that was reported. *)
Lemma collect_some_error (reports : list (nat * run (res QueryResult)))
    (processedResults : list QueryResult) :
  Forall (fun report => snd report <> Panics) reports ->
  Exists (fun report => exists err, snd report = Returns (Err err)) reports ->
  exists index err,
    In (index, Returns (Err err)) reports
    /\ collect reports processedResults = Returns (Err err).
Proof.
  intros Hnopanic. revert processedResults.
  induction Hnopanic as [| [index report] reports Hreport _ IH];
    intros processedResults Hexists.
  - inversion Hexists.
  - cbn [snd] in Hreport. cbn [collect].
    destruct report as [[data | err] |]; [| | contradiction].
    + inversion Hexists as [? ? (err & Herr) | ? ? Hrest]; subst.
      * discriminate.
      * destruct (IH (<[index := data]> processedResults) Hrest)
          as (index' & err' & Hin' & Hrun).
        exists index', err'. split; [right; exact Hin' | exact Hrun].
    + exists index, err. split; [left; reflexivity | reflexivity].
Qed.

(** The reports of the workers, for a schedule within range. *)
Lemma workerReports_indexes `{Platform} (results : list (list value))
    (includeVectors : bool) (sched : list nat) :
  Forall (fun index => (index < length results)%nat) sched ->
  map fst (omap (workerReport results includeVectors) sched) = sched.
Proof.
  induction 1 as [| index sched Hindex _ IH]; [reflexivity |].
  cbn [omap list_omap]. unfold workerReport at 1.
  apply lookup_lt_is_Some_2 in Hindex as [result Hresult].
  rewrite Hresult. cbn [option_map map fst]. f_equal. exact IH.
Qed.

Lemma workerReports_inv `{Platform} (results : list (list value))
    (includeVectors : bool) (sched : list nat) (index : nat)
    (report : run (res QueryResult)) :
  In (index, report) (omap (workerReport results includeVectors) sched) ->
  exists result,
    results !! index = Some result
    /\ report = processResult result includeVectors
    /\ In index sched.
Proof.
  induction sched as [| i sched IH]; cbn [omap list_omap]; [contradiction |].
  unfold workerReport at 1.
  destruct (results !! i) as [result |] eqn:Hresult; cbn [option_map].
  - intros [[= <- <-] | Hin].
    + exists result. split; [exact Hresult | split; [reflexivity | left; reflexivity]].
    + destruct (IH Hin) as (result' & ? & ? & ?).
      exists result'. split; [assumption | split; [assumption | right; assumption]].
  - intros Hin. destruct (IH Hin) as (result' & ? & ? & ?).
    exists result'. split; [assumption | split; [assumption | right; assumption]].
Qed.

Lemma sched_in_range (sched : list nat) (n : nat) :
  Permutation sched (seq 0 n) ->
  Forall (fun index => (index < n)%nat) sched
  /\ forall j, (j < n)%nat -> j ∈ sched.
Proof.
  intros Hperm. split.
  - apply Forall_forall. intros index Hin. apply list_elem_of_In in Hin.
    apply (Permutation_in _ Hperm) in Hin. apply in_seq in Hin. lia.
  - intros j Hj. apply list_elem_of_In.
    apply (Permutation_in _ (Permutation_sym Hperm)).
    apply in_seq. lia.
Qed.

(** C10. Concurrent decoding keeps the order of the response: whatever the
    order in which the workers report, for a response of N tuples of at
    least five elements the result has N entries and entry [i] is the
    decoding of tuple [i], with the id found at position [i]. *)
Theorem concurrent_decoding_order `{Platform} (sched : list nat)
    (results : list (list value)) (includeVectors : bool) :
  Permutation sched (seq 0 (length results)) ->
  Forall (fun result => 5 <= len result /\ vectorSlotOK result) results ->
  exists output,
    processResultsConcurrent sched results includeVectors = Returns (Ok output)
    /\ length output = length results
    /\ forall i result,
         results !! i = Some result ->
         exists data,
           processResult result includeVectors = Returns (Ok data)
           /\ output !! i = Some data
           /\ rID data = safeStringConvert (at_ result 1).
Proof.
  intros Hperm Hwell.
  destruct (sched_in_range sched (length results) Hperm) as [Hrange Hall].
  set (f := fun index =>
              match results !! index with
              | Some result =>
                  match processResult result includeVectors with
                  | Returns (Ok data) => data
                  | _ => emptyQueryResult
                  end
              | None => emptyQueryResult
              end).
  assert (Hdecode : forall i result, results !! i = Some result ->
            processResult result includeVectors = Returns (Ok (f i))
            /\ rID (f i) = safeStringConvert (at_ result 1)).
  { intros i result Hresult.
    assert (Hin : result ∈ results) by (eapply list_elem_of_lookup_2; eassumption).
    rewrite Forall_forall in Hwell. destruct (Hwell result Hin) as [Hlen Hslot].
    destruct (processResult_well_formed result includeVectors Hlen Hslot)
      as (data & Hdata & Hid).
    unfold f. rewrite Hresult, Hdata. split; [reflexivity | exact Hid]. }
  unfold processResultsConcurrent.
  destruct (collect_all_ok f
              (omap (workerReport results includeVectors) sched)
              (replicate (length results) emptyQueryResult))
    as (final & Hrun & Hlength & Hin & _).
  { apply Forall_forall. intros [index report] Hreport.
    apply list_elem_of_In, workerReports_inv in Hreport
      as (result & Hresult & -> & _).
    cbn [fst snd]. apply Hdecode. exact Hresult. }
  rewrite length_replicate in Hlength, Hin.
  rewrite workerReports_indexes in Hin by exact Hrange.
  exists final. split; [exact Hrun | split; [exact Hlength |]].
  intros i result Hresult.
  destruct (Hdecode i result Hresult) as [Hdata Hid].
  exists (f i). split; [exact Hdata | split; [| exact Hid]].
  pose proof (lookup_lt_Some _ _ _ Hresult) as Hlt.
  apply Hin; [apply Hall; exact Hlt | exact Hlt].
Qed.

Lemma concurrent_decoding_order_witness :
  exists output,
    processResultsConcurrent (H := samplePlatform) reverseSched51
      sampleResults51 false = Returns (Ok output)
    /\ length output = 51%nat
    /\ option_map rID (output !! 0%nat) = Some "1"
    /\ option_map rID (output !! 50%nat) = Some "51".
Proof.
  destruct (concurrent_decoding_order (H := samplePlatform) reverseSched51
              sampleResults51 false) as (output & Hrun & Hlength & Hat).
  - unfold reverseSched51. symmetry. apply Permutation_rev.
  - apply Forall_forall. apply (Forall_forall (A := list value)).
    vm_compute. repeat constructor; discriminate.
  - exists output. split; [exact Hrun | split; [exact Hlength | split]].
    + destruct (Hat 0%nat (sampleTuple Byte.x01) eq_refl)
        as (data & _ & Hout & Hid).
      rewrite Hout. cbn [option_map]. rewrite Hid. reflexivity.
    + destruct (Hat 50%nat (sampleTuple Byte.x33) eq_refl)
        as (data & _ & Hout & Hid).
      rewrite Hout. cbn [option_map]. rewrite Hid. reflexivity.
Defined.

(** C6. A tuple of fewer than five elements is treated in two ways.  In a
    response of at most 50 tuples the sequential loop skips it: the call
    succeeds, the output is what it would be without the tuple, one entry
    for each tuple of five elements or more, in order.  In a response of
    more than 50 tuples the concurrent assembly fails with the
    invalid-format error of such a tuple, whatever the order in which the
    workers report. *)
Theorem malformed_tuple_asymmetry `{Platform} (sched : list nat)
    (resp : response) (buf : list Byte.byte) (results : list (list value))
    (includeVectors : bool) :
  StatusCode resp = 200 -> Body resp = Ok buf ->
  msgpackUnmarshal buf = Ok results ->
  Forall vectorSlotOK results ->
  Permutation sched (seq 0 (length results)) ->
  (len results <= 50 ->
     exists output,
       assembleResponse sched resp includeVectors = Returns (Ok output)
       /\ processResultsSequential results includeVectors = Returns output
       /\ Forall2 (fun result data =>
                     rID data = safeStringConvert (at_ result 1))
                  (filter (fun result => 5 <= len result) results) output)
  /\ (forall before bad after,
        len bad < 5 ->
        processResultsSequential (before ++ bad :: after)%list includeVectors =
        processResultsSequential (before ++ after)%list includeVectors)
  /\ (50 < len results ->
      Exists (fun result => len result < 5) results ->
      exists bad,
        In bad results /\ len bad < 5
        /\ assembleResponse sched resp includeVectors =
           Returns (Err (ErrInvalidResultFormat (length bad)))).
Proof.
  intros Hstatus Hbody Hunpack Hslots Hperm.
  pose proof (assembleResponse_dispatch sched resp buf results includeVectors
                Hstatus Hbody Hunpack) as Hdispatch.
  split; [| split].
  - intros Hsmall.
    destruct (processResultsSequential_well_formed results includeVectors Hslots)
      as (output & Hrun & Hids).
    exists output. split; [| split; [exact Hrun | exact Hids]].
    rewrite Hdispatch, Hrun.
    replace (len results >? 50) with false
      by (symmetry; rewrite Z.gtb_ltb; apply Z.ltb_ge; lia).
    reflexivity.
  - intros before bad after Hbad. unfold processResultsSequential.
    rewrite decodeLoop_skip by exact Hbad. reflexivity.
  - intros Hlarge Hbad.
    rewrite Hdispatch.
    replace (len results >? 50) with true by (symmetry; apply Z.gtb_lt; lia).
    destruct (sched_in_range sched (length results) Hperm) as [Hrange Hall].
    unfold processResultsConcurrent.
    destruct (collect_some_error
                (omap (workerReport results includeVectors) sched)
                (replicate (length results) emptyQueryResult))
      as (index & err & Hin & Hrun).
    + apply Forall_forall. intros [index report] Hreport.
      apply list_elem_of_In, workerReports_inv in Hreport
        as (result & Hresult & -> & _).
      cbn [snd].
      assert (Hslot : vectorSlotOK result).
      { rewrite Forall_forall in Hslots. apply Hslots.
        eapply list_elem_of_lookup_2; eassumption. }
      destruct (Z.lt_ge_cases (len result) 5) as [Hlt | Hge].
      * rewrite processResult_malformed by exact Hlt. discriminate.
      * destruct (processResult_well_formed result includeVectors Hge Hslot)
          as (data & -> & _).
        discriminate.
    + apply Exists_exists in Hbad as (bad & Hbadin & Hbadlen).
      apply list_elem_of_lookup_1 in Hbadin as [index Hindex].
      apply Exists_exists.
      exists (index, processResult bad includeVectors). split.
      * apply (list_elem_of_omap (workerReport results includeVectors)).
        exists index. split.
        -- apply Hall. eapply lookup_lt_Some; eassumption.
        -- unfold workerReport. rewrite Hindex. reflexivity.
      * cbn [snd]. rewrite processResult_malformed by exact Hbadlen. eauto.
    + apply workerReports_inv in Hin as (bad & Hindex & Hreport & _).
      symmetry in Hreport. apply processResult_error in Hreport as [Hlen ->].
      exists bad. split; [| split; [exact Hlen | exact Hrun]].
      apply list_elem_of_In. eapply list_elem_of_lookup_2; eassumption.
Qed.

Lemma malformed_tuple_asymmetry_witness :
  (exists output,
     assembleResponse (H := samplePlatform) [0; 1; 2]%nat sampleResponse3 false
     = Returns (Ok output)
     /\ length output = 2%nat)
  /\ (exists bad : list value,
        len bad < 5
        /\ assembleResponse (H := samplePlatform) (rev (seq 0 52))
             sampleResponse52 false
           = Returns (Err (ErrInvalidResultFormat (length bad)))).
Proof.
  split.
  - destruct (malformed_tuple_asymmetry (H := samplePlatform) [0; 1; 2]%nat
                sampleResponse3 [Byte.x01; Byte.x00; Byte.x03]
                (map sampleTuple [Byte.x01; Byte.x00; Byte.x03]) false)
      as (Hsmall & _ & _).
    + reflexivity.
    + reflexivity.
    + reflexivity.
    + vm_compute. repeat constructor.
    + apply Permutation_refl.
    + destruct Hsmall as (output & Hrun & _ & Hids); [concrete |].
      exists output. split; [exact Hrun |].
      apply Forall2_length in Hids. rewrite <- Hids. reflexivity.
  - destruct (malformed_tuple_asymmetry (H := samplePlatform) (rev (seq 0 52))
                sampleResponse52 (Byte.x00 :: map byteOf (seq 1 51))
                (map sampleTuple (Byte.x00 :: map byteOf (seq 1 51))) false)
      as (_ & _ & Hlarge).
    + reflexivity.
    + reflexivity.
    + reflexivity.
    + vm_compute. repeat constructor.
    + symmetry. apply Permutation_rev.
    + destruct Hlarge as (bad & _ & Hlen & Hrun).
      * concrete.
      * apply Exists_cons_hd. concrete.
      * exists bad. split; [exact Hlen | exact Hrun].
Defined.

(** ** Classification of the HTTP status *)

Lemma checkError_ok `{Platform} (resp : response) :
  StatusCode resp = 200 -> checkError resp = None.
Proof. intros Hstatus. unfold checkError. rewrite Hstatus. reflexivity. Qed.

(** A 501 answer is not classified as server busy: the generic API error
    carries its status. *)
Lemma checkError_501_generic :
  checkError (H := samplePlatform) {| StatusCode := 501; Body := Ok [] |}
  = Some (APIError 501 "Unknown error")
  /\ forall msg,
       checkError (H := samplePlatform) {| StatusCode := 501; Body := Ok [] |}
       <> Some (ServerError msg).
Proof.
  split; [reflexivity | intros msg; vm_compute; discriminate].
Qed.

(** C9, amended. For a response whose status is not 200 and whose body can
    be read, [checkError] returns the typed error of the table: 400 bad
    request (the API error with status 400), 401 authentication, 402
    subscription, 403 forbidden, 404 not found, 409 conflict, 500, 502, 503
    and 504 server busy, and for any other status, the other 5xx among
    them, the generic API error with that status. *)
Theorem checkError_table `{Platform} (resp : response)
    (bodyBytes : list Byte.byte) :
  StatusCode resp <> 200 ->
  Body resp = Ok bodyBytes ->
  (StatusCode resp = 400 ->
     checkError resp = Some (APIError 400 (errorMessage bodyBytes)))
  /\ (StatusCode resp = 401 ->
        checkError resp = Some (AuthenticationError (errorMessage bodyBytes)))
  /\ (StatusCode resp = 402 ->
        checkError resp = Some (SubscriptionError (errorMessage bodyBytes)))
  /\ (StatusCode resp = 403 ->
        checkError resp = Some (ForbiddenError (errorMessage bodyBytes)))
  /\ (StatusCode resp = 404 ->
        checkError resp = Some (NotFoundError (errorMessage bodyBytes)))
  /\ (StatusCode resp = 409 ->
        checkError resp = Some (ConflictError (errorMessage bodyBytes)))
  /\ (In (StatusCode resp) [500; 502; 503; 504] ->
        checkError resp =
        Some (ServerError "Server is busy. Please try again in sometime"))
  /\ (~ In (StatusCode resp) [400; 401; 402; 403; 404; 409; 500; 502; 503; 504] ->
        checkError resp =
        Some (APIError (StatusCode resp) (errorMessage bodyBytes))).
Proof.
  intros Hstatus Hbody. unfold checkError.
  apply Z.eqb_neq in Hstatus. rewrite Hstatus, Hbody.
  repeat match goal with
  | |- _ /\ _ => split
  end.
  1-6: intros ->; reflexivity.
  - cbn [In]. intros [<- | [<- | [<- | [<- | []]]]]; reflexivity.
  - cbn [In]. intros Hother.
    repeat match goal with
    | |- context [StatusCode resp =? ?c] =>
        let E := fresh "E" in
        destruct (StatusCode resp =? c) eqn:E;
        [apply Z.eqb_eq in E; exfalso; apply Hother; rewrite E; tauto |]
    end.
    reflexivity.
Qed.

Lemma checkError_table_witness :
  checkError (H := samplePlatform)
    {| StatusCode := 503; Body := Ok (bytes_of_string "busy") |}
  = Some (ServerError "Server is busy. Please try again in sometime")
  /\ checkError (H := samplePlatform)
       {| StatusCode := 505; Body := Ok (bytes_of_string "no") |}
     = Some (APIError 505 "no")
  /\ checkError (H := samplePlatform)
       {| StatusCode := 404; Body := Ok (bytes_of_string "no such index") |}
     = Some (NotFoundError "no such index").
Proof.
  split; [| split].
  - destruct (checkError_table (H := samplePlatform)
                {| StatusCode := 503; Body := Ok (bytes_of_string "busy") |}
                (bytes_of_string "busy"))
      as (_ & _ & _ & _ & _ & _ & Hbusy & _); [concrete | reflexivity |].
    apply Hbusy. cbn. tauto.
  - destruct (checkError_table (H := samplePlatform)
                {| StatusCode := 505; Body := Ok (bytes_of_string "no") |}
                (bytes_of_string "no"))
      as (_ & _ & _ & _ & _ & _ & _ & Hother); [concrete | reflexivity |].
    apply Hother. cbn. intros Hin.
    repeat (destruct Hin as [Hin | Hin]; [discriminate |]). exact Hin.
  - destruct (checkError_table (H := samplePlatform)
                {| StatusCode := 404;
                   Body := Ok (bytes_of_string "no such index") |}
                (bytes_of_string "no such index"))
      as (_ & _ & _ & _ & Hnotfound & _); [concrete | reflexivity |].
    apply Hnotfound. reflexivity.
Defined.

(** ** Compression of the metadata *)

Example JsonZip_sample :
  JsonZip (H := samplePlatform) [("a", VInt 1)]
  = Ok (Byte.x78 :: Byte.x9c :: bytes_of_string (sampleJSON (VMap [("a", VInt 1)]))).
Proof. reflexivity. Qed.




(** ** Numeric coercion

    Rounding to a format, as [binary_round] does it, gives back every value
    of the format. *)

Lemma digits2_pos_bounds (m : positive) :
  2 ^ (Zpos (digits2_pos m) - 1) <= Zpos m < 2 ^ Zpos (digits2_pos m).
Proof.
  induction m as [p IH | p IH |]; cbn [digits2_pos].
  - rewrite Pos2Z.inj_succ. change (Zpos p~1) with (2 * Zpos p + 1).
    replace (Z.succ (Zpos (digits2_pos p)) - 1)
      with (Z.succ (Zpos (digits2_pos p) - 1)) by lia.
    rewrite !Z.pow_succ_r by lia.
    revert IH. generalize (2 ^ (Zpos (digits2_pos p) - 1)).
    generalize (2 ^ Zpos (digits2_pos p)). lia.
  - rewrite Pos2Z.inj_succ. change (Zpos p~0) with (2 * Zpos p).
    replace (Z.succ (Zpos (digits2_pos p)) - 1)
      with (Z.succ (Zpos (digits2_pos p) - 1)) by lia.
    rewrite !Z.pow_succ_r by lia.
    revert IH. generalize (2 ^ (Zpos (digits2_pos p) - 1)).
    generalize (2 ^ Zpos (digits2_pos p)). lia.
  - cbn. lia.
Qed.

Lemma pow2_exponent_unique (a b v : Z) :
  0 <= a -> 0 <= b ->
  2 ^ a <= v < 2 ^ (a + 1) -> 2 ^ b <= v < 2 ^ (b + 1) -> a = b.
Proof.
  intros Ha Hb Hva Hvb.
  destruct (Z.lt_trichotomy a b) as [Hlt | [Heq | Hgt]]; [| exact Heq |].
  - assert (2 ^ (a + 1) <= 2 ^ b) by (apply Z.pow_le_mono_r; lia). lia.
  - assert (2 ^ (b + 1) <= 2 ^ a) by (apply Z.pow_le_mono_r; lia). lia.
Qed.

Lemma dyadicEq_magnitude (m m' : positive) (e e' : Z) :
  dyadicEq (Zpos m) e (Zpos m') e' ->
  Zpos (digits2_pos m) + e = Zpos (digits2_pos m') + e'.
Proof.
  unfold dyadicEq. set (c := Z.min e e'). intros Hv.
  pose proof (digits2_pos_bounds m) as Hm.
  pose proof (digits2_pos_bounds m') as Hm'.
  assert (Hc : 0 <= e - c /\ 0 <= e' - c) by (unfold c; lia).
  assert (Hp : 0 < 2 ^ (e - c)) by (apply Z.pow_pos_nonneg; lia).
  assert (Hp' : 0 < 2 ^ (e' - c)) by (apply Z.pow_pos_nonneg; lia).
  set (d := Zpos (digits2_pos m)) in *. set (d' := Zpos (digits2_pos m')) in *.
  assert (Hd : 1 <= d) by (pose proof (Pos2Z.is_pos (digits2_pos m)); unfold d; lia).
  assert (Hd' : 1 <= d') by (pose proof (Pos2Z.is_pos (digits2_pos m')); unfold d'; lia).
  assert (H1 : 2 ^ (d - 1 + (e - c)) <= Zpos m * 2 ^ (e - c)
               < 2 ^ (d - 1 + (e - c) + 1)).
  { replace (d - 1 + (e - c) + 1) with (d + (e - c)) by lia.
    rewrite !Z.pow_add_r by lia. nia. }
  assert (H2 : 2 ^ (d' - 1 + (e' - c)) <= Zpos m * 2 ^ (e - c)
               < 2 ^ (d' - 1 + (e' - c) + 1)).
  { rewrite Hv. replace (d' - 1 + (e' - c) + 1) with (d' + (e' - c)) by lia.
    rewrite !Z.pow_add_r by lia. nia. }
  assert (d - 1 + (e - c) = d' - 1 + (e' - c))
    by (eapply pow2_exponent_unique; [| | exact H1 | exact H2]; lia).
  lia.
Qed.

Lemma Zpos_nat_iter_xO (n : nat) (m : positive) :
  Zpos (Nat.iter n xO m) = Zpos m * 2 ^ Z.of_nat n.
Proof.
  induction n as [| n IH].
  - cbn. lia.
  - rewrite Nat.iter_succ, (Pos2Z.inj_xO (Nat.iter n xO m)).
    rewrite IH, Nat2Z.inj_succ, Z.pow_succ_r by lia. lia.
Qed.

Lemma Zpos_iter_xO (m k : positive) :
  Zpos (Pos.iter xO m k) = Zpos m * 2 ^ Zpos k.
Proof.
  rewrite Pos2Nat.inj_iter, <- (positive_nat_Z k). apply Zpos_nat_iter_xO.
Qed.

Lemma iter_pos_nat {A : Type} (f : A -> A) (p : positive) (x : A) :
  SpecFloat.iter_pos f p x = Nat.iter (Pos.to_nat p) f x.
Proof.
  revert x. induction p as [p IH | p IH |]; intros x; cbn [SpecFloat.iter_pos].
  - rewrite !IH, Pos2Nat.inj_xI.
    replace (S (2 * Pos.to_nat p)) with (Pos.to_nat p + (Pos.to_nat p + 1))%nat
      by lia.
    rewrite !Nat.iter_add. reflexivity.
  - rewrite !IH, Pos2Nat.inj_xO.
    replace (2 * Pos.to_nat p)%nat with (Pos.to_nat p + Pos.to_nat p)%nat by lia.
    rewrite Nat.iter_add. reflexivity.
  - reflexivity.
Qed.

Lemma shr_1_iter_exact (n : nat) (m : positive) :
  Nat.iter n shr_1 (Build_shr_record (Zpos (Nat.iter n xO m)) false false)
  = Build_shr_record (Zpos m) false false.
Proof.
  induction n as [| n IH]; [reflexivity |].
  rewrite Nat.iter_succ_r.
  change (Nat.iter (S n) xO m) with (xO (Nat.iter n xO m)). cbn [shr_1 orb].
  exact IH.
Qed.

Section Rounding.
Variables prec emax : Z.

Lemma shr_iter_exact (m : positive) (e : Z) (k : positive) :
  shr (Build_shr_record (Zpos (Pos.iter xO m k)) false false) e (Zpos k)
  = (Build_shr_record (Zpos m) false false, e + Zpos k).
Proof.
  unfold shr. f_equal.
  rewrite iter_pos_nat, Pos2Nat.inj_iter. apply shr_1_iter_exact.
Qed.

(** A canonical mantissa is not shifted. *)
Lemma shr_fexp_canonical (m : positive) (e : Z) :
  bounded prec emax m e = true ->
  shr_fexp prec emax (Zpos m) e loc_Exact
  = (Build_shr_record (Zpos m) false false, e).
Proof.
  unfold bounded, canonical_mantissa. intros Hb.
  apply andb_prop in Hb as [Hcanon _]. apply Z.eqb_eq in Hcanon.
  unfold shr_fexp. cbn [Zdigits2 shr_record_of_loc].
  rewrite Hcanon, Z.sub_diag. reflexivity.
Qed.

(** Rounding a mantissa that is already canonical changes nothing. *)
Lemma binary_round_aux_canonical (s : bool) (m : positive) (e : Z) :
  bounded prec emax m e = true ->
  binary_round_aux prec emax s (Zpos m) e loc_Exact = S754_finite s m e.
Proof.
  intros Hb. unfold binary_round_aux.
  rewrite (shr_fexp_canonical m e Hb).
  cbn [shr_m loc_of_shr_record round_nearest_even].
  rewrite (shr_fexp_canonical m e Hb). cbn [shr_m].
  unfold bounded in Hb. apply andb_prop in Hb as [_ Hmax].
  rewrite Hmax. reflexivity.
Qed.

(** Rounding the value of a float of the format gives that float. *)
Lemma binary_round_exact (s : bool) (m m' : positive) (e e' : Z) :
  bounded prec emax m' e' = true ->
  dyadicEq (Zpos m) e (Zpos m') e' ->
  binary_round prec emax s m e = S754_finite s m' e'.
Proof.
  intros Hb Hv.
  pose proof (dyadicEq_magnitude m m' e e' Hv) as Hmag.
  assert (Hcanon : fexp prec emax (Zpos (digits2_pos m) + e) = e').
  { unfold bounded, canonical_mantissa in Hb.
    apply andb_prop in Hb as [Hcanon _]. apply Z.eqb_eq in Hcanon.
    rewrite Hmag. exact Hcanon. }
  unfold dyadicEq in Hv. unfold binary_round. rewrite Hcanon.
  unfold shl_align.
  destruct (e' - e) as [| k | k] eqn:Hk.
  - assert (He : e' = e) by lia. rewrite He in Hv, Hb |- *.
    rewrite Z.min_id, Z.sub_diag in Hv. cbn in Hv.
    assert (m = m') by lia. subst m'.
    apply binary_round_aux_canonical. exact Hb.
  - assert (He : e' = e + Zpos k) by lia.
    rewrite Z.min_l in Hv by lia. rewrite Z.sub_diag in Hv.
    replace (e' - e) with (Zpos k) in Hv by lia.
    rewrite Z.pow_0_r, Z.mul_1_r in Hv.
    assert (Hm : m = Pos.iter xO m' k).
    { apply Pos2Z.inj. rewrite Zpos_iter_xO. exact Hv. }
    subst m.
    unfold binary_round_aux, shr_fexp at 1. cbn [Zdigits2 shr_record_of_loc].
    rewrite Hcanon, Hk, shr_iter_exact.
    cbn [shr_m loc_of_shr_record round_nearest_even].
    rewrite <- He, (shr_fexp_canonical m' e' Hb). cbn [shr_m].
    unfold bounded in Hb. apply andb_prop in Hb as [_ Hmax].
    rewrite Hmax. reflexivity.
  - assert (He : e = e' + Zpos k) by lia.
    rewrite Z.min_r in Hv by lia. rewrite Z.sub_diag in Hv.
    replace (e - e') with (Zpos k) in Hv by lia.
    rewrite Z.pow_0_r, Z.mul_1_r in Hv.
    assert (Hm : Pos.iter xO m k = m').
    { apply Pos2Z.inj. rewrite Zpos_iter_xO. exact Hv. }
    rewrite Hm. apply binary_round_aux_canonical. exact Hb.
Qed.

End Rounding.

Lemma dyadicEq_sym (m1 e1 m2 e2 : Z) :
  dyadicEq m1 e1 m2 e2 -> dyadicEq m2 e2 m1 e1.
Proof.
  unfold dyadicEq. rewrite (Z.min_comm e2 e1). intros Hv. symmetry. exact Hv.
Qed.

(** The two sides of a dyadic equality have the same sign. *)
Lemma dyadicEq_sign (s s' : bool) (m m' : positive) (e e' : Z) :
  dyadicEq (cond_Zopp s (Zpos m)) e (cond_Zopp s' (Zpos m')) e' ->
  s = s' /\ dyadicEq (Zpos m) e (Zpos m') e'.
Proof.
  unfold dyadicEq.
  assert (Hp : 0 < 2 ^ (e - Z.min e e')) by (apply Z.pow_pos_nonneg; lia).
  assert (Hp' : 0 < 2 ^ (e' - Z.min e e')) by (apply Z.pow_pos_nonneg; lia).
  destruct s, s'; cbn [cond_Zopp]; intros Hv;
    try (split; [reflexivity | nia]); exfalso; nia.
Qed.

Lemma digits2_pos_nat_shift (n : nat) (m : positive) :
  Zpos (digits2_pos (Nat.iter n xO m)) = Zpos (digits2_pos m) + Z.of_nat n.
Proof.
  induction n as [| n IH]; [cbn; lia |].
  change (Nat.iter (S n) xO m) with (xO (Nat.iter n xO m)).
  cbn [digits2_pos]. rewrite Pos2Z.inj_succ, IH. lia.
Qed.

Lemma digits2_pos_shift (m k : positive) :
  Zpos (digits2_pos (Pos.iter xO m k)) = Zpos (digits2_pos m) + Zpos k.
Proof.
  rewrite Pos2Nat.inj_iter, <- (positive_nat_Z k). apply digits2_pos_nat_shift.
Qed.

(** Every integer below [2^24] is a value of binary32. *)
Lemma small_integer_binary32 (m : positive) :
  Zpos m < 2 ^ 24 ->
  exists m' e',
    bounded F32.prec F32.emax m' e' = true
    /\ dyadicEq (Zpos m) 0 (Zpos m') e'.
Proof.
  intros Hsmall.
  pose proof (digits2_pos_bounds m) as Hd.
  pose proof (Pos2Z.is_pos (digits2_pos m)) as Hpos.
  assert (Hdigits : Zpos (digits2_pos m) <= 24).
  { destruct (Z.le_gt_cases (Zpos (digits2_pos m)) 24) as [Hle | Hgt];
      [exact Hle | exfalso].
    assert (2 ^ 24 <= 2 ^ (Zpos (digits2_pos m) - 1))
      by (apply Z.pow_le_mono_r; lia).
    lia. }
  destruct (24 - Zpos (digits2_pos m)) as [| k | k] eqn:Hk; [| | lia].
  - exists m, 0. split.
    + unfold bounded, canonical_mantissa, fexp, emin, F32.prec, F32.emax.
      replace (Zpos (digits2_pos m)) with 24 by lia. reflexivity.
    + unfold dyadicEq. reflexivity.
  - exists (Pos.iter xO m k), (- Zpos k). split.
    + unfold bounded, canonical_mantissa, fexp, emin, F32.prec, F32.emax.
      rewrite digits2_pos_shift.
      apply andb_true_intro. split; [apply Z.eqb_eq | apply Z.leb_le]; lia.
    + unfold dyadicEq. rewrite Z.min_r by lia.
      rewrite Z.sub_diag, Z.pow_0_r, Zpos_iter_xO.
      replace (0 - - Zpos k) with (Zpos k) by lia. lia.
Qed.

(** [float32(n)] is exact whenever [n] is a value of binary32: the
    conversion returns the float that holds [n]. *)
Lemma of_Z_exact (n : Z) (x : spec_float) :
  binary32 x -> hasValue x n 0 -> hasValue (F32.of_Z n) n 0.
Proof.
  unfold binary32. intros Hvalid Hvalue.
  destruct n as [| m | m]; [reflexivity | |];
    (destruct x as [sx | sx | | sx mx ex]; cbn [hasValue] in Hvalue;
       [discriminate | contradiction | contradiction |]).
  - change (Zpos m) with (cond_Zopp false (Zpos m)) in Hvalue.
    apply dyadicEq_sign in Hvalue as [-> Hvalue].
    unfold F32.of_Z, binary_normalize.
    rewrite (binary_round_exact F32.prec F32.emax false m mx 0 ex Hvalid)
      by (apply dyadicEq_sym; exact Hvalue).
    cbn [hasValue cond_Zopp]. exact Hvalue.
  - change (Zneg m) with (cond_Zopp true (Zpos m)) in Hvalue.
    pose proof Hvalue as Hsigned.
    apply dyadicEq_sign in Hvalue as [-> Hvalue].
    unfold F32.of_Z, binary_normalize.
    rewrite (binary_round_exact F32.prec F32.emax true m mx 0 ex Hvalid)
      by (apply dyadicEq_sym; exact Hvalue).
    cbn [hasValue]. exact Hsigned.
Qed.

Lemma of_Z_small (n : Z) : Z.abs n < 2 ^ 24 -> hasValue (F32.of_Z n) n 0.
Proof.
  intros Hsmall. destruct n as [| m | m]; [reflexivity | |].
  - destruct (small_integer_binary32 m Hsmall) as (m' & e' & Hb & Hv).
    apply (of_Z_exact (Zpos m) (S754_finite false m' e')); [exact Hb |].
    cbn [hasValue cond_Zopp]. apply dyadicEq_sym. exact Hv.
  - destruct (small_integer_binary32 m Hsmall) as (m' & e' & Hb & Hv).
    apply (of_Z_exact (Zneg m) (S754_finite true m' e')); [exact Hb |].
    cbn [hasValue cond_Zopp]. apply dyadicEq_sym in Hv.
    unfold dyadicEq in *. lia.
Qed.

(** [float32(y)] for a [float64] [y] is exact whenever [y] is a value of
    binary32. *)
Lemma to_f32_exact (y x : spec_float) :
  binary32 x -> sameValue x y -> sameValue (F64.to_f32 y) y.
Proof.
  unfold binary32. intros Hvalid Hsame.
  destruct y as [sy | sy | | sy my ey]; cbn [sameValue F64.to_f32] in *;
    try reflexivity.
  destruct x as [sx | sx | | sx mx ex]; cbn [hasValue] in Hsame;
    [destruct sy; discriminate | contradiction | contradiction |].
  pose proof Hsame as Hsigned.
  apply dyadicEq_sign in Hsame as [-> Hsame].
  rewrite (binary_round_exact F32.prec F32.emax sy my mx ey ex Hvalid)
    by (apply dyadicEq_sym; exact Hsame).
  cbn [hasValue]. exact Hsigned.
Qed.

Example toFloat32_int64_exact :
  toFloat32 (VInt64 (2 ^ 40)) = S754_finite false 8388608 17.
Proof. vm_compute. reflexivity. Qed.

Example toFloat32_uint_unrecognised : toFloat32 (VUint 7) = F32.zero.
Proof. reflexivity. Qed.

(** A 32-bit integer loses precision too: 16777217 needs 25 significant
    bits and becomes 16777216. *)
Lemma toFloat32_int32_rounds :
  toFloat32 (VInt32 16777217) = S754_finite false 8388608 1
  /\ hasValue (toFloat32 (VInt32 16777217)) 16777216 0
  /\ ~ hasValue (toFloat32 (VInt32 16777217)) 16777217 0.
Proof.
  split; [vm_compute; reflexivity | split].
  - vm_compute. reflexivity.
  - vm_compute. discriminate.
Qed.

(** C7, amended. [toFloat32] turns every integer of the widths it knows
    (int and int8 to int64, uint8 to uint64) and both float widths into a
    binary32 value: a float32 is returned as it is; an integer and a float64
    are rounded to binary32, and come out unchanged whenever binary32 holds
    their value, which is the case of every integer below [2^24] in
    magnitude; the other values lose precision, wide integers as well as
    64-bit floats.  Nil and every other type give zero. *)
Theorem toFloat32_coercion :
  (forall v n,
     wireInteger v = Some n ->
     toFloat32 v = F32.of_Z n
     /\ (forall x, binary32 x -> hasValue x n 0 -> hasValue (toFloat32 v) n 0)
     /\ (Z.abs n < 2 ^ 24 -> hasValue (toFloat32 v) n 0))
  /\ (forall x, toFloat32 (VFloat32 x) = x)
  /\ (forall y,
        toFloat32 (VFloat64 y) = F64.to_f32 y
        /\ forall x, binary32 x -> sameValue x y ->
                     sameValue (toFloat32 (VFloat64 y)) y)
  /\ toFloat32 VNil = F32.zero
  /\ (forall v, wireNumber v = false -> toFloat32 v = F32.zero).
Proof.
  split; [| split; [| split; [| split]]].
  - intros v n Hint.
    assert (Hconv : toFloat32 v = F32.of_Z n).
    { destruct v; cbn [wireInteger] in Hint; try discriminate;
        injection Hint as <-; reflexivity. }
    rewrite Hconv. split; [reflexivity | split].
    + intros x. apply of_Z_exact.
    + apply of_Z_small.
  - intros x. reflexivity.
  - intros y. split; [reflexivity |].
    intros x. cbn [toFloat32]. apply to_f32_exact.
  - reflexivity.
  - intros v Hother. destruct v; cbn in Hother; try discriminate; reflexivity.
Qed.

Lemma toFloat32_coercion_witness :
  hasValue (toFloat32 (VInt64 (2 ^ 40))) (2 ^ 40) 0
  /\ hasValue (toFloat32 (VUint16 65535)) 65535 0
  /\ sameValue (toFloat32 (VFloat64 (S754_finite false 4503599627370496 (-53))))
               (S754_finite false 4503599627370496 (-53))
  /\ toFloat32 (VString "1.5") = F32.zero.
Proof.
  destruct toFloat32_coercion as (Hint & _ & Hfloat & _ & Hother).
  split; [| split; [| split]].
  - destruct (Hint (VInt64 (2 ^ 40)) (2 ^ 40) eq_refl) as (_ & Hexact & _).
    apply (Hexact (S754_finite false 8388608 17)); concrete.
  - destruct (Hint (VUint16 65535) 65535 eq_refl) as (_ & _ & Hsmall).
    apply Hsmall. concrete.
  - destruct (Hfloat (S754_finite false 4503599627370496 (-53))) as (_ & Hexact).
    apply (Hexact (S754_finite false 8388608 (-24))); concrete.
  - apply Hother. reflexivity.
Defined.

(** * Further properties *)

(** ** Vector normalisation *)

(** X1. When [normalizeVector] succeeds, the vector it returns has as many
    components as the one it was given, that is the dimension of the index,
    and the norm it returns is never zero. *)
Theorem normalizeVector_success (idx : Index) (v r : list F32.t) (n : F32.t) :
  normalizeVector idx v = Ok (r, n) ->
  length r = length v
  /\ len r = Dimension idx
  /\ F32.eqb n F32.zero = false.
Proof.
  unfold normalizeVector.
  destruct (len v =? Dimension idx) eqn:Hlen; cbn [negb]; [| discriminate].
  apply Z.eqb_eq in Hlen.
  destruct (negb (String.eqb (SpaceType idx) "cosine")).
  - intros [= <- <-]. split; [reflexivity | split; [exact Hlen | reflexivity]].
  - cbv zeta. destruct (F32.eqb (euclideanNorm v) F32.zero) eqn:Hnorm.
    + intros [= <- <-]. split; [reflexivity | split; [exact Hlen | reflexivity]].
    + intros [= <- <-]. split; [apply length_map | split; [| exact Hnorm]].
      unfold len in *. rewrite length_map. exact Hlen.
Qed.

Lemma normalizeVector_success_witness :
  length [S754_finite false 10066330 (-24); S754_finite false 13421773 (-24)]
  = length [F32.of_Z 3; F32.of_Z 4]
  /\ len [S754_finite false 10066330 (-24); S754_finite false 13421773 (-24)]
     = Dimension (cosineIndex 2)
  /\ F32.eqb (F32.of_Z 5) F32.zero = false.
Proof.
  apply (normalizeVector_success (cosineIndex 2) [F32.of_Z 3; F32.of_Z 4]).
  vm_compute. reflexivity.
Defined.

Lemma sumSquares_zero (v : list F32.t) :
  Forall isZero v -> sumSquares v = S754_zero false.
Proof.
  unfold sumSquares. intros Hzero.
  induction Hzero as [| x v Hx _ IH]; [reflexivity |].
  cbn [fold_left].
  destruct x as [s | | |]; try contradiction.
  replace (F32.add F32.zero (F32.mul (S754_zero s) (S754_zero s)))
    with F32.zero by (destruct s; reflexivity).
  exact IH.
Qed.

(** X2. A vector of the right length whose components are all zero, of
    either sign, is returned as it is with norm 1.0, in every space: the
    zero vector is never divided. *)
Theorem normalizeVector_zero_vector (idx : Index) (v : list F32.t) :
  len v = Dimension idx ->
  Forall isZero v ->
  normalizeVector idx v = Ok (v, F32.one).
Proof.
  intros Hlen Hzero. unfold normalizeVector.
  apply Z.eqb_eq in Hlen. rewrite Hlen. cbn [negb].
  destruct (negb (String.eqb (SpaceType idx) "cosine")); [reflexivity |].
  cbv zeta. unfold euclideanNorm. rewrite (sumSquares_zero v Hzero).
  reflexivity.
Qed.

Lemma normalizeVector_zero_vector_witness :
  normalizeVector (cosineIndex 3) [S754_zero false; S754_zero true; S754_zero false]
  = Ok ([S754_zero false; S754_zero true; S754_zero false], F32.one).
Proof.
  apply normalizeVector_zero_vector; [reflexivity | repeat constructor].
Defined.

(** ** Upsert *)

(** X3. The validation loop of upsert lets a batch through exactly when
    every record has an id that is not blank and sparse indices and values
    of the same length. *)
Theorem validateItems_accepts (i : nat) (items : list VectorItem) :
  validateItems i items = None <-> Forall validItem items.
Proof.
  revert i. induction items as [| item items IH]; intros i.
  - split; [constructor | reflexivity].
  - cbn [validateItems]. unfold validItem at 1.
    pose proof (len_nonneg (SparseIndices item)) as Hi.
    pose proof (len_nonneg (SparseValues item)) as Hv.
    destruct (String.eqb (TrimSpace (ID item)) "") eqn:Hid.
    + apply String.eqb_eq in Hid. split; [discriminate |].
      intros Hall. inversion Hall as [| ? ? [Hne _] _]; subst. contradiction.
    + apply String.eqb_neq in Hid.
      destruct (len (SparseIndices item) >? 0) eqn:Ei;
        destruct (len (SparseValues item) >? 0) eqn:Ev;
        cbn [Bool.eqb negb andb];
        rewrite Z.gtb_ltb in Ei, Ev;
        repeat match goal with
          | E : (_ <? _) = true |- _ => apply Z.ltb_lt in E
          | E : (_ <? _) = false |- _ => apply Z.ltb_ge in E
          end.
      * destruct (len (SparseIndices item) =? len (SparseValues item)) eqn:Es;
          cbn [negb].
        -- apply Z.eqb_eq in Es. rewrite IH. split.
           ++ intros Hrest. constructor; [split; assumption | exact Hrest].
           ++ intros Hall. inversion Hall; subst. assumption.
        -- apply Z.eqb_neq in Es. split; [discriminate |].
           intros Hall. inversion Hall as [| ? ? [_ Heq] _]; subst. contradiction.
      * split; [discriminate |].
        intros Hall. inversion Hall as [| ? ? [_ Heq] _]; subst. lia.
      * split; [discriminate |].
        intros Hall. inversion Hall as [| ? ? [_ Heq] _]; subst. lia.
      * rewrite IH. split.
        -- intros Hrest. constructor; [split; [assumption | lia] | exact Hrest].
        -- intros Hall. inversion Hall; subst. assumption.
Qed.

Lemma subBatches_count {A : Type} (batchSize : nat) (l : list A) :
  (1 <= batchSize)%nat ->
  (length l <= length (subBatches (length l) batchSize l) * batchSize
   /\ length (subBatches (length l) batchSize l) * batchSize
      < length l + batchSize)%nat.
Proof.
  intros Hsize.
  assert (Hgen : forall fuel (l : list A), (length l <= fuel)%nat ->
            (length l <= length (subBatches fuel batchSize l) * batchSize
             /\ length (subBatches fuel batchSize l) * batchSize
                < length l + batchSize)%nat).
  { induction fuel as [| fuel IH]; intros l' Hfuel.
    - destruct l'; cbn in *; lia.
    - destruct l' as [| x l']; [cbn; lia |].
      cbn [subBatches].
      destruct (IH (drop batchSize (x :: l'))) as [Hlow Hhigh].
      { rewrite length_drop. cbn [length] in *. lia. }
      rewrite length_drop in Hlow, Hhigh. cbn [length] in *.
      rewrite Nat.mul_succ_l.
      set (c := length (subBatches fuel batchSize (drop batchSize (x :: l'))))
        in *.
      destruct (Nat.le_gt_cases batchSize (S (length l'))) as [Hle | Hgt].
      + lia.
      + assert (Hc : c = 0%nat).
        { destruct c; [reflexivity | exfalso].
          rewrite Nat.mul_succ_l in Hhigh. lia. }
        rewrite Hc. lia. }
  apply Hgen. lia.
Qed.

(** X4. For a batch of 11 to 1000 records the dispatcher of
    [upsertConcurrent] cuts the batch into sub-batches that, put end to end,
    are the batch itself; none is empty, none has more than 100 records, and
    there are [ceil(n / batchSize)] of them. *)
Theorem upsert_sub_batches `{Platform} (inputArray : list VectorItem) :
  1 <= NumCPU < 2 ^ 62 ->
  10 < len inputArray <= MaxVectorsPerBatch ->
  concat (upsertBatches inputArray) = inputArray
  /\ Forall (fun batch => (1 <= length batch <= 100)%nat)
            (upsertBatches inputArray)
  /\ len (upsertBatches inputArray) =
     ceilDiv (len inputArray)
       (upsertBatchSize (len inputArray) (upsertWorkers (len inputArray))).
Proof.
  intros Hcpu Hlen. unfold MaxVectorsPerBatch in Hlen.
  set (n := len inputArray) in *.
  assert (Hworkers : upsertWorkers n = Z.min NumCPU (ceilDiv n 2))
    by (apply upsertWorkers_min; lia).
  pose proof (ceilDiv_bounds n 2 ltac:(lia)) as Hhalf.
  assert (Hw : 1 <= upsertWorkers n < 2 ^ 62) by lia.
  assert (Hsize : upsertBatchSize n (upsertWorkers n) =
                  Z.min 100 (ceilDiv n (upsertWorkers n)))
    by (apply upsertBatchSize_min; lia).
  assert (Hceil := ceilDiv_bounds n (upsertWorkers n)).
  specialize (Hceil ltac:(lia)).
  assert (Hb : 1 <= upsertBatchSize n (upsertWorkers n) <= 100) by nia.
  set (b := upsertBatchSize n (upsertWorkers n)) in *.
  unfold upsertBatches. fold n. fold b.
  destruct (subBatches_cover (Z.to_nat b) inputArray ltac:(lia))
    as [Hconcat Hall].
  split; [exact Hconcat | split].
  - eapply Forall_impl; [exact Hall |]. cbn. intros batch Hbatch. lia.
  - pose proof (subBatches_count (Z.to_nat b) inputArray ltac:(lia))
      as [Hlow Hhigh].
    pose proof (ceilDiv_bounds n b ltac:(lia)) as Hcount.
    unfold len in *.
    set (c := length (subBatches (length inputArray) (Z.to_nat b) inputArray))
      in *.
    assert (Hlow' : n <= Z.of_nat c * b) by (unfold n; nia).
    assert (Hhigh' : Z.of_nat c * b < n + b) by (unfold n; nia).
    nia.
Qed.

Lemma upsert_sub_batches_witness :
  concat (upsertBatches (H := samplePlatform)
            (repeat (denseItem "a" [F32.one; F32.zero]) 13))
  = repeat (denseItem "a" [F32.one; F32.zero]) 13
  /\ len (upsertBatches (H := samplePlatform)
            (repeat (denseItem "a" [F32.one; F32.zero]) 13)) = 7.
Proof.
  destruct (upsert_sub_batches (H := samplePlatform)
              (repeat (denseItem "a" [F32.one; F32.zero]) 13))
    as (Hconcat & _ & Hcount); [concrete | concrete |].
  split; [exact Hconcat | exact Hcount].
Defined.

(** What the workers report: one outcome for each sub-batch, in the order
    of the schedule. *)
Lemma reports_of_schedule {A B : Type} (f : A -> B) (l : list A) :
  omap (fun j => option_map f (l !! j)) (seq 0 (length l)) = map f l.
Proof.
  assert (Hgen : forall (pre : list A),
            omap (fun j => option_map f ((pre ++ l)%list !! j))
                 (seq (length pre) (length l)) = map f l).
  { induction l as [| x l IH]; intros pre; [reflexivity |].
    cbn [length seq omap list_omap map].
    rewrite list_lookup_middle by reflexivity. cbn [option_map].
    f_equal.
    specialize (IH (pre ++ [x])%list).
    rewrite <- app_assoc, length_app in IH. cbn [app length] in IH.
    replace (length pre + 1)%nat with (S (length pre)) in IH by lia.
    exact IH. }
  apply (Hgen []).
Qed.

Lemma reports_permutation {A B : Type} (f : A -> B) (l : list A)
    (sched : list nat) :
  Permutation sched (seq 0 (length l)) ->
  Permutation (omap (fun j => option_map f (l !! j)) sched) (map f l).
Proof.
  intros Hperm. rewrite <- (reports_of_schedule f l).
  apply omap_Permutation. exact Hperm.
Qed.

Lemma omap_nil_all_none {A B : Type} (f : A -> option B) (l : list A) :
  omap f l = [] <-> Forall (fun x => f x = None) l.
Proof.
  induction l as [| x l IH]; cbn [omap list_omap].
  - split; [constructor | reflexivity].
  - destruct (f x) eqn:Hx.
    + split; [discriminate |]. intros Hall. inversion Hall; congruence.
    + rewrite IH. split.
      * intros Hall. constructor; assumption.
      * intros Hall. inversion Hall; assumption.
Qed.

(** X5. When every sub-batch is reported once, in whatever order,
    [upsertConcurrent] succeeds exactly when every sub-batch succeeds, an
    error it returns wraps the error of one of the sub-batches, and the
    requests sent are those of all the sub-batches: a sub-batch that fails
    does not keep the others from being sent. *)
Theorem upsertConcurrent_outcome `{Platform} (idx : Index) (sched : list nat)
    (inputArray : list VectorItem) :
  Permutation sched (seq 0 (length (upsertBatches inputArray))) ->
  (fst (upsertConcurrent idx sched inputArray) = None <->
   Forall (fun batch => fst (upsertSequential idx batch) = None)
          (upsertBatches inputArray))
  /\ (forall err,
        fst (upsertConcurrent idx sched inputArray) = Some err ->
        exists batch cause,
          In batch (upsertBatches inputArray)
          /\ fst (upsertSequential idx batch) = Some cause
          /\ err = ErrUpsertFailed cause)
  /\ Permutation (snd (upsertConcurrent idx sched inputArray))
       (concat (map (fun batch => snd (upsertSequential idx batch))
                    (upsertBatches inputArray))).
Proof.
  intros Hperm.
  pose proof (reports_permutation (upsertSequential idx)
                (upsertBatches inputArray) sched Hperm) as Hreports.
  unfold upsertConcurrent. fold (upsertBatches inputArray).
  set (reports := omap (fun j => option_map (upsertSequential idx)
                                   (upsertBatches inputArray !! j)) sched)
    in *.
  cbn [fst snd].
  split; [| split].
  - destruct (omap fst reports) as [| err errors] eqn:Herrors.
    + split; [intros _ | reflexivity].
      apply omap_nil_all_none in Herrors.
      apply Forall_forall. intros batch Hbatch.
      rewrite Forall_forall in Herrors. apply (Herrors (upsertSequential idx batch)).
      apply list_elem_of_In.
      apply (Permutation_in _ (Permutation_sym Hreports)).
      apply in_map. apply list_elem_of_In. exact Hbatch.
    + split; [discriminate |]. intros Hall. exfalso.
      assert (Hnone : omap fst reports = []).
      { apply omap_nil_all_none. apply Forall_forall. intros report Hreport.
        apply list_elem_of_In, (Permutation_in _ Hreports), in_map_iff in Hreport
          as (batch & <- & Hbatch).
        rewrite Forall_forall in Hall. apply Hall, list_elem_of_In, Hbatch. }
      congruence.
  - intros err. destruct (omap fst reports) as [| cause errors] eqn:Herrors;
      [discriminate |].
    intros [= <-].
    assert (Hcause : cause ∈ omap fst reports) by (rewrite Herrors; left).
    apply list_elem_of_omap in Hcause as (report & Hreport & Hfst).
    apply list_elem_of_In, (Permutation_in _ Hreports), in_map_iff in Hreport
      as (batch & <- & Hbatch).
    exists batch, cause. split; [exact Hbatch | split; [exact Hfst | reflexivity]].
  - rewrite <- !flat_map_concat_map.
    rewrite (flat_map_concat_map _ (upsertBatches inputArray)).
    rewrite <- map_map, <- flat_map_concat_map.
    apply Permutation_flat_map. exact Hreports.
Qed.

(** Thirteen records whose last one has a vector of the wrong length: the
    seventh sub-batch fails, the six others are sent. *)
Lemma upsertConcurrent_outcome_witness :
  let inputArray :=
    (repeat (denseItem "a" [F32.one; F32.zero]) 12 ++ [denseItem "b" [F32.one]])%list in
  (exists batch cause,
     In batch (upsertBatches (H := samplePlatform) inputArray)
     /\ fst (upsertSequential (H := samplePlatform) (cosineIndex 2) batch)
        = Some cause
     /\ ErrUpsertFailed (ErrDimensionMismatch 2 1) = ErrUpsertFailed cause)
  /\ length (snd (upsertConcurrent (H := samplePlatform) (cosineIndex 2)
                    (rev (seq 0 7)) inputArray)) = 6%nat.
Proof.
  intros inputArray.
  destruct (upsertConcurrent_outcome (H := samplePlatform) (cosineIndex 2)
              (rev (seq 0 7)) inputArray) as (_ & Herr & Hsent).
  - symmetry. apply Permutation_rev.
  - split.
    + apply Herr. vm_compute. reflexivity.
    + rewrite (Permutation_length Hsent). vm_compute. reflexivity.
Defined.

Lemma encodeBatch_app_error `{Platform} (idx : Index)
    (before after : list VectorItem) (item : VectorItem) (err : error) :
  Forall (fun x => exists tuple, encodeItem idx x = Ok tuple) before ->
  encodeItem idx item = Err err ->
  encodeBatch idx (before ++ item :: after)%list = Err err.
Proof.
  intros Hbefore Hitem.
  induction Hbefore as [| x before [tuple Hx] _ IH]; cbn [app encodeBatch].
  - rewrite Hitem. reflexivity.
  - rewrite Hx, IH. reflexivity.
Qed.

(** X6. [upsertSequential] encodes the whole batch before it sends anything:
    when a record cannot be encoded, for one because its vector has not the
    dimension of the index, the call returns the error of the first such
    record and no request is made, also for the records before it. *)
Theorem upsertSequential_all_or_nothing `{Platform} (idx : Index)
    (before after : list VectorItem) (item : VectorItem) :
  Forall (fun x => exists tuple, encodeItem idx x = Ok tuple) before ->
  (forall err,
     encodeItem idx item = Err err ->
     upsertSequential idx (before ++ item :: after)%list = (Some err, []))
  /\ (len (Vector item) <> Dimension idx ->
      upsertSequential idx (before ++ item :: after)%list =
      (Some (ErrDimensionMismatch (Dimension idx) (len (Vector item))), [])).
Proof.
  intros Hbefore.
  assert (Hfail : forall err,
            encodeItem idx item = Err err ->
            upsertSequential idx (before ++ item :: after)%list = (Some err, [])).
  { intros err Hitem. unfold upsertSequential.
    rewrite (encodeBatch_app_error idx before after item err Hbefore Hitem).
    reflexivity. }
  split; [exact Hfail |].
  intros Hdim. apply Hfail. unfold encodeItem.
  rewrite (normalizeVector_dimension idx (Vector item) Hdim). reflexivity.
Qed.

Lemma upsertSequential_all_or_nothing_witness :
  upsertSequential (H := samplePlatform) (cosineIndex 2)
    [denseItem "a" [F32.one; F32.zero]; denseItem "b" [F32.one];
     denseItem "c" [F32.zero; F32.one]]
  = (Some (ErrDimensionMismatch 2 1), []).
Proof.
  destruct (upsertSequential_all_or_nothing (H := samplePlatform) (cosineIndex 2)
              [denseItem "a" [F32.one; F32.zero]]
              [denseItem "c" [F32.zero; F32.one]] (denseItem "b" [F32.one]))
    as (_ & Hdim).
  - constructor; [eexists; vm_compute; reflexivity | constructor].
  - apply Hdim. concrete.
Defined.

(** X7. The tuples [upsertSequential] sends are those of the records, in the
    order of the batch: tuple [i] carries the id of record [i], the vector
    and the norm [normalizeVector] gives for it, its metadata compressed by
    [JsonZip] and its filter as JSON text. *)
Theorem encodeBatch_in_order `{Platform} (idx : Index)
    (items : list VectorItem) (vectorBatch : list WireTuple) :
  encodeBatch idx items = Ok vectorBatch ->
  map wID vectorBatch = map ID items
  /\ Forall2 (fun item tuple =>
                normalizeVector idx (Vector item)
                = Ok (wVector tuple, wNorm tuple)
                /\ JsonZip (Meta item) = Ok (wMeta tuple)
                /\ jsonMarshal (VMap (Filter item))
                   = Ok (bytes_of_string (wFilter tuple)))
             items vectorBatch.
Proof.
  revert vectorBatch. induction items as [| item items IH]; intros vectorBatch.
  - cbn. intros [= <-]. split; [reflexivity | constructor].
  - cbn [encodeBatch].
    destruct (encodeItem idx item) as [tuple |] eqn:Hitem; [| discriminate].
    destruct (encodeBatch idx items) as [rest |]; [| discriminate].
    intros [= <-]. destruct (IH rest eq_refl) as [Hids Hall].
    unfold encodeItem in Hitem.
    destruct (normalizeVector idx (Vector item))
      as [[normalizedVector norm] |] eqn:Hnorm; [| discriminate].
    destruct (JsonZip (Meta item)) as [metaBytes |] eqn:Hmeta; [| discriminate].
    destruct (jsonMarshal (VMap (Filter item))) as [filterBytes |] eqn:Hfilter;
      [| discriminate].
    injection Hitem as <-. cbn [map wID].
    split; [f_equal; exact Hids |].
    constructor; [| exact Hall].
    cbn [wVector wNorm wMeta wFilter].
    split; [exact Hnorm | split; [exact Hmeta |]].
    rewrite Hfilter. unfold bytes_of_string, string_of_bytes.
    rewrite list_byte_of_string_of_list_byte. reflexivity.
Qed.

Lemma encodeBatch_in_order_witness :
  exists vectorBatch,
    encodeBatch (H := samplePlatform) (cosineIndex 2)
      [denseItem "a" [F32.one; F32.zero]; denseItem "b" [F32.of_Z 3; F32.of_Z 4]]
    = Ok vectorBatch
    /\ map wID vectorBatch = ["a"; "b"].
Proof.
  eexists. split; [vm_compute; reflexivity |].
  apply (encodeBatch_in_order (H := samplePlatform) (cosineIndex 2)
           [denseItem "a" [F32.one; F32.zero];
            denseItem "b" [F32.of_Z 3; F32.of_Z 4]]).
  vm_compute. reflexivity.
Defined.

(** X8. The tuple of a valid record carries the sparse pair exactly when the
    record has sparse data, and then both halves, as given and of the same
    length; otherwise it has five elements only. *)
Theorem encodeItem_sparse_pair `{Platform} (idx : Index) (item : VectorItem)
    (tuple : WireTuple) :
  validItem item ->
  encodeItem idx item = Ok tuple ->
  (SparseIndices item = [] ->
     SparseValues item = [] /\ wSparse tuple = None)
  /\ (SparseIndices item <> [] ->
      wSparse tuple = Some (SparseIndices item, SparseValues item)
      /\ length (SparseIndices item) = length (SparseValues item)).
Proof.
  intros [_ Hsame] Hitem. unfold encodeItem in Hitem.
  destruct (normalizeVector idx (Vector item)) as [[normalizedVector norm] |];
    [| discriminate].
  destruct (JsonZip (Meta item)) as [metaBytes |]; [| discriminate].
  destruct (jsonMarshal (VMap (Filter item))) as [filterBytes |];
    [| discriminate].
  injection Hitem as <-. cbn [wSparse].
  unfold len in *. split.
  - intros Hnil. rewrite Hnil in *. cbn [length] in *.
    split; [destruct (SparseValues item); [reflexivity | cbn in Hsame; lia] |].
    reflexivity.
  - intros Hsome. destruct (SparseIndices item) as [| i indices] eqn:Hi;
      [contradiction |].
    destruct (SparseValues item) as [| x values] eqn:Hv;
      [cbn [length] in Hsame; lia |].
    split; [reflexivity | cbn [length] in *; lia].
Qed.

Lemma encodeItem_sparse_pair_witness :
  exists tuple,
    encodeItem (H := samplePlatform) (cosineIndex 2)
      {| ID := "h"; Vector := [F32.one; F32.zero]; SparseIndices := [0; 10];
         SparseValues := [F32.one; F32.one]; Meta := []; Filter := [] |}
    = Ok tuple
    /\ wSparse tuple = Some ([0; 10], [F32.one; F32.one]).
Proof.
  eexists. split; [vm_compute; reflexivity |].
  apply (encodeItem_sparse_pair (H := samplePlatform) (cosineIndex 2)
           {| ID := "h"; Vector := [F32.one; F32.zero]; SparseIndices := [0; 10];
              SparseValues := [F32.one; F32.one]; Meta := []; Filter := [] |}).
  - split; [vm_compute; discriminate | reflexivity].
  - vm_compute. reflexivity.
  - discriminate.
Defined.

(** ** Query *)

Lemma checkQueryInputs_ok (vector : list F32.t) (sparseIndices : list Z)
    (sparseValues : list F32.t) :
  checkQueryInputs vector sparseIndices sparseValues = None ->
  len sparseIndices = len sparseValues
  /\ (vector <> [] \/ sparseIndices <> []).
Proof.
  unfold checkQueryInputs.
  pose proof (len_nonneg vector) as Hv.
  pose proof (len_nonneg sparseIndices) as Hi.
  pose proof (len_nonneg sparseValues) as Hs.
  rewrite !Z.gtb_ltb.
  destruct (0 <? len vector) eqn:Ev; destruct (0 <? len sparseIndices) eqn:Ei;
    destruct (0 <? len sparseValues) eqn:Es; cbn [negb andb Bool.eqb];
    try discriminate;
    repeat match goal with
      | E : (_ <? _) = true |- _ => apply Z.ltb_lt in E
      | E : (_ <? _) = false |- _ => apply Z.ltb_ge in E
      end.
  - destruct (len sparseIndices =? len sparseValues) eqn:E; [| discriminate].
    apply Z.eqb_eq in E. intros _. split; [exact E | left].
    intros ->. unfold len in Ev. cbn in Ev. lia.
  - intros _. split; [lia | left]. intros ->. unfold len in Ev. cbn in Ev. lia.
  - destruct (len sparseIndices =? len sparseValues) eqn:E; [| discriminate].
    apply Z.eqb_eq in E. intros _. split; [exact E | right].
    intros ->. unfold len in Ei. cbn in Ei. lia.
Qed.

(** X9. A query reaches the server only after every local check: whenever
    [QueryWithContext] makes a request, [k] is within 1 and 512, [ef]
    within 0 and 1024, the dense vector has the dimension of the index, the
    sparse indices and values have the same length, and the request is the
    single POST to the search path of the index, with the normalised vector,
    the sparse arrays, [k], [ef] and the vector flag as given, and no filter
    text when no filter was given. *)
Theorem query_request_only_if_valid `{Platform} (idx : Index)
    (sched : list nat) (vector : list F32.t) (sparseIndices : list Z)
    (sparseValues : list F32.t) (k : Z) (filter : option gomap) (ef : Z)
    (includeVectors : bool) :
  snd (QueryWithContext idx sched vector sparseIndices sparseValues k filter ef
         includeVectors) <> [] ->
  1 <= k <= MaxTopKAllowed
  /\ 0 <= ef <= MaxEfSearchAllowed
  /\ len vector = Dimension idx
  /\ len sparseIndices = len sparseValues
  /\ exists normalizedVector norm filterString,
       normalizeVector idx vector = Ok (normalizedVector, norm)
       /\ (filter = None -> filterString = "")
       /\ snd (QueryWithContext idx sched vector sparseIndices sparseValues k
                 filter ef includeVectors) =
          [ {| rqIndex := idx; rqMethod := "POST"; rqPath := "index/%s/search";
               rqBody :=
                 JSONBody
                   {| qVector := normalizedVector;
                      qSparseIndices := sparseIndices;
                      qSparseValues := sparseValues;
                      qTopK := k; qEf := ef;
                      qIncludeVectors := includeVectors;
                      qFilter := filterString |};
               rqContentType := "application/json" |} ].
Proof.
  unfold QueryWithContext.
  destruct (checkQueryParams k ef) eqn:Hparams; [intros []; reflexivity |].
  apply checkQueryParams_ok in Hparams as [Hk Hef].
  destruct (checkQueryInputs vector sparseIndices sparseValues) eqn:Hinputs;
    [intros []; reflexivity |].
  apply checkQueryInputs_ok in Hinputs as [Hsparse _].
  destruct (normalizeVector idx vector) as [[normalizedVector norm] |] eqn:Hnorm;
    [| intros []; reflexivity].
  assert (Hdim : len vector = Dimension idx).
  { destruct (Z.eq_dec (len vector) (Dimension idx)) as [Heq | Hne];
      [exact Heq | exfalso].
    rewrite (normalizeVector_dimension idx vector Hne) in Hnorm. discriminate. }
  assert (Hfilter : exists filterResult,
            match filter with
            | None => Ok ""
            | Some f =>
                match jsonMarshal (VSlice [VMap f]) with
                | Err err => Err (ErrSerializeFilter err)
                | Ok filterBytes => Ok (string_of_bytes filterBytes)
                end
            end = filterResult
            /\ forall filterString,
                 filterResult = Ok filterString -> filter = None ->
                 filterString = "").
  { eexists. split; [reflexivity |].
    intros filterString Hresult ->. congruence. }
  destruct Hfilter as (filterResult & -> & Hnone).
  destruct filterResult as [filterString |]; [| intros []; reflexivity].
  destruct (negb (queryRequestEncodable _)); [intros []; reflexivity |].
  unfold executeRequestWithContext.
  destruct (newRequest _); [intros []; reflexivity |].
  intros _.
  split; [exact Hk | split; [exact Hef | split; [exact Hdim | split;
    [exact Hsparse |]]]].
  exists normalizedVector, norm, filterString.
  split; [reflexivity | split; [apply Hnone; reflexivity |]].
  destruct (clientDo _); reflexivity.
Qed.

Lemma query_request_only_if_valid_witness :
  1 <= 10 <= MaxTopKAllowed
  /\ 0 <= 128 <= MaxEfSearchAllowed
  /\ len [F32.of_Z 3; F32.of_Z 4] = Dimension (cosineIndex 2).
Proof.
  destruct (query_request_only_if_valid (H := samplePlatform) (cosineIndex 2) []
              [F32.of_Z 3; F32.of_Z 4] [] [] 10 None 128 false)
    as (Hk & Hef & Hdim & _).
  - vm_compute. discriminate.
  - split; [exact Hk | split; [exact Hef | exact Hdim]].
Defined.

(** ** Decoding *)

(** On a tuple of five elements or more whose sixth is nil or an array, the
    two paths decode alike. *)
Lemma processResult_as_decodeInline `{Platform} (result : list value)
    (includeVectors : bool) :
  5 <= len result -> vectorSlotOK result -> filterDecodersAgree result ->
  exists data,
    decodeInline result includeVectors = Returns data
    /\ processResult result includeVectors = Returns (Ok data)
    /\ (includeVectors = false -> clearVector data = data).
Proof.
  intros Hlen Hslot Hjson. unfold processResult, decodeInline.
  apply Z.ltb_ge in Hlen. rewrite Hlen.
  unfold filterDecodersAgree in Hjson. rewrite Hjson.
  unfold vectorSlotOK in Hslot.
  destruct includeVectors; destruct (len result >? 5); cbn [andb];
    destruct (at_ result 5) as [| | | | | | | | | | | | | | | | l | |];
    try contradiction; cbn [negb vectorOf andb];
    try (eexists; split; [reflexivity | split; [reflexivity | intros; reflexivity]]);
    try (eexists; split; [reflexivity | split; [reflexivity | discriminate]]).
  - assert (Hvector : (if len (map toFloat32 l) >? 0 then map toFloat32 l else [])
                      = map toFloat32 l).
    { destruct (len (map toFloat32 l) >? 0) eqn:E; [reflexivity |].
      rewrite Z.gtb_ltb in E. apply Z.ltb_ge in E.
      pose proof (len_nonneg (map toFloat32 l)) as Hnn.
      symmetry. apply len_0. lia. }
    rewrite Hvector.
    eexists. split; [reflexivity | split; [reflexivity | discriminate]].
Qed.

Lemma decodeLoop_all `{Platform} (results : list (list value))
    (includeVectors : bool) :
  Forall (fun result =>
            5 <= len result /\ vectorSlotOK result /\ filterDecodersAgree result)
         results ->
  exists output,
    processResultsSequential results includeVectors = Returns output
    /\ Forall2 (fun result data =>
                  processResult result includeVectors = Returns (Ok data))
               results output.
Proof.
  intros Hall.
  assert (Hloop : exists output,
            decodeLoop results includeVectors = Returns output
            /\ Forall2 (fun result data =>
                          processResult result includeVectors = Returns (Ok data)
                          /\ (includeVectors = false -> clearVector data = data))
                       results output).
  { induction Hall as [| result results (Hlen & Hslot & Hjson) _ IH].
    - exists []. split; [reflexivity | constructor].
    - destruct IH as (rest & Hrest & Hrel).
      destruct (processResult_as_decodeInline result includeVectors
                  Hlen Hslot Hjson) as (data & Hinline & Hproc & Hclear).
      exists (data :: rest). cbn [decodeLoop].
      replace (len result <? 5) with false by (symmetry; apply Z.ltb_ge; lia).
      rewrite Hinline, Hrest.
      split; [reflexivity | constructor; [split; assumption | exact Hrel]]. }
  destruct Hloop as (output & Hrun & Hrel).
  exists output. unfold processResultsSequential. rewrite Hrun.
  split.
  - f_equal. destruct includeVectors; cbn [negb]; [reflexivity |].
    clear Hrun Hall. induction Hrel as [| result data results output [_ Hclear] _ IH];
      [reflexivity |].
    cbn [map]. rewrite (Hclear eq_refl), IH. reflexivity.
  - clear Hrun Hall. induction Hrel as [| result data results output [Hproc _] _ IH];
      constructor; assumption.
Qed.

Lemma processResultsConcurrent_all `{Platform} (sched : list nat)
    (results : list (list value)) (includeVectors : bool)
    (output : list QueryResult) :
  Permutation sched (seq 0 (length results)) ->
  Forall2 (fun result data =>
             processResult result includeVectors = Returns (Ok data))
          results output ->
  processResultsConcurrent sched results includeVectors = Returns (Ok output).
Proof.
  intros Hperm Hrel.
  destruct (sched_in_range sched (length results) Hperm) as [Hrange Hall].
  pose proof (Forall2_length _ _ _ Hrel) as Hlength.
  set (f := fun index => nth index output emptyQueryResult).
  unfold processResultsConcurrent.
  destruct (collect_all_ok f
              (omap (workerReport results includeVectors) sched)
              (replicate (length results) emptyQueryResult))
    as (final & Hrun & Hfinal & Hin & _).
  { apply Forall_forall. intros [index report] Hreport.
    apply list_elem_of_In, workerReports_inv in Hreport
      as (result & Hresult & -> & _).
    cbn [fst snd].
    destruct (Forall2_lookup_l _ _ _ _ _ Hrel Hresult) as (data & Hdata & Hproc).
    unfold f. rewrite (nth_lookup_Some _ _ _ _ Hdata). exact Hproc. }
  rewrite length_replicate in Hfinal, Hin.
  rewrite workerReports_indexes in Hin by exact Hrange.
  rewrite Hrun. do 2 f_equal.
  apply list_eq. intros j.
  destruct (Nat.lt_ge_cases j (length results)) as [Hlt | Hge].
  - rewrite (Hin j (Hall j Hlt) Hlt). unfold f.
    destruct (lookup_lt_is_Some_2 output j ltac:(lia)) as [data Hdata].
    rewrite (nth_lookup_Some _ _ _ _ Hdata). symmetry. exact Hdata.
  - rewrite !lookup_ge_None_2 by lia. reflexivity.
Qed.

(** X10. The two decoding paths give the same answer: for a response whose
    tuples all have five elements or more, with a sixth that is nil or an
    array, and on whose filter texts the two JSON entry points agree, the
    sequential loop and the concurrent assembly, under every order of the
    reports, return the same list of results. *)
Theorem decoding_paths_agree `{Platform} (sched : list nat)
    (results : list (list value)) (includeVectors : bool) :
  Permutation sched (seq 0 (length results)) ->
  Forall (fun result =>
            5 <= len result /\ vectorSlotOK result /\ filterDecodersAgree result)
         results ->
  exists output,
    processResultsSequential results includeVectors = Returns output
    /\ processResultsConcurrent sched results includeVectors
       = Returns (Ok output)
    /\ length output = length results.
Proof.
  intros Hperm Hall.
  destruct (decodeLoop_all results includeVectors Hall) as (output & Hseq & Hrel).
  exists output. split; [exact Hseq | split].
  - apply processResultsConcurrent_all; assumption.
  - symmetry. eapply Forall2_length; eassumption.
Qed.

Lemma decoding_paths_agree_witness :
  exists output,
    processResultsSequential (H := samplePlatform) sampleResults51 true
    = Returns output
    /\ processResultsConcurrent (H := samplePlatform) reverseSched51
         sampleResults51 true = Returns (Ok output)
    /\ length output = length sampleResults51.
Proof.
  apply (decoding_paths_agree (H := samplePlatform)).
  - unfold reverseSched51. symmetry. apply Permutation_rev.
  - apply Forall_forall. apply (Forall_forall (A := list value)).
    vm_compute. repeat constructor; discriminate.
Defined.

Lemma processResult_without_vectors `{Platform} (result : list value) :
  (exists err, processResult result false = Returns (Err err))
  \/ (exists data,
        processResult result false = Returns (Ok data) /\ rVector data = []).
Proof.
  unfold processResult. destruct (len result <? 5); [left; eauto |].
  right. cbn [andb]. eexists. split; reflexivity.
Qed.

Lemma collect_invariant (P : QueryResult -> Prop)
    (reports : list (nat * run (res QueryResult)))
    (processedResults final : list QueryResult) :
  Forall (fun report => forall data, snd report = Returns (Ok data) -> P data)
         reports ->
  Forall P processedResults ->
  collect reports processedResults = Returns (Ok final) ->
  Forall P final.
Proof.
  intros Hreports. revert processedResults.
  induction Hreports as [| [index report] reports Hreport _ IH];
    intros processedResults Hinit; cbn [collect].
  - intros [= <-]. exact Hinit.
  - destruct report as [[data | err] |]; try discriminate.
    apply IH. apply Forall_insert; [exact Hinit |].
    apply Hreport. reflexivity.
Qed.

(** X11. When the caller does not ask for the vectors, no result carries
    one, whatever the response holds: after the sequential loop as well as
    after the concurrent assembly, which in that case cannot panic either,
    in whatever order and however often the work items are reported. *)
Theorem vectors_left_out `{Platform} (sched : list nat)
    (results : list (list value)) :
  (forall output,
     processResultsSequential results false = Returns output ->
     Forall (fun data => rVector data = []) output)
  /\ processResultsConcurrent sched results false <> Panics
  /\ (forall output,
        processResultsConcurrent sched results false = Returns (Ok output) ->
        Forall (fun data => rVector data = []) output).
Proof.
  split; [| split].
  - intros output. unfold processResultsSequential.
    destruct (decodeLoop results false) as [processedResults |]; [| discriminate].
    cbn [negb]. intros [= <-].
    apply Forall_forall. intros data Hdata.
    apply list_elem_of_fmap in Hdata as (data' & -> & _). reflexivity.
  - unfold processResultsConcurrent.
    generalize (replicate (length results) emptyQueryResult).
    induction sched as [| index sched IH]; intros processedResults;
      cbn [omap list_omap collect]; [discriminate |].
    unfold workerReport at 1.
    destruct (results !! index) as [result |]; cbn [option_map]; [| apply IH].
    cbn [collect].
    destruct (processResult_without_vectors result)
      as [[err ->] | (data & -> & _)]; [discriminate | apply IH].
  - intros output Hrun. unfold processResultsConcurrent in Hrun.
    eapply (collect_invariant (fun data => rVector data = []));
      [| | exact Hrun].
    + apply Forall_forall. intros [index report] Hreport data Hdata.
      apply list_elem_of_In, workerReports_inv in Hreport
        as (result & _ & -> & _).
      cbn [snd] in Hdata.
      destruct (processResult_without_vectors result)
        as [[err Herr] | (data' & Hok & Hvector)]; congruence.
    + apply Forall_replicate. reflexivity.
Qed.

Lemma processResult_ill_typed_slot `{Platform} (result : list value) :
  vectorSlotIllTyped result ->
  (forall includeVectors, decodeInline result includeVectors = Panics)
  /\ processResult result true = Panics
  /\ exists data, processResult result false = Returns (Ok data).
Proof.
  intros [Hlen Hslot].
  assert (Hgt : (len result >? 5) = true) by (apply Z.gtb_lt; exact Hlen).
  assert (Hlt : (len result <? 5) = false) by (apply Z.ltb_ge; lia).
  unfold decodeInline, processResult. rewrite Hgt, Hlt. cbn [andb].
  destruct (at_ result 5); try contradiction; cbn [negb vectorOf];
    (split; [intros includeVectors; reflexivity |
             split; [reflexivity | eexists; reflexivity]]).
Qed.

(** X12. A tuple whose sixth element is neither nil nor an array makes the
    sequential loop panic even when the vectors are not asked for, because
    the loop converts the element before it looks at the flag; the
    concurrent path converts it only when the vectors are asked for, and
    decodes the same tuple without them. *)
Theorem ill_typed_vector_slot `{Platform} (before after : list (list value))
    (result : list value) (includeVectors : bool) :
  vectorSlotIllTyped result ->
  processResultsSequential (before ++ result :: after)%list includeVectors
  = Panics
  /\ processResult result true = Panics
  /\ exists data, processResult result false = Returns (Ok data).
Proof.
  intros Hill.
  destruct (processResult_ill_typed_slot result Hill) as (Hinline & Htrue & Hfalse).
  split; [| split; assumption].
  unfold processResultsSequential.
  assert (Hloop : decodeLoop (before ++ result :: after)%list includeVectors
                  = Panics).
  { induction before as [| x before IH]; cbn [app decodeLoop].
    - destruct Hill as [Hlen _].
      replace (len result <? 5) with false by (symmetry; apply Z.ltb_ge; lia).
      rewrite Hinline. reflexivity.
    - rewrite IH. destruct (len x <? 5); [reflexivity |].
      destruct (decodeInline x includeVectors); reflexivity. }
  rewrite Hloop. reflexivity.
Qed.

Lemma ill_typed_vector_slot_witness :
  let result := [VFloat32 F32.one; VString "7"; VNil; VString "";
                 VFloat32 F32.one; VString "not a vector"] in
  processResultsSequential (H := samplePlatform)
    ([sampleTuple Byte.x01] ++ result :: [])%list false = Panics
  /\ processResult (H := samplePlatform) result true = Panics
  /\ exists data,
       processResult (H := samplePlatform) result false = Returns (Ok data).
Proof.
  intros result.
  apply (ill_typed_vector_slot (H := samplePlatform)).
  split; [concrete | exact I].
Defined.

(** ** Status, strings and fields *)

(** X13. [checkError] answers nil for the status 200 and for no other: every
    other status gives an error, whether or not the body can be read. *)
Theorem checkError_nil_iff_200 `{Platform} (resp : response) :
  checkError resp = None <-> StatusCode resp = 200.
Proof.
  unfold checkError. destruct (StatusCode resp =? 200) eqn:E.
  - apply Z.eqb_eq in E. split; [intros _; exact E | reflexivity].
  - apply Z.eqb_neq in E. split; [| contradiction].
    destruct (Body resp); discriminate.
Qed.

(** X14. An id or a filter text decodes to the same string whether the wire
    carries it as a string or as the bytes of that string, and nil decodes
    to the empty string. *)
Theorem safeStringConvert_bytes `{Platform} (s : string) :
  safeStringConvert (VBytes (bytes_of_string s)) = s
  /\ safeStringConvert (VString s) = s
  /\ safeStringConvert VNil = "".
Proof.
  split; [| split; reflexivity].
  cbn [safeStringConvert]. unfold string_of_bytes, bytes_of_string.
  apply string_of_list_byte_of_string.
Qed.

(** X15. [processResult] on a tuple of five elements or more whose sixth is
    nil or an array never fails: the similarity and the norm are the first
    and fifth elements coerced by [toFloat32], the distance is 1 minus the
    similarity, and metadata that cannot be decompressed or a filter that
    cannot be parsed is left out of the result instead of being an error. *)
Theorem processResult_fields `{Platform} (result : list value)
    (includeVectors : bool) :
  5 <= len result -> vectorSlotOK result ->
  exists data,
    processResult result includeVectors = Returns (Ok data)
    /\ rSimilarity data = toFloat32 (at_ result 0)
    /\ rNorm data = toFloat32 (at_ result 4)
    /\ rDistance data = F32.sub F32.one (rSimilarity data)
    /\ (forall err,
          JsonUnzip (metaDataBytesOf (at_ result 2)) = Err err ->
          rMeta data = None)
    /\ (forall err,
          jsonDecodeObject (bytes_of_string (safeStringConvert (at_ result 3)))
          = Err err ->
          rFilter data = None).
Proof.
  intros Hlen Hslot. unfold processResult.
  apply Z.ltb_ge in Hlen. rewrite Hlen.
  assert (Hvector : exists vectorData,
            (if includeVectors && (len result >? 5)
                && negb match at_ result 5 with VNil => true | _ => false end
             then vectorOf (at_ result 5) else Returns [])
            = Returns vectorData).
  { unfold vectorSlotOK in Hslot.
    destruct (includeVectors && (len result >? 5)); cbn [andb];
      destruct (at_ result 5); try contradiction; cbn [negb vectorOf]; eauto. }
  destruct Hvector as [vectorData ->].
  eexists. split; [reflexivity |].
  cbn [rSimilarity rNorm rDistance rMeta rFilter].
  split; [reflexivity | split; [reflexivity | split; [reflexivity | split]]].
  - intros err Herr. unfold unzipMeta. rewrite Herr.
    destruct (len _ >? 0); reflexivity.
  - intros err Herr. rewrite Herr. destruct (negb _); reflexivity.
Qed.

Lemma processResult_fields_witness :
  exists data,
    processResult (H := samplePlatform)
      [VInt8 1; VString "7"; VBytes [Byte.x00]; VString "{"; VFloat64 F32.one]
      false
    = Returns (Ok data)
    /\ rSimilarity data = F32.one
    /\ rMeta data = None
    /\ rFilter data = None.
Proof.
  destruct (processResult_fields (H := samplePlatform)
              [VInt8 1; VString "7"; VBytes [Byte.x00]; VString "{";
               VFloat64 F32.one] false)
    as (data & Hrun & Hsim & _ & _ & Hmeta & Hfilter).
  - concrete.
  - exact I.
  - exists data. split; [exact Hrun | split; [| split]].
    + rewrite Hsim. vm_compute. reflexivity.
    + eapply Hmeta. vm_compute. reflexivity.
    + eapply Hfilter. vm_compute. reflexivity.
Defined.

(** ** The client and the index object *)

Lemma string_eqb_empty (s : string) : String.eqb s "" = false <-> s <> "".
Proof.
  split.
  - intros H ->. discriminate.
  - intros H. destruct (String.eqb s "") eqn:E; [| reflexivity].
    apply String.eqb_eq in E. contradiction.
Qed.

(** X16. [NewIndex] never leaves the version at 0 and keeps a version other
    than 0; the checksum is always -1; name, token and URL are the
    arguments; without parameters the precision stays empty, with
    parameters it is theirs or, if that is empty, "int8d". *)
Theorem NewIndex_defaults (name token url : string) (version : Z)
    (params : option IndexParams) :
  let ix := NewIndex name token url version params in
  ixVersion ix <> 0
  /\ (version <> 0 -> ixVersion ix = version)
  /\ ixChecksum ix = -1
  /\ Name (ixIndex ix) = name /\ Token (ixIndex ix) = token
  /\ URL (ixIndex ix) = url
  /\ (params = None -> ixPrecision ix = "" /\ Dimension (ixIndex ix) = 0)
  /\ (forall p, params = Some p ->
        ixPrecision ix <> ""
        /\ (pPrecision p <> "" -> ixPrecision ix = pPrecision p)
        /\ (pPrecision p = "" -> ixPrecision ix = "int8d")).
Proof.
  assert (Hv : (if version =? 0 then 1 else version) <> 0)
    by (destruct (Z.eqb_spec version 0); lia).
  assert (Hk : version <> 0 -> (if version =? 0 then 1 else version) = version)
    by (destruct (Z.eqb_spec version 0); intros; [contradiction | reflexivity]).
  destruct params as [p |]; cbn.
  - split; [exact Hv |]. split; [exact Hk |].
    do 4 (split; [reflexivity |]).
    split; [discriminate |].
    intros p' [= <-].
    destruct (String.eqb (pPrecision p) "") eqn:E; cbn.
    + apply String.eqb_eq in E.
      split; [discriminate |]. split; [intros; contradiction | reflexivity].
    + apply string_eqb_empty in E.
      split; [exact E |]. split; [reflexivity | intros; contradiction].
  - split; [exact Hv |]. split; [exact Hk |].
    do 4 (split; [reflexivity |]).
    split; [intros _; split; reflexivity | discriminate].
Qed.

Lemma splitFrom_no_separator (p : string) (cur : list ascii) (tail : string) :
  noColon p ->
  splitFrom ":"%char cur (p ++ tail)
  = splitFrom ":"%char (rev (list_ascii_of_string p) ++ cur)%list tail.
Proof.
  revert cur. induction p as [| c p IH]; intros cur Hp; [reflexivity |].
  cbn [append splitFrom list_ascii_of_string rev].
  destruct (Ascii.eqb_spec c ":"%char) as [-> | Hc].
  - exfalso. apply Hp. left. reflexivity.
  - rewrite IH.
    + rewrite <- app_assoc. reflexivity.
    + intros Hin. apply Hp. right. exact Hin.
Qed.

Lemma append_empty (s : string) : s ++ "" = s.
Proof. induction s as [| c s IH]; cbn; [| rewrite IH]; reflexivity. Qed.

Lemma splitFrom_join (parts : list string) (p : string) (cur : list ascii) :
  Forall noColon (p :: parts) ->
  splitFrom ":"%char cur (joinColon (p :: parts))
  = (string_of_list_ascii (rev cur) ++ p) :: parts.
Proof.
  revert p cur. induction parts as [| q parts IH]; intros p cur Hall.
  - cbn [joinColon]. rewrite <- (append_empty p) at 1.
    rewrite splitFrom_no_separator by (inversion Hall; assumption).
    cbn [splitFrom]. rewrite rev_app_distr, rev_involutive.
    f_equal. clear. induction (rev cur) as [| c l IHl]; cbn.
    + apply string_of_list_ascii_of_string.
    + rewrite IHl. reflexivity.
  - change (joinColon (p :: q :: parts))
      with (p ++ String ":"%char (joinColon (q :: parts))).
    inversion Hall as [| ? ? Hp Hrest]; subst.
    rewrite splitFrom_no_separator by assumption.
    cbn [splitFrom]. rewrite Ascii.eqb_refl.
    rewrite (IH q [] Hrest). cbn [rev string_of_list_ascii append].
    rewrite rev_app_distr, rev_involutive.
    f_equal. clear. induction (rev cur) as [| c l IHl]; cbn.
    + apply string_of_list_ascii_of_string.
    + rewrite IHl. reflexivity.
Qed.

Lemma stringsSplit_join (parts : list string) (p : string) :
  Forall noColon (p :: parts) ->
  stringsSplit (joinColon (p :: parts)) ":"%char = p :: parts.
Proof.
  intros Hall. unfold stringsSplit. rewrite splitFrom_join by assumption.
  reflexivity.
Qed.

(** X17. A token [key:secret:region], whatever follows the region after a
    further colon, makes a client of the cloud URL of that region whose
    token is [key:secret]; a token with one colon or none is kept whole and
    the client is the local one.  Arguments after the first are not read. *)
Theorem EndeeClient_token (key secret region : string) (rest others : list string) :
  noColon key -> noColon secret -> Forall noColon (region :: rest) ->
  EndeeClient (joinColon (key :: secret :: region :: rest) :: others)
  = {| BaseUrl := "https://" ++ region ++ ".endee.io/api/v1";
       clientToken := key ++ ":" ++ secret |}
  /\ EndeeClient ((key ++ ":" ++ secret) :: others)
     = {| BaseUrl := LocalBaseURL; clientToken := key ++ ":" ++ secret |}
  /\ EndeeClient (key :: others)
     = {| BaseUrl := LocalBaseURL; clientToken := key |}.
Proof.
  intros Hkey Hsecret Hrest.
  assert (Hne : forall s t, String.eqb (s ++ ":" ++ t) "" = false).
  { intros s t. destruct s; reflexivity. }
  split; [| split].
  - unfold EndeeClient.
    change (joinColon (key :: secret :: region :: rest))
      with (key ++ ":" ++ joinColon (secret :: region :: rest)).
    rewrite Hne. cbn [negb].
    change (key ++ ":" ++ joinColon (secret :: region :: rest))
      with (joinColon (key :: secret :: region :: rest)).
    rewrite stringsSplit_join by (repeat constructor; assumption || (inversion Hrest; assumption)).
    rewrite !len_cons.
    destruct (Z.gtb_spec (len rest + 1 + 1 + 1) 2) as [_ | Hle].
    + reflexivity.
    + pose proof (len_nonneg rest). lia.
  - unfold EndeeClient. rewrite Hne. cbn [negb].
    change (key ++ ":" ++ secret) with (joinColon [key; secret]).
    rewrite stringsSplit_join by (repeat constructor; assumption).
    reflexivity.
  - unfold EndeeClient. destruct (String.eqb key "") eqn:E; cbn [negb].
    + apply String.eqb_eq in E. subst key. reflexivity.
    + change key with (joinColon [key]) at 1.
      rewrite stringsSplit_join by (repeat constructor; assumption).
      reflexivity.
Qed.

Lemma EndeeClient_token_witness :
  EndeeClient ["k:s:eu:x"; "ignored"]
  = {| BaseUrl := "https://eu.endee.io/api/v1"; clientToken := "k:s" |}.
Proof.
  destruct (EndeeClient_token "k" "s" "eu" ["x"] ["ignored"]) as (H & _).
  - unfold noColon; cbn; intuition discriminate.
  - unfold noColon; cbn; intuition discriminate.
  - repeat constructor; unfold noColon; cbn; intuition discriminate.
  - exact H.
Defined.

(** ** Creating, deleting and fetching an index *)

Lemma clientBuildURL_slash (nd : Endee) (path : string) :
  hasPrefixSlash path = true -> clientBuildURL nd path = BaseUrl nd ++ path.
Proof.
  intros Hp. unfold clientBuildURL. rewrite Hp, andb_false_r. reflexivity.
Qed.

Lemma clientExecute_answers `{Server} (nd : Endee) (method path : string)
    (b : callBody) (contentType : string) (resp : response) :
  clientAnswers nd method path b contentType resp ->
  clientExecute nd method path b contentType
  = (Done resp,
     [{| cMethod := method; cTarget := ClientURL (clientBuildURL nd path);
         cBody := b; cContentType := contentType;
         cAuthorization := clientToken nd |}]).
Proof.
  intros [Hnew Hdo]. unfold clientExecute. cbn [cTarget].
  rewrite Hnew, Hdo. reflexivity.
Qed.

Lemma clientExecute_sent `{Server} (nd : Endee) (method path : string)
    (b : callBody) (contentType : string) :
  snd (clientExecute nd method path b contentType)
  = match newCall method (ClientURL (clientBuildURL nd path)) with
    | Some _ => []
    | None => [{| cMethod := method; cTarget := ClientURL (clientBuildURL nd path);
                  cBody := b; cContentType := contentType;
                  cAuthorization := clientToken nd |}]
    end.
Proof.
  unfold clientExecute. cbn [cTarget].
  destruct (newCall _ _); [reflexivity |]. destruct (doCall _); reflexivity.
Qed.

(** X18. [CreateIndexWithContext] hands a request to the HTTP client exactly
    when the name is valid, the dimension is at most 10000 (a dimension of
    zero or below passes), the space type in lower case is one of the
    three, and the request can be built.  The request is then the only one:
    a POST to the base URL followed by "/index/create" that carries the
    arguments, the space type in lower case, the checksum -1 and
    [use_int8d] as the negation of [useFp16].  An invalid name is reported
    before anything else is looked at. *)
Theorem CreateIndex_call_iff_valid `{Platform} `{Server} (nd : Endee)
    (name : string) (dimension : Z) (spaceType : string) (M efCon : Z)
    (useFp16 : bool) (version : option Z) (sparseDim : Z) :
  let out :=
    CreateIndexWithContext nd name dimension spaceType M efCon useFp16
      version sparseDim in
  let req :=
    {| cMethod := "POST";
       cTarget := ClientURL (BaseUrl nd ++ "/index/create");
       cBody :=
         CreateIndexBody
           {| crIndexName := name; crDim := dimension;
              crSpaceType := stringsToLower spaceType; crM := M;
              crEfCon := efCon; crSparseDim := sparseDim; crChecksum := -1;
              crUseInt8d := negb useFp16; crVersion := version |};
       cContentType := "application/json";
       cAuthorization := clientToken nd |} in
  (snd out = [req]
   <-> isValidIndexName name = true
       /\ dimension <= 10000
       /\ validSpaceTypes (stringsToLower spaceType) = true
       /\ newCall "POST" (ClientURL (BaseUrl nd ++ "/index/create")) = None)
  /\ (snd out = [req] \/ snd out = [])
  /\ (isValidIndexName name = false -> out = (Some ErrInvalidIndexName, [])).
Proof.
  intros out req.
  assert (Hurl : clientBuildURL nd "/index/create" = BaseUrl nd ++ "/index/create")
    by (apply clientBuildURL_slash; reflexivity).
  assert (Hsnd : snd out
                 = if negb (isValidIndexName name) then []
                   else if dimension >? MaxDimensionAllowed then []
                   else if negb (validSpaceTypes (stringsToLower spaceType)) then []
                   else match newCall "POST" (ClientURL (BaseUrl nd ++ "/index/create")) with
                        | Some _ => []
                        | None => [req]
                        end).
  { subst out. unfold CreateIndexWithContext.
    destruct (isValidIndexName name); cbn [negb]; [| reflexivity].
    destruct (dimension >? MaxDimensionAllowed); [reflexivity |].
    destruct (validSpaceTypes (stringsToLower spaceType)); cbn [negb];
      [| reflexivity].
    match goal with
    | |- context [clientExecute ?a ?b ?c ?d ?e] =>
        pose proof (clientExecute_sent a b c d e) as Hs;
        destruct (clientExecute a b c d e) as [[resp | err] sent]
    end; cbn [snd] in Hs |- *.
    - rewrite Hurl in Hs. destruct (readResponseBody resp); exact Hs.
    - rewrite Hurl in Hs. exact Hs. }
  split; [| split].
  - rewrite Hsnd. unfold MaxDimensionAllowed.
    destruct (isValidIndexName name); cbn [negb].
    2: { split; [discriminate | intros (? & _); discriminate]. }
    destruct (Z.gtb_spec dimension 10000).
    { split; [discriminate | intros (_ & ? & _); lia]. }
    destruct (validSpaceTypes (stringsToLower spaceType)); cbn [negb].
    2: { split; [discriminate | intros (_ & _ & ? & _); discriminate]. }
    destruct (newCall "POST" _).
    { split; [discriminate | intros (_ & _ & _ & ?); discriminate]. }
    split; [intros _ | reflexivity].
    split; [reflexivity |]. split; [lia |]. split; reflexivity.
  - rewrite Hsnd.
    destruct (negb (isValidIndexName name)); [right; reflexivity |].
    destruct (dimension >? MaxDimensionAllowed); [right; reflexivity |].
    destruct (negb (validSpaceTypes (stringsToLower spaceType)));
      [right; reflexivity |].
    destruct (newCall _ _); [right | left]; reflexivity.
  - intros Hname. subst out. unfold CreateIndexWithContext.
    rewrite Hname. reflexivity.
Qed.

Lemma CreateIndex_call_iff_valid_witness :
  length (snd (CreateIndexWithContext
                 (H := samplePlatform)
                 (H0 := sampleServer {| StatusCode := 200; Body := Ok [] |} [])
                 sampleClient "books" (-5) "COSINE" 16 128 true None 0)) = 1%nat.
Proof.
  destruct (CreateIndex_call_iff_valid
              (H := samplePlatform)
              (H0 := sampleServer {| StatusCode := 200; Body := Ok [] |} [])
              sampleClient "books" (-5) "COSINE" 16 128 true None 0)
    as ((_ & Hsent) & _).
  rewrite Hsent; [reflexivity |].
  split; [reflexivity |]. split; [lia |]. split; reflexivity.
Defined.

(** X19. When the transport answers, [DeleteIndexWithContext] returns no
    error exactly for status 200, also when the body cannot be read; for
    any other status the error is the one of [checkError] on the response
    as it arrived.  One DELETE is sent either way. *)
Theorem DeleteIndex_nil_iff_200 `{Platform} `{Server} (nd : Endee)
    (name : string) (resp : response) :
  clientAnswers nd "DELETE" ("/index/" ++ name ++ "/delete") NoBody "" resp ->
  (fst (DeleteIndexWithContext nd name) = None <-> StatusCode resp = 200)
  /\ (StatusCode resp <> 200 ->
      exists err, checkError resp = Some err
                  /\ fst (DeleteIndexWithContext nd name) = Some (Base err))
  /\ snd (DeleteIndexWithContext nd name)
     = [{| cMethod := "DELETE";
           cTarget := ClientURL (BaseUrl nd ++ "/index/" ++ name ++ "/delete");
           cBody := NoBody; cContentType := "";
           cAuthorization := clientToken nd |}].
Proof.
  intros Hans. unfold DeleteIndexWithContext.
  rewrite (clientExecute_answers _ _ _ _ _ _ Hans).
  rewrite clientBuildURL_slash by reflexivity.
  unfold readResponseBody, checkError.
  destruct (Z.eqb_spec (StatusCode resp) 200) as [H200 | H200].
  - split; [| split]; [| contradiction | reflexivity].
    split; [intros _; exact H200 | reflexivity].
  - destruct (Body resp) as [bodyBytes | err].
    + split; [| split]; [| | reflexivity].
      * split; [discriminate | contradiction].
      * intros _. eexists. split; reflexivity.
    + split; [| split]; [| | reflexivity].
      * split; [discriminate | contradiction].
      * intros _. eexists. split; reflexivity.
Qed.

Lemma DeleteIndex_nil_iff_200_witness :
  fst (DeleteIndexWithContext
         (H := samplePlatform)
         (H0 := sampleServer {| StatusCode := 200; Body := Err (LibError "EOF") |} [])
         sampleClient "books") = None.
Proof.
  destruct (DeleteIndex_nil_iff_200
              (H := samplePlatform)
              (H0 := sampleServer {| StatusCode := 200; Body := Err (LibError "EOF") |} [])
              sampleClient "books"
              {| StatusCode := 200; Body := Err (LibError "EOF") |})
    as ((_ & Hnil) & _).
  - split; reflexivity.
  - apply Hnil. reflexivity.
Defined.

(** X20. The index [GetIndexWithContext] returns on a 200 response that
    decodes: its name is the name asked for (not the one in the response),
    URL and token are the client's, the version is 1, the checksum -1 (not
    the one in the response), the sparse dimension 0, the precision
    "float16" or "int8d" after [use_fp16]; dimension, space type, count,
    library token and M are the response's. *)
Theorem GetIndex_fields `{Platform} `{Server} (nd : Endee) (name : string)
    (resp : response) (data : GetIndexResponse) :
  clientAnswers nd "GET" ("/index/" ++ name ++ "/info") NoBody
    "application/json" resp ->
  StatusCode resp = 200 ->
  decodeIndexInfo (match Body resp with
                   | Ok content => content
                   | Err _ => partialBody resp
                   end) = Ok data ->
  exists ix,
    fst (GetIndexWithContext nd name) = Done ix
    /\ Name (ixIndex ix) = name
    /\ URL (ixIndex ix) = BaseUrl nd
    /\ Token (ixIndex ix) = clientToken nd
    /\ ixVersion ix = 1
    /\ ixChecksum ix = -1
    /\ SparseDim (ixIndex ix) = 0
    /\ ixPrecision ix = (if giUseFp16 data then "float16" else "int8d")
    /\ Dimension (ixIndex ix) = giDimension data
    /\ SpaceType (ixIndex ix) = giSpaceType data
    /\ ixCount ix = giTotalElements data
    /\ ixLibToken ix = giLibToken data
    /\ ixM ix = giM data.
Proof.
  intros Hans H200 Hdec. unfold GetIndexWithContext.
  rewrite (clientExecute_answers _ _ _ _ _ _ Hans).
  unfold readResponseBody, checkError. rewrite H200. cbn [Z.eqb Pos.eqb].
  rewrite Hdec. eexists. split; [reflexivity |].
  cbn. destruct (giUseFp16 data); cbn; repeat split; reflexivity.
Qed.

Lemma GetIndex_fields_witness :
  exists ix,
    fst (GetIndexWithContext
           (H := samplePlatform)
           (H0 := sampleServer {| StatusCode := 200; Body := Ok [] |} [])
           sampleClient "books") = Done ix
    /\ Name (ixIndex ix) = "books" /\ ixChecksum ix = -1.
Proof.
  destruct (GetIndex_fields
              (H := samplePlatform)
              (H0 := sampleServer {| StatusCode := 200; Body := Ok [] |} [])
              sampleClient "books" {| StatusCode := 200; Body := Ok [] |}
              sampleIndexInfo)
    as (ix & Hix & Hname & _ & _ & _ & Hsum & _).
  - split; reflexivity.
  - reflexivity.
  - reflexivity.
  - exists ix. split; [exact Hix |]. split; [exact Hname | exact Hsum].
Defined.

(** ** Deleting vectors *)

Lemma indexExecute_answers `{Server} (idx : Index) (method path : string)
    (b : callBody) (contentType : string) (resp : response) :
  indexAnswers idx method path b contentType resp ->
  indexExecute idx method path b contentType
  = (Done resp,
     [{| cMethod := method; cTarget := IndexPath idx path; cBody := b;
         cContentType := contentType; cAuthorization := Token idx |}]).
Proof.
  intros [Hnew Hdo]. unfold indexExecute. cbn [cTarget].
  rewrite Hnew, Hdo. reflexivity.
Qed.

Lemma checkError_statusError `{Platform} (resp : response)
    (bodyBytes : list Byte.byte) :
  StatusCode resp <> 200 ->
  Body resp = Ok bodyBytes ->
  checkError resp
  = Some (statusError (StatusCode resp) (errorMessage bodyBytes)).
Proof.
  intros H200 Hbody. unfold checkError, statusError.
  destruct (Z.eqb_spec (StatusCode resp) 200); [contradiction |].
  rewrite Hbody. reflexivity.
Qed.

Lemma errorMessage_empty `{Platform} (err : error) :
  jsonUnmarshalObject [] = Err err -> errorMessage [] = "Unknown error".
Proof. intros Hjson. unfold errorMessage. rewrite Hjson. reflexivity. Qed.

Lemma readThenCheck_lost `{Platform} (resp : response)
    (content : list Byte.byte) (err : error) :
  Body resp = Ok content ->
  StatusCode resp <> 200 ->
  jsonUnmarshalObject [] = Err err ->
  readThenCheck resp
  = Failed (Base (statusError (StatusCode resp) "Unknown error")).
Proof.
  intros Hbody H200 Hjson. unfold readThenCheck. rewrite Hbody.
  rewrite (checkError_statusError (drained resp) []) by (cbn; auto).
  rewrite (errorMessage_empty err Hjson). reflexivity.
Qed.

(** X21. [DeleteVectorByIdWithContext] reads the body of the response
    before it calls [checkError], which then finds an empty body: for a
    status other than 200 the error says "Unknown error" (or, for 500, 502,
    503 and 504, the fixed text), whatever the server has written.  JSON
    does not parse the empty input. *)
Theorem delete_vector_error_message_lost `{Platform} `{Server} (idx : Index)
    (id : string) (resp : response) (content : list Byte.byte) (err : error) :
  indexAnswers idx "DELETE"
    ("index/" ++ Name idx ++ "/vector/" ++ id ++ "/delete") NoBody "" resp ->
  Body resp = Ok content ->
  StatusCode resp <> 200 ->
  jsonUnmarshalObject [] = Err err ->
  fst (DeleteVectorByIdWithContext idx id)
  = Failed (Base (statusError (StatusCode resp) "Unknown error")).
Proof.
  intros Hans Hbody H200 Hjson. unfold DeleteVectorByIdWithContext.
  rewrite (indexExecute_answers _ _ _ _ _ _ Hans). cbn [fst].
  exact (readThenCheck_lost resp content err Hbody H200 Hjson).
Qed.

Lemma delete_vector_error_message_lost_witness :
  fst (DeleteVectorByIdWithContext
         (H := samplePlatform)
         (H0 := sampleServer
                  {| StatusCode := 404;
                     Body := Ok (bytes_of_string "no such vector") |} [])
         (cosineIndex 3) "doc-1")
  = Failed (Base (NotFoundError "Unknown error")).
Proof.
  apply (delete_vector_error_message_lost
           (H := samplePlatform)
           (H0 := sampleServer
                    {| StatusCode := 404;
                       Body := Ok (bytes_of_string "no such vector") |} [])
           (cosineIndex 3) "doc-1"
           {| StatusCode := 404; Body := Ok (bytes_of_string "no such vector") |}
           (bytes_of_string "no such vector") (LibError "invalid character")).
  - split; reflexivity.
  - reflexivity.
  - discriminate.
  - reflexivity.
Defined.

(** X22. [DeleteVectorByFilterWithContext] sends nothing for a nil filter,
    which is an error of its own, and nothing for a filter JSON cannot
    write; otherwise, when the request can be built, it sends one DELETE
    whose body is the object with the one key "filter" and the filter as
    the only element of its array. *)
Theorem delete_by_filter_request `{Platform} `{Server} (idx : Index)
    (filter : option gomap) :
  let out := DeleteVectorByFilterWithContext idx filter in
  (filter = None -> out = (Failed ErrFilterNil, []))
  /\ (forall m, filter = Some m ->
        (snd out
         = [{| cMethod := "DELETE";
               cTarget := IndexPath idx ("index/" ++ Name idx ++ "/vectors/delete");
               cBody := JSONValueBody (VMap [("filter", VSlice [VMap m])]);
               cContentType := "application/json";
               cAuthorization := Token idx |}]
         <-> jsonEncodable (VMap m) = true
             /\ newCall "DELETE"
                  (IndexPath idx ("index/" ++ Name idx ++ "/vectors/delete"))
                = None)
        /\ (jsonEncodable (VMap m) = false ->
            out = (Failed (Base (ErrMarshalRequest ErrJSONUnsupported)), []))).
Proof.
  intros out. split.
  - intros ->. reflexivity.
  - intros m ->. subst out. unfold DeleteVectorByFilterWithContext, jsonMarshal.
    assert (Henc : jsonEncodable (VMap [("filter", VSlice [VMap m])])
                   = jsonEncodable (VMap m)).
    { cbn. rewrite !andb_true_r. reflexivity. }
    rewrite Henc.
    destruct (jsonEncodable (VMap m)).
    + split; [| discriminate].
      unfold indexExecute. cbn [cTarget].
      destruct (newCall "DELETE" _).
      * cbn. split; [discriminate | intros (_ & ?); discriminate].
      * destruct (doCall _); cbn; (split; [intros _; split; reflexivity | reflexivity]).
    + split; [| reflexivity].
      cbn. split; [discriminate | intros (? & _); discriminate].
Qed.

(** ** Fetching one vector *)

Lemma GetVector_decodes `{Platform} `{Server} (idx : Index) (id : string)
    (vectorObj : list value) :
  vectorArrives idx id vectorObj ->
  fst (GetVectorWithContext idx id)
  = if len vectorObj <? 5 then
      Returns (Failed (ErrInvalidResponseFormat (length vectorObj)))
    else
      match decodeVector vectorObj with
      | Panics => Panics
      | Returns item => Returns (Done item)
      end.
Proof.
  intros (resp & content & Hans & H200 & Hbody & Hmsg).
  unfold GetVectorWithContext.
  rewrite (indexExecute_answers _ _ _ _ _ _ Hans).
  unfold checkError. rewrite H200. cbn [Z.eqb Pos.eqb].
  rewrite Hbody, Hmsg.
  destruct (len vectorObj <? 5); [reflexivity |].
  destruct (decodeVector vectorObj); reflexivity.
Qed.

Lemma sparseIndexOf_narrow (ixs : list value) :
  Forall narrowInteger ixs -> map sparseIndexOf ixs = repeat 0 (length ixs).
Proof.
  induction 1 as [| v ixs Hv _ IH]; [reflexivity |].
  cbn [map length repeat]. rewrite IH.
  destruct v; try contradiction; reflexivity.
Qed.

(** X23. The sparse indices [GetVectorWithContext] returns, for an array of
    seven elements or more: as many as the response has; the [int64] ones
    as they are; and zero for every index that msgpack has decoded to an
    integer type narrower than 64 bits. *)
Theorem get_vector_sparse_indices `{Platform} `{Server} (idx : Index)
    (id : string) (vectorObj vectorInterface indicesInterface : list value) :
  vectorArrives idx id vectorObj ->
  7 <= len vectorObj ->
  at_ vectorObj 4 = VSlice vectorInterface ->
  at_ vectorObj 5 = VSlice indicesInterface ->
  exists item,
    fst (GetVectorWithContext idx id) = Returns (Done item)
    /\ len (SparseIndices item) = len indicesInterface
    /\ (forall ns, indicesInterface = map VInt64 ns -> SparseIndices item = ns)
    /\ (Forall narrowInteger indicesInterface ->
        SparseIndices item = repeat 0 (length indicesInterface)).
Proof.
  intros Harr Hlen Hvec Hixs.
  rewrite (GetVector_decodes idx id vectorObj Harr).
  destruct (Z.ltb_spec (len vectorObj) 5); [lia |].
  unfold decodeVector. rewrite Hvec.
  destruct (Z.geb_spec (len vectorObj) 7); [| lia].
  eexists. split; [reflexivity |]. cbn [SparseIndices].
  rewrite Hixs. cbn [sparseIndicesOf].
  split; [| split].
  - unfold len. rewrite length_map. reflexivity.
  - intros ns ->. rewrite map_map. cbn [sparseIndexOf]. apply map_id.
  - apply sparseIndexOf_narrow.
Qed.

Lemma get_vector_sparse_indices_witness :
  exists item,
    fst (GetVectorWithContext
           (H := samplePlatform)
           (H0 := sampleServer {| StatusCode := 200; Body := Ok [] |}
                    [VString "doc-1"; VNil; VNil; VFloat32 F32.one;
                     VSlice [VFloat32 F32.one]; VSlice [VInt8 7; VUint16 300];
                     VSlice [VFloat32 F32.one; VFloat32 F32.one]])
           (l2Index 1) "doc-1") = Returns (Done item)
    /\ SparseIndices item = [0; 0].
Proof.
  destruct (get_vector_sparse_indices
              (H := samplePlatform)
              (H0 := sampleServer {| StatusCode := 200; Body := Ok [] |}
                       [VString "doc-1"; VNil; VNil; VFloat32 F32.one;
                        VSlice [VFloat32 F32.one]; VSlice [VInt8 7; VUint16 300];
                        VSlice [VFloat32 F32.one; VFloat32 F32.one]])
              (l2Index 1) "doc-1"
              [VString "doc-1"; VNil; VNil; VFloat32 F32.one;
               VSlice [VFloat32 F32.one]; VSlice [VInt8 7; VUint16 300];
               VSlice [VFloat32 F32.one; VFloat32 F32.one]]
              [VFloat32 F32.one] [VInt8 7; VUint16 300])
    as (item & Hitem & _ & _ & Hzero).
  - exists {| StatusCode := 200; Body := Ok [] |}, [].
    split; [split; reflexivity |]. split; [reflexivity |]. split; reflexivity.
  - unfold len. cbn. lia.
  - reflexivity.
  - reflexivity.
  - exists item. split; [exact Hitem |]. apply Hzero.
    repeat constructor.
Defined.

(** X24. Fetching what upsert has written: if the server answers with the
    array [upsertSequential] built for a record without a sparse pair, and
    the metadata bytes and the filter text decode, [GetVectorWithContext]
    returns the record's id, the decoded metadata and filter, no sparse
    pair, and as vector the normalised one that was sent, not the vector
    the caller submitted. *)
Theorem get_vector_round_trip `{Platform} `{Server} (idx : Index)
    (item : VectorItem) (t : WireTuple) (id : string) (meta filter : gomap) :
  encodeItem idx item = Ok t ->
  vectorArrives idx id (storedTuple t) ->
  JsonUnzip (wMeta t) = Ok meta ->
  wFilter t <> "" ->
  jsonDecodeObject (bytes_of_string (wFilter t)) = Ok filter ->
  exists got,
    fst (GetVectorWithContext idx id) = Returns (Done got)
    /\ ID got = ID item
    /\ normalizeVector idx (Vector item) = Ok (Vector got, wNorm t)
    /\ Meta got = meta
    /\ Filter got = filter
    /\ SparseIndices got = [] /\ SparseValues got = [].
Proof.
  intros Henc Harr Hmeta Hfne Hfilter.
  rewrite (GetVector_decodes idx id (storedTuple t) Harr).
  change (len (storedTuple t) <? 5) with false. cbv iota.
  unfold decodeVector.
  change (at_ (storedTuple t) 4) with (VSlice (map VFloat32 (wVector t))).
  change (len (storedTuple t) >=? 7) with false. cbv iota.
  change (at_ (storedTuple t) 0) with (VString (wID t)).
  change (at_ (storedTuple t) 1) with (VBytes (wMeta t)).
  change (at_ (storedTuple t) 2) with (VString (wFilter t)).
  cbn [safeStringConvert metaDataBytesOf].
  eexists. split; [reflexivity |].
  cbn [ID Vector Meta Filter SparseIndices SparseValues].
  assert (Hvec : map toFloat32 (map VFloat32 (wVector t)) = wVector t).
  { rewrite map_map. cbn [toFloat32]. apply map_id. }
  rewrite Hvec.
  unfold encodeItem in Henc.
  destruct (normalizeVector idx (Vector item)) as [[normalizedVector norm] | e];
    [| discriminate].
  destruct (JsonZip (Meta item)) as [metaBytes | e]; [| discriminate].
  destruct (jsonMarshal (VMap (Filter item))) as [filterBytes | e];
    [| discriminate].
  injection Henc as <-. cbn [wID wNorm wVector wMeta wFilter] in *.
  split; [reflexivity |]. split; [reflexivity |].
  split; [| split; [| split; reflexivity]].
  - destruct (Z.gtb_spec (len metaBytes) 0) as [Hpos | Hzero].
    + rewrite Hmeta. reflexivity.
    + unfold JsonUnzip in Hmeta.
      assert (Hl : len metaBytes = 0) by (pose proof (len_nonneg metaBytes); lia).
      rewrite Hl in Hmeta. cbn in Hmeta. injection Hmeta as <-. reflexivity.
  - destruct (String.eqb (string_of_bytes filterBytes) "") eqn:E.
    + apply String.eqb_eq in E. contradiction.
    + cbn [negb]. rewrite Hfilter. reflexivity.
Qed.

Lemma get_vector_round_trip_witness :
  exists got,
    fst (GetVectorWithContext
           (H := samplePlatform)
           (H0 := sampleServer {| StatusCode := 200; Body := Ok [] |}
                    (storedTuple sampleStored))
           (cosineIndex 2) "doc-1") = Returns (Done got)
    /\ ID got = "doc-1"
    /\ Meta got = [("title", VString "Doc 1")].
Proof.
  destruct (get_vector_round_trip
              (H := samplePlatform)
              (H0 := sampleServer {| StatusCode := 200; Body := Ok [] |}
                       (storedTuple sampleStored))
              (cosineIndex 2) sampleDocument sampleStored "doc-1"
              [("title", VString "Doc 1")] [("category", VString "tech")])
    as (got & Hgot & Hid & _ & Hmeta & _).
  - vm_compute. reflexivity.
  - exists {| StatusCode := 200; Body := Ok [] |}, [].
    split; [split; reflexivity |]. split; [reflexivity |]. split; reflexivity.
  - vm_compute. reflexivity.
  - discriminate.
  - vm_compute. reflexivity.
  - exists got. split; [exact Hgot |]. split; [exact Hid | exact Hmeta].
Defined.

(** X25. On a 200 response that msgpack decodes, [GetVectorWithContext]
    panics exactly when the array has five elements or more and the fifth
    is not an array (nil included); with fewer than five elements it
    returns the error that counts them. *)
Theorem get_vector_panics_iff `{Platform} `{Server} (idx : Index)
    (id : string) (vectorObj : list value) :
  vectorArrives idx id vectorObj ->
  (fst (GetVectorWithContext idx id) = Panics
   <-> 5 <= len vectorObj /\ forall l, at_ vectorObj 4 <> VSlice l)
  /\ (len vectorObj < 5 ->
      fst (GetVectorWithContext idx id)
      = Returns (Failed (ErrInvalidResponseFormat (length vectorObj)))).
Proof.
  intros Harr. rewrite (GetVector_decodes idx id vectorObj Harr).
  destruct (Z.ltb_spec (len vectorObj) 5) as [Hshort | Hlong].
  - split; [| reflexivity].
    split; [discriminate | intros (? & _); lia].
  - split; [| lia]. unfold decodeVector.
    destruct (at_ vectorObj 4) eqn:E;
      try (split; [intros _; split; [exact Hlong | discriminate] | reflexivity]).
    split; [discriminate |]. intros (_ & Hno). exfalso. exact (Hno _ eq_refl).
Qed.

Lemma get_vector_panics_iff_witness :
  fst (GetVectorWithContext
         (H := samplePlatform)
         (H0 := sampleServer {| StatusCode := 200; Body := Ok [] |}
                  [VString "doc-1"; VNil; VNil; VFloat32 F32.one; VNil])
         (l2Index 1) "doc-1") = Panics.
Proof.
  destruct (get_vector_panics_iff
              (H := samplePlatform)
              (H0 := sampleServer {| StatusCode := 200; Body := Ok [] |}
                       [VString "doc-1"; VNil; VNil; VFloat32 F32.one; VNil])
              (l2Index 1) "doc-1"
              [VString "doc-1"; VNil; VNil; VFloat32 F32.one; VNil])
    as ((_ & Hpanics) & _).
  - exists {| StatusCode := 200; Body := Ok [] |}, [].
    split; [split; reflexivity |]. split; [reflexivity |]. split; reflexivity.
  - apply Hpanics. split; [unfold len; cbn; lia | discriminate].
Defined.

(** X26. For a status other than 200 [GetVectorWithContext] returns the
    error of that status with the message of the response body, and does
    not decode anything. *)
Theorem get_vector_error_keeps_message `{Platform} `{Server} (idx : Index)
    (id : string) (resp : response) (content : list Byte.byte) :
  indexAnswers idx "POST" "index/%s/vector/get"
    (JSONValueBody (VMap [("id", VString id)])) "application/json" resp ->
  StatusCode resp <> 200 ->
  Body resp = Ok content ->
  fst (GetVectorWithContext idx id)
  = Returns (Failed (Base (statusError (StatusCode resp) (errorMessage content)))).
Proof.
  intros Hans H200 Hbody. unfold GetVectorWithContext.
  rewrite (indexExecute_answers _ _ _ _ _ _ Hans).
  rewrite (checkError_statusError resp content H200 Hbody). reflexivity.
Qed.

Lemma get_vector_error_keeps_message_witness :
  fst (GetVectorWithContext
         (H := samplePlatform)
         (H0 := sampleServer
                  {| StatusCode := 404;
                     Body := Ok (bytes_of_string "no such vector") |} [])
         (l2Index 1) "doc-1")
  = Returns (Failed (Base (NotFoundError "no such vector"))).
Proof.
  apply (get_vector_error_keeps_message
           (H := samplePlatform)
           (H0 := sampleServer
                    {| StatusCode := 404;
                       Body := Ok (bytes_of_string "no such vector") |} [])
           (l2Index 1) "doc-1"
           {| StatusCode := 404; Body := Ok (bytes_of_string "no such vector") |}
           (bytes_of_string "no such vector")).
  - split; reflexivity.
  - discriminate.
  - reflexivity.
Defined.
